(** * image_classification: the upload / analyse / history pipeline of the
    [predict] Django application, embedded from [predict/views.py] and
    [predict/models.py].

    Python values are modelled as follows.
    - [str] is [string], the UTF-8 bytes of the text.  [strip] removes
      white-space code points as [str.strip] does.  [lower] folds the ASCII
      letters and leaves every other byte alone; it is applied to file names,
      which are then compared with the ASCII words of [ALLOWED_EXTENSIONS].
      Message literals are kept as the UTF-8 text of the source.
    - sets are [gset], database tables and the media directory are [gmap].
    - [numpy.float32] and [float] are [spec_float] at precision 24/128 and
      53/1024, with the operations of [SpecFloat].
    - code that raises or logs is written in a state-and-exception monad
      over the [world] (database, media files, reference file, log). *)

From Stdlib Require Import ZArith Bool Ascii String List Lia.
From Stdlib Require Import SpecFloat DecimalString DecimalN DecimalFacts Sorted.
From stdpp Require Import base option gmap strings list.

Local Open Scope string_scope.
Local Open Scope Z_scope.

(** ** Python string helpers *)

Module PyStr.

Definition lower_ascii (c : ascii) : ascii :=
  let n := nat_of_ascii c in
  if ((65 <=? n)%nat && (n <=? 90)%nat)%bool
  then ascii_of_nat (n + 32) else c.

(** [str.lower] *)
Fixpoint lower (s : string) : string :=
  match s with
  | EmptyString => EmptyString
  | String c r => String (lower_ascii c) (lower r)
  end.

(** [str.split(sep)] for a one-character separator: never empty. *)
Fixpoint split (sep : ascii) (s : string) : list string :=
  match s with
  | EmptyString => [EmptyString]
  | String c r =>
      if Ascii.eqb c sep then EmptyString :: split sep r
      else match split sep r with
           | h :: t => String c h :: t
           | [] => [String c EmptyString]
           end
  end.

(** [xs[-1]] on the result of a split (which has at least one item). *)
Definition last_item (xs : list string) : string := List.last xs EmptyString.

(** [str.replace(a, b)] for one-character [a] and [b]. *)
Fixpoint replace (a b : ascii) (s : string) : string :=
  match s with
  | EmptyString => EmptyString
  | String c r => String (if Ascii.eqb c a then b else c) (replace a b r)
  end.

Definition in_range (lo hi n : nat) : bool := ((lo <=? n)%nat && (n <=? hi)%nat)%bool.

(** [s] is one white-space code point in UTF-8.  The code points for which
    [str.isspace] holds are U+0009..000D, U+001C..0020, U+0085, U+00A0,
    U+1680, U+2000..200A, U+2028, U+2029, U+202F, U+205F and U+3000. *)
Definition is_space (s : string) : bool :=
  match map nat_of_ascii (list_ascii_of_string s) with
  | [a] => in_range 9 13 a || in_range 28 32 a
  | [a; b] => (a =? 194)%nat && ((b =? 133)%nat || (b =? 160)%nat)
  | [a; b; c] =>
      ((a =? 225)%nat && (b =? 154)%nat && (c =? 128)%nat)
      || ((a =? 226)%nat && (b =? 128)%nat
          && (in_range 128 138 c || (c =? 168)%nat || (c =? 169)%nat || (c =? 175)%nat))
      || ((a =? 226)%nat && (b =? 129)%nat && (c =? 159)%nat)
      || ((a =? 227)%nat && (b =? 128)%nat && (c =? 128)%nat)
  | _ => false
  end.

(** [str.lstrip()]: leading white-space code points (of one, two or three
    bytes) are dropped. *)
Fixpoint lstrip (s : string) : string :=
  match s with
  | EmptyString => EmptyString
  | String a r =>
      if is_space (String a "") then lstrip r
      else match r with
           | EmptyString => s
           | String b r2 =>
               if is_space (String a (String b "")) then lstrip r2
               else match r2 with
                    | EmptyString => s
                    | String c r3 =>
                        if is_space (String a (String b (String c ""))) then lstrip r3
                        else s
                    end
           end
  end.

(** [str.rstrip()]: from the end backwards, what is left is dropped as soon
    as it is one white-space code point. *)
Fixpoint rstrip (s : string) : string :=
  match s with
  | EmptyString => EmptyString
  | String c r =>
      let t := String c (rstrip r) in
      if is_space t then EmptyString else t
  end.

(** [str.strip()] *)
Definition strip (s : string) : string := rstrip (lstrip s).

(** [q in s] for strings. *)
Fixpoint contains (q s : string) : bool :=
  (String.prefix q s ||
   match s with
   | EmptyString => false
   | String _ r => contains q r
   end)%bool.

(** [sep.join(xs)] *)
Fixpoint join (sep : string) (xs : list string) : string :=
  match xs with
  | [] => EmptyString
  | [x] => x
  | x :: r => x ++ sep ++ join sep r
  end.

(** [c in s] for a character. *)
Fixpoint has_char (c : ascii) (s : string) : bool :=
  match s with
  | EmptyString => false
  | String d r => Ascii.eqb d c || has_char c r
  end.

(** [str(n)] for a natural number. *)
Definition of_N (n : N) : string := NilZero.string_of_uint (N.to_uint n).
(** [str(z)] for an integer. *)
Definition of_Z (z : Z) : string :=
  if (z <? 0)%Z then String "-" (of_N (Z.to_N (- z))) else of_N (Z.to_N z).

Definition is_digit (c : ascii) : bool :=
  let n := nat_of_ascii c in ((48 <=? n)%nat && (n <=? 57)%nat)%bool.

Fixpoint all_digits (s : string) : bool :=
  match s with
  | EmptyString => true
  | String c r => is_digit c && all_digits r
  end.

End PyStr.

(** ** Constants of [views.py] *)

Definition TOP_PREDICTIONS : Z := 5.
Definition ITEMS_PER_PAGE : Z := 10.
Definition MAX_FILE_SIZE : Z := 10 * 1024 * 1024.
Definition ALLOWED_EXTENSIONS : gset string :=
  {[ "jpg"; "jpeg"; "png"; "bmp"; "gif" ]}.

(** ** Uploaded files *)

(** A Django [UploadedFile]: its [name], its [size] attribute and the bytes
    [read()] returns. *)
Record upload := { file_name : string; file_size : Z; file_content : string }.

(** [File.__bool__] is [bool(self.name)]. *)
Definition file_truthy (f : upload) : bool :=
  negb (String.eqb (file_name f) "").

(** [file.name.split('.')[-1].lower()] *)
Definition extension (f : upload) : string :=
  PyStr.lower (PyStr.last_item (PyStr.split "." (file_name f))).

Definition msg_no_file : string := "ファイルが選択されていません".
Definition msg_too_large : string :=
  "ファイルサイズが大きすぎます（最大"
    ++ PyStr.of_N (Z.to_N (MAX_FILE_SIZE / (1024 * 1024))) ++ "MB）".
(** [', '.join(ALLOWED_EXTENSIONS)] follows the order in which the process
    iterates over the set.  For a set of strings that order changes with the
    hash seed of the process, so it is a parameter here: [order] lists the
    elements of the set as the running process yields them. *)
Definition msg_bad_extension (order : list string) : string :=
  "許可されていないファイル形式です（対応形式: " ++ PyStr.join ", " order ++ "）".

Definition validate_image_file (order : list string) (file : option upload)
  : bool * option string :=
  match file with
  | None => (false, Some msg_no_file)                       (* [not None] *)
  | Some f =>
      if negb (file_truthy f) then (false, Some msg_no_file)
      else if file_size f >? MAX_FILE_SIZE then (false, Some msg_too_large)
      else if bool_decide (extension f ∈ ALLOWED_EXTENSIONS)
           then (true, None)
           else (false, Some (msg_bad_extension order))
  end.

(** ** Floating point: [numpy.float32] probabilities and Python [float]s *)

Module PyFloat.

(** binary32, the dtype of the scores Keras returns. *)
Definition prec32 : Z := 24.
Definition emax32 : Z := 128.
(** binary64, Python's [float]. *)
Definition prec64 : Z := 53.
Definition emax64 : Z := 1024.

(** A Python [int] operand converted to [numpy.float32]. *)
Definition f32_of_Z (z : Z) : spec_float := binary_normalize prec32 emax32 z 0 false.
(** [float(z)] for a Python [int]. *)
Definition f64_of_Z (z : Z) : spec_float := binary_normalize prec64 emax64 z 0 false.

(** [x * y] on [numpy.float32]. *)
Definition mul32 (x y : spec_float) : spec_float := SFmul prec32 emax32 x y.

(** [a / b] rounded to the nearest integer, ties to even ([0 < b]). *)
Definition div_half_even (a b : Z) : Z :=
  let q := a / b in
  let r := a mod b in
  match 2 * r ?= b with
  | Lt => q
  | Gt => q + 1
  | Eq => if Z.even q then q else q + 1
  end.

(** The magnitude [m * 2^e], times 100, rounded to the nearest integer
    (ties to even): the digits both [round(x, 2)] and [format(x, '.2f')]
    obtain from the correctly rounded decimal conversion of CPython. *)
Definition hundredths (m : positive) (e : Z) : Z :=
  if 0 <=? e then Z.pos m * 2 ^ e * 100
  else div_half_even (Z.pos m * 100) (2 ^ (- e)).

Definition sign_str (s : bool) : string := if s then "-" else "".

Definition two_digits (k : Z) : string :=
  PyStr.of_N (Z.to_N (k / 10)) ++ PyStr.of_N (Z.to_N (k mod 10)).

(** The text of [n / 100] with two decimals. *)
Definition fixed2 (n : Z) : string :=
  PyStr.of_N (Z.to_N (n / 100)) ++ "." ++ two_digits (n mod 100).

(** [format(x, '.2f')]; a [numpy.float32] is widened to [float] first,
    which keeps its value. *)
Definition format_2f (x : spec_float) : string :=
  match x with
  | S754_nan => "nan"
  | S754_infinity s => sign_str s ++ "inf"
  | S754_zero s => sign_str s ++ fixed2 0
  | S754_finite s m e => sign_str s ++ fixed2 (hundredths m e)
  end.

(** [round(float(x), 2)]: non-finite values and zeros are returned as they
    are; otherwise the decimal [n / 100] with [n = hundredths] is converted
    back to the nearest [float]. *)
Definition round2 (x : spec_float) : spec_float :=
  match x with
  | S754_finite s m e =>
      match hundredths m e with
      | Z.pos n => SFdiv prec64 emax64 (S754_finite s n 0) (S754_finite false 100 0)
      | _ => S754_zero s
      end
  | _ => x
  end.

(** [a <= b] on Python floats. *)
Definition leb64 (a b : spec_float) : bool := SFleb a b.
Definition leb32 (a b : spec_float) : bool := SFleb a b.

Definition valid32 (x : spec_float) : bool := valid_binary prec32 emax32 x.
Definition valid64 (x : spec_float) : bool := valid_binary prec64 emax64 x.

(** [m * 2^e <= B] for an integer bound [B], without leaving [Z]. *)
Definition mag_le (m e B : Z) : Prop :=
  m * 2 ^ Z.max e 0 <= B * 2 ^ Z.max (- e) 0.

(** The value of [x] lies in [[0, B]]. *)
Definition within (B : Z) (x : spec_float) : Prop :=
  match x with
  | S754_zero _ => True
  | S754_finite false m e => mag_le (Z.pos m) e B
  | _ => False
  end.

End PyFloat.

(** ** The world the views run in *)

(** One item of the array in [imagenet_class_index_jp.json].  [ItemDict num ja]
    is a JSON object: [num] is the string under ['num'] (absent, or any value
    that is not a string and so never equals a class id, is [None]) and [ja]
    the string under ['ja'] ([None] when absent or null).  [ItemOther] is any
    JSON value that is not an object; it has no [get]. *)
Inductive ref_item :=
  | ItemDict (num ja : option string)
  | ItemOther.

(** The reference file as [open] and [json.load] find it. *)
Inductive ref_file :=
  | RefMissing        (* [open] raises FileNotFoundError *)
  | RefInvalidJson    (* [json.load] raises JSONDecodeError *)
  | RefUnreadable     (* any other failure of [open] / [json.load] *)
  | RefNotIterable    (* a JSON number, boolean or null: [for] raises TypeError *)
  | RefList (items : list ref_item).

Inductive exn :=
  | FileNotFoundError | JSONDecodeError | OSError | PermissionError
  | AttributeError | TypeError | IndexError
  | DatabaseError | Http404 | EmptyPage | PageNotAnInteger.

Inductive log_level := LogInfo | LogError.
Inductive log_arg := ArgExn (e : exn) | ArgPk (pk : Z) | ArgNone.
(** A log record: level, the literal part of the message, the value
    interpolated after it. *)
Record log_entry := { lg_level : log_level; lg_text : string; lg_arg : log_arg }.

Inductive msg_level := MsgSuccess | MsgWarning | MsgError.

(** A row of the [AnalysisResult] table ([models.py]). *)
Record AnalysisResult := {
  id : Z;
  image : string;                  (* name of the stored file; its path under MEDIA_ROOT *)
  original_filename : string;
  prediction_label : string;
  prediction_score : spec_float;   (* FloatField: a [float] *)
  processing_time : spec_float;
  model_version : string;
  created_at : Z
}.

(** A file under MEDIA_ROOT: whether [os.remove] on it succeeds. *)
Inductive media_file := Removable | Protected.

Record world := {
  reference : ref_file;                 (* imagenet_class_index_jp.json *)
  table : gmap Z AnalysisResult;        (* rows by primary key *)
  next_pk : Z;                          (* the auto-increment counter *)
  media : gmap string media_file;       (* regular files under MEDIA_ROOT *)
  media_writable : bool;                (* the storage accepts new files *)
  db_writable : bool;                   (* INSERT and DELETE succeed *)
  clock : Z;                            (* [timezone.now()] *)
  log : list log_entry;
  flash : list (msg_level * string)     (* django.contrib.messages *)
}.

Definition set_table (t : gmap Z AnalysisResult) (w : world) : world :=
  {| reference := reference w; table := t; next_pk := next_pk w; media := media w;
     media_writable := media_writable w; db_writable := db_writable w;
     clock := clock w; log := log w; flash := flash w |}.
Definition set_next_pk (n : Z) (w : world) : world :=
  {| reference := reference w; table := table w; next_pk := n; media := media w;
     media_writable := media_writable w; db_writable := db_writable w;
     clock := clock w; log := log w; flash := flash w |}.
Definition set_media (m : gmap string media_file) (w : world) : world :=
  {| reference := reference w; table := table w; next_pk := next_pk w; media := m;
     media_writable := media_writable w; db_writable := db_writable w;
     clock := clock w; log := log w; flash := flash w |}.
Definition set_log (l : list log_entry) (w : world) : world :=
  {| reference := reference w; table := table w; next_pk := next_pk w; media := media w;
     media_writable := media_writable w; db_writable := db_writable w;
     clock := clock w; log := l; flash := flash w |}.
Definition set_flash (f : list (msg_level * string)) (w : world) : world :=
  {| reference := reference w; table := table w; next_pk := next_pk w; media := media w;
     media_writable := media_writable w; db_writable := db_writable w;
     clock := clock w; log := log w; flash := f |}.

(** ** A state-and-exception monad for the views *)

Inductive outcome (A : Type) :=
  | Ret (a : A)
  | Raise (e : exn).
Arguments Ret {A} a.
Arguments Raise {A} e.

Definition M (A : Type) : Type := world -> outcome A * world.

Definition ret {A} (a : A) : M A := fun w => (Ret a, w).
Definition raise {A} (e : exn) : M A := fun w => (Raise e, w).
Definition bind {A B} (c : M A) (k : A -> M B) : M B :=
  fun w => match c w with
           | (Ret a, w') => k a w'
           | (Raise e, w') => (Raise e, w')
           end.
(** The [except] clauses of a [try]: the first clause whose class matches
    the exception handles it; with none, the exception propagates. *)
Fixpoint dispatch {A} (clauses : list ((exn -> bool) * (exn -> M A))) (e : exn) : M A :=
  match clauses with
  | [] => raise e
  | (handles, h) :: rest => if handles e then h e else dispatch rest e
  end.
(** [try: c  except C1 as e: h1 e  except C2 as e: h2 e ...] *)
Definition try_except {A} (c : M A) (clauses : list ((exn -> bool) * (exn -> M A))) : M A :=
  fun w => match c w with
           | (Ret a, w') => (Ret a, w')
           | (Raise e, w') => dispatch clauses e w'
           end.
Definition get_world : M world := fun w => (Ret w, w).
Definition modify (f : world -> world) : M unit := fun w => (Ret tt, f w).

Notation "x <- c1 ;; c2" := (bind c1 (fun x => c2))
  (at level 100, c1 at next level, right associativity).
Notation "c1 ;;; c2" := (bind c1 (fun _ => c2))
  (at level 100, right associativity).

(** [except Exception]: every exception of this model is an [Exception]. *)
Definition any_exception (e : exn) : bool := true.
Definition is_exn (e0 e : exn) : bool :=
  match e0, e with
  | FileNotFoundError, FileNotFoundError | JSONDecodeError, JSONDecodeError
  | EmptyPage, EmptyPage | PageNotAnInteger, PageNotAnInteger => true
  | _, _ => false
  end.

Definition logger_error (text : string) (a : log_arg) : M unit :=
  modify (fun w => set_log (log w ++ [{| lg_level := LogError; lg_text := text; lg_arg := a |}]) w).
Definition logger_info (text : string) (a : log_arg) : M unit :=
  modify (fun w => set_log (log w ++ [{| lg_level := LogInfo; lg_text := text; lg_arg := a |}]) w).
Definition messages_add (l : msg_level) (text : string) : M unit :=
  modify (fun w => set_flash (flash w ++ [(l, text)]) w).

(** ** Label localisation *)

(** [open(json_path)] followed by [json.load(f)]. *)
Definition load_reference : M ref_file :=
  w <- get_world ;;
  match reference w with
  | RefMissing => raise FileNotFoundError
  | RefInvalidJson => raise JSONDecodeError
  | RefUnreadable => raise OSError
  | r => ret r
  end.

(** The [for item in j_labels] loop: [item.get] raises on an item that is
    not a dict; the first item whose ['num'] equals [class_id] decides. *)
Fixpoint scan_labels (class_id : string) (items : list ref_item) : M (option string) :=
  match items with
  | [] => ret None
  | ItemOther :: _ => raise AttributeError
  | ItemDict num ja :: rest =>
      if bool_decide (num = Some class_id) then ret ja
      else scan_labels class_id rest
  end.

Definition get_japanese_label (class_id : string) : M (option string) :=
  try_except
    (j_labels <- load_reference ;;
     match j_labels with
     | RefList items => scan_labels class_id items
     | _ => raise TypeError
     end)
    [ (is_exn FileNotFoundError,
       fun e => logger_error "日本語ラベルファイルが見つかりません: " ArgNone ;;; ret None);
      (is_exn JSONDecodeError,
       fun e => logger_error "JSONファイルの読み込みエラー: " (ArgExn e) ;;; ret None);
      (any_exception,
       fun e => logger_error "予期しないエラー: " (ArgExn e) ;;; ret None) ].

(** [a or b] for an optional string [a]: [None] and [''] are falsy. *)
Definition or_else (a : option string) (b : string) : string :=
  match a with
  | Some s => if String.eqb s "" then b else s
  | None => b
  end.

(** ** The external collaborators: OpenCV, the Keras model, the storage *)

(** What [cv2.imdecode] + [cv2.resize] + [preprocess_input] make of the
    uploaded bytes. *)
Inductive cv_outcome (T : Type) :=
  | CvNone              (* [imdecode] returned None *)
  | CvRaise             (* one of the calls raised *)
  | CvArray (x : T).
Arguments CvNone {T}.
Arguments CvRaise {T}.
Arguments CvArray {T} x.

(** One entry of [decode_predictions(...)[0]]: class id, native label and
    the [numpy.float32] score. *)
Definition raw_prediction : Type := string * string * spec_float.

Record env := {
  ndarray : Type;
  (** the OpenCV / preprocessing pipeline on the bytes [file.read()] returns *)
  cv_pipeline : string -> cv_outcome ndarray;
  (** [apps.get_app_config('predict').model]: [None] until [ready()] loaded
      it; applied, [model.predict] + [decode_predictions] give the ranked
      list or raise ([None] here) *)
  app_model : option (ndarray -> option (list raw_prediction));
  (** [time.time() - start_time] of a request *)
  elapsed : spec_float;
  (** the name the storage gives a new upload (under [uploads/%Y/%m/%d/]) *)
  available_name : gmap string media_file -> string -> string;
  (** [storage.url(name)]: the address of a stored file, its name quoted
      behind MEDIA_URL *)
  storage_url : string -> string;
  (** the order in which this process iterates over [ALLOWED_EXTENSIONS] *)
  extension_order : list string
}.

(** ** The analysis pipeline of [views.py] *)

Section Views.

Variable E : env.

Definition preprocess_image (file : upload) : M (option (ndarray E)) :=
  try_except
    (match cv_pipeline E (file_content file) with
     | CvNone => logger_error "画像のデコードに失敗しました" ArgNone ;;; ret None
     | CvRaise => raise OSError
     | CvArray x => ret (Some x)
     end)
    [ (any_exception,
       fun e => logger_error "画像の前処理エラー: " (ArgExn e) ;;; ret None) ].

Definition perform_prediction (preprocessed_image : ndarray E)
  : M (option (list raw_prediction)) :=
  try_except
    (match app_model E with
     | None => raise AttributeError          (* [None.predict] *)
     | Some model =>
         match model preprocessed_image with
         | Some results => ret (Some results)
         | None => raise OSError
         end
     end)
    [ (any_exception,
       fun e => logger_error "推論エラー: " (ArgExn e) ;;; ret None) ].

(** The dictionaries [format_predictions] builds. *)
Record prediction := {
  p_name : string;            (* 'name' *)
  p_prob : string;            (* 'prob' *)
  p_raw_prob : spec_float;    (* 'raw_prob' *)
  p_class_id : string         (* 'class_id' *)
}.

Definition c100 : spec_float := PyFloat.f32_of_Z 100.

Fixpoint format_predictions (results : list raw_prediction) : M (list prediction) :=
  match results with
  | [] => ret []
  | (class_id, name, prob) :: rest =>
      label <- get_japanese_label class_id ;;
      let jp_name := or_else label (PyStr.replace "_" " " name) in
      let d := {| p_name := jp_name;
                  p_prob := PyFloat.format_2f (PyFloat.mul32 prob c100) ++ "%";
                  p_raw_prob := PyFloat.mul32 prob c100;
                  p_class_id := class_id |} in
      predictions <- format_predictions rest ;;
      ret (d :: predictions)
  end.

(** [Model.save()] of a new [AnalysisResult]: the image field first writes
    the upload to the storage, then the row is inserted under a fresh
    primary key.  No validator of the model runs here: Django runs field
    validators in [full_clean()], which [save()] does not call. *)
Definition model_save (file : upload) (label : string) (score : spec_float)
    (time : spec_float) (version : string) : M AnalysisResult :=
  w <- get_world ;;
  if negb (media_writable w) then raise OSError else
  let stored := available_name E (media w) (file_name file) in
  modify (fun w => set_media (<[stored := Removable]> (media w)) w) ;;;
  if negb (db_writable w) then raise DatabaseError else
  let row := {| id := next_pk w; image := stored;
                original_filename := file_name file;
                prediction_label := label; prediction_score := score;
                processing_time := time; model_version := version;
                created_at := clock w |} in
  modify (fun w => set_next_pk (next_pk w + 1) (set_table (<[id row := row]> (table w)) w)) ;;;
  ret row.

Definition save_analysis_result (file : upload) (results : list raw_prediction)
    (processing_time : spec_float) : M (option AnalysisResult) :=
  try_except
    (match results with
     | [] => raise IndexError                   (* [results[0]] *)
     | (top_id, top_name, top_prob) :: _ =>
         label <- get_japanese_label top_id ;;
         let top_jp_name := or_else label (PyStr.replace "_" " " top_name) in
         result_instance <-
           model_save file top_jp_name
             (PyFloat.round2 (PyFloat.mul32 top_prob c100))
             processing_time "EfficientNetB0-v1.0" ;;
         logger_info "解析結果を保存しました: " (ArgPk (id result_instance)) ;;;
         ret (Some result_instance)
     end)
    [ (any_exception,
       fun e => logger_error "データベース保存エラー: " (ArgExn e) ;;; ret None) ].

(** *** Requests and responses *)

Inductive http_method := GET | POST | PUT | DELETE | HEAD.

(** The [page] query parameter as [int(number)] in Django's
    [Paginator.validate_number] sees it: an integer, or a value [int]
    rejects. *)
Inductive page_param :=
  | PageInt (n : Z)
  | PageNotInt.

Record request := {
  method : http_method;
  imageFile : option upload;         (* [request.FILES.get('imageFile')] *)
  page_arg : option page_param;      (* [request.GET.get('page')] *)
  search_arg : option string         (* [request.GET.get('search')] *)
}.

(** A page of a paginator. *)
Record Page := { number : Z; object_list : list AnalysisResult }.

Inductive response :=
  | RenderIndex (predictions : option (list prediction)) (image_data : option string)
  | RenderViewData (results : Page) (search_query : string)
  | Redirect (to : string)
  | NotAllowed (permitted : list http_method)    (* 405 *)
  | NotFound                                     (* 404 *)
  | ServerError.                                 (* 500 *)

Definition method_eqb (a b : http_method) : bool :=
  match a, b with
  | GET, GET | POST, POST | PUT, PUT | DELETE, DELETE | HEAD, HEAD => true
  | _, _ => false
  end.

(** [@require_http_methods(allowed)] *)
Definition require_http_methods (allowed : list http_method)
    (view : request -> M response) (req : request) : M response :=
  if existsb (method_eqb (method req)) allowed then view req
  else ret (NotAllowed allowed).

Definition index_view (req : request) : M response :=
  match method req with
  | POST =>
      let file := imageFile req in
      match validate_image_file (extension_order E) file, file with
      | (true, _), Some file =>
          preprocessed_image <- preprocess_image file ;;
          match preprocessed_image with
          | None =>
              messages_add MsgError "画像の読み込みに失敗しました。別の画像をお試しください。" ;;;
              ret (RenderIndex None None)
          | Some x =>
              results <- perform_prediction x ;;
              match results with
              | None =>
                  messages_add MsgError "画像解析に失敗しました。もう一度お試しください。" ;;;
                  ret (RenderIndex None None)
              | Some results =>
                  let processing_time := elapsed E in
                  predictions <- format_predictions results ;;
                  result_instance <- save_analysis_result file results processing_time ;;
                  match result_instance with
                  | Some r =>
                      let image_url := storage_url E (image r) in
                      messages_add MsgSuccess
                        ("画像解析が完了しました（処理時間: "
                           ++ PyFloat.format_2f processing_time ++ "秒）") ;;;
                      ret (RenderIndex (Some predictions) (Some image_url))
                  | None =>
                      messages_add MsgWarning
                        "画像解析は完了しましたが、結果の保存に失敗しました。" ;;;
                      ret (RenderIndex (Some predictions) None)
                  end
              end
          end
      | (_, error_message), _ =>
          messages_add MsgError (default "" error_message) ;;;
          ret (RenderIndex None None)
      end
  | _ => ret (RenderIndex None None)
  end.

Definition index : request -> M response :=
  require_http_methods [GET; POST] index_view.

(** *** Deleting a result *)

(** [AnalysisResult.delete] of [models.py]: the image file is removed
    first, then [super().delete()] removes the row. *)
Definition AnalysisResult_delete (self : AnalysisResult) : M unit :=
  w <- get_world ;;
  (if negb (String.eqb (image self) "") then              (* [if self.image:] *)
     match media w !! image self with                     (* [os.path.isfile] *)
     | Some Removable => modify (fun w => set_media (delete (image self) (media w)) w)
     | Some Protected => raise PermissionError            (* [os.remove] fails *)
     | None => ret tt
     end
   else ret tt) ;;;
  if db_writable w
  then modify (fun w => set_table (delete (id self) (table w)) w)
  else raise DatabaseError.

Definition get_object_or_404 (pk : Z) : M AnalysisResult :=
  w <- get_world ;;
  match table w !! pk with
  | Some r => ret r
  | None => raise Http404
  end.

Definition delete_data_view (pk : Z) (req : request) : M response :=
  result <- get_object_or_404 pk ;;
  try_except
    (AnalysisResult_delete result ;;;
     messages_add MsgSuccess ("解析結果（ID: " ++ PyStr.of_Z pk ++ "）を削除しました。") ;;;
     logger_info "解析結果を削除しました: ID=" (ArgPk pk))
    [ (any_exception,
       fun e => messages_add MsgError "削除に失敗しました。" ;;;
                logger_error "削除エラー: " (ArgExn e)) ] ;;;
  ret (Redirect "predict:view_data").

Definition delete_data (pk : Z) : request -> M response :=
  require_http_methods [POST] (delete_data_view pk).

(** What Django's handler makes of a view: [Http404] becomes a 404
    response, any other uncaught exception a 500. *)
Definition handle (view : M response) : world -> response * world :=
  fun w => match view w with
           | (Ret r, w') => (r, w')
           | (Raise Http404, w') => (NotFound, w')
           | (Raise _, w') => (ServerError, w')
           end.

(** *** The history listing *)

(** [django.core.paginator.Paginator] with its defaults ([orphans=0],
    [allow_empty_first_page=True]). *)
Record Paginator := { pg_object_list : list AnalysisResult; per_page : Z }.

Definition count (p : Paginator) : Z := Z.of_nat (length (pg_object_list p)).

(** [ceil(max(1, count) / per_page)] *)
Definition num_pages (p : Paginator) : Z :=
  let hits := Z.max 1 (count p) in
  (hits + per_page p - 1) / per_page p.

Definition validate_number (p : Paginator) (number : page_param) : M Z :=
  match number with
  | PageNotInt => raise PageNotAnInteger
  | PageInt n =>
      if n <? 1 then raise EmptyPage
      else if n >? num_pages p then raise EmptyPage
      else ret n
  end.

(** [object_list[bottom:top]] for [0 <= bottom]. *)
Definition slice (l : list AnalysisResult) (bottom top : Z) : list AnalysisResult :=
  firstn (Z.to_nat (top - bottom)) (skipn (Z.to_nat bottom) l).

Definition page (p : Paginator) (number : page_param) : M Page :=
  n <- validate_number p number ;;
  let bottom := (n - 1) * per_page p in
  let top := bottom + per_page p in
  let top := if top >=? count p then count p else top in
  ret {| number := n; object_list := slice (pg_object_list p) bottom top |}.

Fixpoint insert_newest_first (r : AnalysisResult) (l : list AnalysisResult)
  : list AnalysisResult :=
  match l with
  | [] => [r]
  | x :: t => if created_at x <? created_at r then r :: l
              else x :: insert_newest_first r t
  end.

(** [AnalysisResult.objects.all().order_by('-created_at')] *)
Definition all_newest_first (w : world) : list AnalysisResult :=
  foldr insert_newest_first [] (map snd (map_to_list (table w))).

(** [prediction_label__icontains]: a LIKE that folds the case of ASCII
    letters, as SQLite, Django's default database, compares. *)
Definition icontains (q : string) (r : AnalysisResult) : bool :=
  PyStr.contains (PyStr.lower q) (PyStr.lower (prediction_label r)).

(** The query set [view_data] paginates: every row, newest first, filtered
    by the search words when there are any. *)
Definition history (search_query : string) (w : world) : list AnalysisResult :=
  let all_results := all_newest_first w in
  if negb (String.eqb search_query "")
  then List.filter (icontains search_query) all_results
  else all_results.

Definition view_data (req : request) : M response :=
  w <- get_world ;;
  let search_query := PyStr.strip (default "" (search_arg req)) in
  let all_results := history search_query w in
  let paginator := {| pg_object_list := all_results; per_page := ITEMS_PER_PAGE |} in
  let page_number := default (PageInt 1) (page_arg req) in
  results <-
    try_except (page paginator page_number)
      [ (is_exn PageNotAnInteger, fun _ => page paginator (PageInt 1));
        (is_exn EmptyPage, fun _ => page paginator (PageInt (num_pages paginator))) ] ;;
  ret (RenderViewData results search_query).

End Views.

(** * Sample data *)

Definition photo (n : Z) : upload :=
  {| file_name := "holiday.photo.PNG"; file_size := n; file_content := "" |}.
Definition notes : upload :=
  {| file_name := "notes.txt"; file_size := 12; file_content := "hello" |}.

Definition bare_png : upload :=
  {| file_name := "png"; file_size := 4; file_content := "data" |}.
Definition bare_readme : upload :=
  {| file_name := "README"; file_size := 4; file_content := "data" |}.
Definition shouting_png : upload :=
  {| file_name := "PNG"; file_size := 4; file_content := "data" |}.

(** One order in which a process may iterate over [ALLOWED_EXTENSIONS]. *)
Definition sample_order : list string := ["png"; "jpeg"; "gif"; "jpg"; "bmp"].

(** A world with nothing stored and a healthy storage and database. *)
Definition empty_world (r : ref_file) : world :=
  {| reference := r; table := ∅; next_pk := 1; media := ∅;
     media_writable := true; db_writable := true; clock := 1700000000;
     log := []; flash := [] |}.

Definition sample_reference : ref_file :=
  RefList [ ItemDict (Some "n02099601") (Some "ゴールデンレトリバー");
            ItemDict (Some "n02123045") (Some "");
            ItemDict (Some "n02085620") None ].

(** ** Frames: what a computation leaves alone *)

(** The database, the media directory and the reference file are the same. *)
Definition same_store (w w' : world) : Prop :=
  reference w' = reference w /\ table w' = table w /\ next_pk w' = next_pk w /\
  media w' = media w /\ media_writable w' = media_writable w /\
  db_writable w' = db_writable w /\ clock w' = clock w.

(** Nothing happened but log records being appended. *)
Definition only_logged (w w' : world) : Prop :=
  same_store w w' /\ flash w' = flash w /\ exists es, log w' = (log w ++ es)%list.

(** ** Vocabulary of the statements *)

(** Two characters that are equal, or the two cases of one ASCII letter. *)
Definition same_letter (a b : ascii) : bool :=
  let m := nat_of_ascii a in
  let n := nat_of_ascii b in
  (m =? n)%nat
  || (PyStr.in_range 65 90 m && (n =? m + 32)%nat)
  || (PyStr.in_range 65 90 n && (m =? n + 32)%nat).

(** Two texts that are equal, the case of their ASCII letters apart. *)
Fixpoint caseless (s t : string) : bool :=
  match s, t with
  | EmptyString, EmptyString => true
  | String a s', String b t' => same_letter a b && caseless s' t'
  | _, _ => false
  end.

(** The label the lookup returns in a world. *)
Definition label_in (w : world) (class_id : string) : option string :=
  match fst (get_japanese_label class_id w) with
  | Ret label => label
  | Raise _ => None
  end.

(** What one lookup of [class_id] adds to the log. *)
Definition logged_by_lookup (w : world) (class_id : string) : list log_entry :=
  drop (length (log w)) (log (snd (get_japanese_label class_id w))).

(** The records of a lookup that finds no reference file, or one that is
    not JSON. *)
Definition missing_file_record : log_entry :=
  {| lg_level := LogError; lg_text := "日本語ラベルファイルが見つかりません: ";
     lg_arg := ArgNone |}.
Definition invalid_json_record : log_entry :=
  {| lg_level := LogError; lg_text := "JSONファイルの読み込みエラー: ";
     lg_arg := ArgExn JSONDecodeError |}.

(** The label shown and stored for an entry: the localised one, or the
    native label with underscores turned into spaces. *)
Definition display_name (w : world) (class_id name : string) : string :=
  or_else (label_in w class_id) (PyStr.replace "_" " " name).

Definition class_of (x : raw_prediction) : string := fst (fst x).
Definition native_of (x : raw_prediction) : string := snd (fst x).
Definition prob_of (x : raw_prediction) : spec_float := snd x.

(** The body of the loop of [format_predictions] on one entry. *)
Definition format_one (w : world) (x : raw_prediction) : prediction :=
  {| p_name := display_name w (class_of x) (native_of x);
     p_prob := PyFloat.format_2f (PyFloat.mul32 (prob_of x) c100) ++ "%";
     p_raw_prob := PyFloat.mul32 (prob_of x) c100;
     p_class_id := class_of x |}.

Definition is_finite (x : spec_float) : bool :=
  match x with
  | S754_zero _ | S754_finite _ _ _ => true
  | _ => false
  end.

Definition sign_of (x : spec_float) : bool :=
  match x with
  | S754_zero s | S754_infinity s | S754_finite s _ _ => s
  | S754_nan => false
  end.

(** [|x| * 100] rounded to the nearest integer, ties to even. *)
Definition hundredths_of (x : spec_float) : Z :=
  match x with
  | S754_finite _ m e => PyFloat.hundredths m e
  | _ => 0
  end.

Definition digit_value (c : ascii) : Z := Z.of_nat (nat_of_ascii c) - 48.

(** [int(s)] for a string of decimal digits. *)
Definition read_N (s : string) : option N :=
  option_map N.of_uint (NilZero.uint_of_string s).

(** [s] is a sign, an integer part in decimal digits, a point and exactly
    two decimal digits, and reads [n / 100]. *)
Definition two_decimal_text (s : string) (negative : bool) (n : Z) : Prop :=
  exists ip a b,
    s = PyFloat.sign_str negative ++ ip ++ "." ++ String a (String b "") /\
    PyStr.all_digits ip = true /\ read_N ip = Some (Z.to_N (n / 100)) /\
    PyStr.is_digit a = true /\ PyStr.is_digit b = true /\
    digit_value a * 10 + digit_value b = n mod 100.

(** binary32 scores: 0.9550234 (the nearest binary32 is 16022634 / 2^24),
    0.0234375 and 1.5. *)
Definition score_0_9550234 : spec_float := S754_finite false 16022634 (-24).
Definition score_0_0234375 : spec_float := S754_finite false 12582912 (-29).
Definition score_1_5 : spec_float := S754_finite false 12582912 (-23).

Definition sample_ranking : list raw_prediction :=
  [ ("n02099601", "golden_retriever", score_0_9550234);
    ("n02123045", "tabby_cat", score_0_0234375) ].

(** An environment for the examples: every non-empty upload decodes, the
    model answers [sample_ranking], a request takes 1.25 s. *)
Definition sample_env (ranking : list raw_prediction) : env :=
  {| ndarray := unit;
     cv_pipeline := fun bytes => if String.eqb bytes "" then CvNone else CvArray tt;
     app_model := Some (fun _ => Some ranking);
     elapsed := S754_finite false 5 (-2);
     available_name := fun _ n => "uploads/2024/01/01/" ++ n;
     storage_url := fun n => "/media/" ++ n;
     extension_order := sample_order |}.

Definition golden : upload :=
  {| file_name := "golden.jpg"; file_size := 5; file_content := "bytes" |}.

(** What a successful save wrote. *)
Definition saved_row (E : env) (file : upload) (c name : string) (prob time : spec_float)
    (w : world) : AnalysisResult :=
  {| id := next_pk w;
     image := available_name E (media w) (file_name file);
     original_filename := file_name file;
     prediction_label := display_name w c name;
     prediction_score := PyFloat.round2 (PyFloat.mul32 prob c100);
     processing_time := time;
     model_version := "EfficientNetB0-v1.0";
     created_at := clock w |}.

(** [n] is an integer nearest to [m * 2^e * 100]. *)
Definition nearest_hundredths (m : positive) (e n : Z) : Prop :=
  2 * Z.abs (Z.pos m * 100 * 2 ^ Z.max e 0 - n * 2 ^ Z.max (- e) 0)
    <= 2 ^ Z.max (- e) 0.

(** A percentage text: two decimals and a trailing per cent sign. *)
Definition percent_text (s : string) (negative : bool) (n : Z) : Prop :=
  exists t, s = t ++ "%" /\ two_decimal_text t negative n.

(** An upload request that does not get as far as saving: validation
    refuses the file, or the image does not decode, or inference fails. *)
Definition fails_before_saving (E : env) (req : request) : Prop :=
  fst (validate_image_file (extension_order E) (imageFile req)) = false \/
  exists file,
    imageFile req = Some file /\
    fst (validate_image_file (extension_order E) (Some file)) = true /\
    (cv_pipeline E (file_content file) = CvNone \/
     cv_pipeline E (file_content file) = CvRaise \/
     exists x, cv_pipeline E (file_content file) = CvArray x /\
       (app_model E = None \/
        exists model, app_model E = Some model /\ model x = None)).

Definition upload_request (file : option upload) : request :=
  {| method := POST; imageFile := file; page_arg := None; search_arg := None |}.

(** A zero-byte upload, and a text file renamed to [.jpg]: both pass
    validation (the sample pipeline decodes neither). *)
Definition zero_bytes : upload :=
  {| file_name := "empty.jpg"; file_size := 0; file_content := "" |}.

(** An environment whose decoder refuses everything. *)
Definition undecodable_env : env :=
  {| ndarray := unit;
     cv_pipeline := fun _ => CvNone;
     app_model := Some (fun _ => Some sample_ranking);
     elapsed := S754_finite false 5 (-2);
     available_name := fun _ n => "uploads/2024/01/01/" ++ n;
     storage_url := fun n => "/media/" ++ n;
     extension_order := sample_order |}.

(** A world whose database refuses writes. *)
Definition read_only_world : world :=
  {| reference := sample_reference; table := ∅; next_pk := 1; media := ∅;
     media_writable := true; db_writable := false; clock := 1700000000;
     log := []; flash := [] |}.

Definition msg_not_saved : string :=
  "画像解析は完了しましたが、結果の保存に失敗しました。".

(** The image file a row owns, as [AnalysisResult.delete] finds it: [None]
    when the row has no image or the file is not on disk. *)
Definition owned_file (w : world) (r : AnalysisResult) : option media_file :=
  if String.eqb (image r) "" then None else media w !! image r.

Definition msg_deleted (pk : Z) : string :=
  "解析結果（ID: " ++ PyStr.of_Z pk ++ "）を削除しました。".
Definition msg_delete_failed : string := "削除に失敗しました。".

Definition history_row (k : Z) : AnalysisResult :=
  {| id := k;
     image := "uploads/2024/01/01/" ++ PyStr.of_Z k ++ ".png";
     original_filename := PyStr.of_Z k ++ ".png";
     prediction_label := "tabby cat";
     prediction_score := S754_finite false 6720215068966912 (-46);
     processing_time := S754_finite false 5 (-2);
     model_version := "EfficientNetB0-v1.0";
     created_at := 1700000000 + k |}.

(** A world with one row whose image file cannot be removed. *)
Definition locked_world : world :=
  {| reference := sample_reference;
     table := {[ 7 := history_row 7 ]};
     next_pk := 8;
     media := {[ image (history_row 7) := Protected ]};
     media_writable := true; db_writable := true; clock := 1700000100;
     log := []; flash := [] |}.

(** A world with eleven rows, ids 1 to 11: two pages of history. *)
Definition eleven_rows : world :=
  {| reference := sample_reference;
     table := list_to_map (map (fun k => (k, history_row k)) [1; 2; 3; 4; 5; 6; 7; 8; 9; 10; 11]);
     next_pk := 12;
     media := ∅;
     media_writable := true; db_writable := true; clock := 1700000100;
     log := []; flash := [] |}.

Definition post_request : request :=
  {| method := POST; imageFile := None; page_arg := None; search_arg := None |}.

Definition page_request (p : page_param) : request :=
  {| method := GET; imageFile := None; page_arg := Some p; search_arg := None |}.

(** The paginator [view_data] builds for a request. *)
Definition history_paginator (req : request) (w : world) : Paginator :=
  {| pg_object_list := history (PyStr.strip (default "" (search_arg req))) w;
     per_page := ITEMS_PER_PAGE |}.

(** Page [n] of a list, ten to the page. *)
Definition tenth (n : Z) (l : list AnalysisResult) : list AnalysisResult :=
  firstn 10 (skipn (Z.to_nat ((n - 1) * 10)) l).

(** The scores [round2] can produce from a value in [[0, 100]]: the
    nearest [float] to [k / 100] for [k] hundredths. *)
Definition float_of_hundredths (k : positive) : spec_float :=
  SFdiv PyFloat.prec64 PyFloat.emax64 (S754_finite false k 0) (S754_finite false 100 0).

(** [0.0 <= y <= 100.0] on Python floats. *)
Definition in_percent_range (y : spec_float) : bool :=
  PyFloat.leb64 (PyFloat.f64_of_Z 0) y && PyFloat.leb64 y (PyFloat.f64_of_Z 100).


(** The [float] nearest to [n / 100], with the sign [s]. *)
Definition float_of_decimal (s : bool) (n : Z) : spec_float :=
  match n with
  | Z.pos k => SFdiv PyFloat.prec64 PyFloat.emax64 (S754_finite s k 0) (S754_finite false 100 0)
  | _ => S754_zero s
  end.

Definition overconfident : list raw_prediction :=
  [ ("n02099601", "golden_retriever", score_1_5) ].

(** * The rest of the application *)

(** ** Methods of [AnalysisResult] ([models.py]) *)

(** [os.path.basename] for POSIX paths: what follows the last slash. *)
Definition basename (p : string) : string :=
  PyStr.last_item (PyStr.split "/" p).

Definition get_image_filename (self : AnalysisResult) : option string :=
  if negb (String.eqb (image self) "")                 (* [if self.image:] *)
  then Some (basename (image self))
  else None.

(** [x >= n] for a [float] [x] and an [int] literal [n]; false on NaN. *)
Definition float_ge (x : spec_float) (n : Z) : bool :=
  SFleb (PyFloat.f64_of_Z n) x.

Definition get_confidence_level (self : AnalysisResult) : string :=
  if float_ge (prediction_score self) 90 then "非常に高い"
  else if float_ge (prediction_score self) 70 then "高い"
  else if float_ge (prediction_score self) 50 then "中程度"
  else "低い".

(** The [formatted_score] property. *)
Definition formatted_score (self : AnalysisResult) : string :=
  PyFloat.format_2f (prediction_score self) ++ "%".

(** ** The admin ([admin.py]) *)

(** [html.escape], which Django's [conditional_escape] applies to a plain
    string argument of [format_html]. *)
Definition escape_char (c : ascii) : string :=
  if Ascii.eqb c "&" then "&amp;"
  else if Ascii.eqb c "<" then "&lt;"
  else if Ascii.eqb c ">" then "&gt;"
  else if Ascii.eqb c (ascii_of_nat 34) then "&quot;"
  else if Ascii.eqb c "'" then "&#x27;"
  else String c "".

Fixpoint escape (s : string) : string :=
  match s with
  | EmptyString => EmptyString
  | String c r => escape_char c ++ escape r
  end.

(** [fmt.format( *args )] for a format string whose only fields are [{}];
    [None] when the arguments run out (IndexError). *)
Fixpoint str_format (fmt : string) (args : list string) : option string :=
  match fmt with
  | EmptyString => Some EmptyString
  | String c r =>
      match r with
      | String d r' =>
          if Ascii.eqb c "{" && Ascii.eqb d "}" then
            match args with
            | a :: args' => option_map (fun t => a ++ t) (str_format r' args')
            | [] => None
            end
          else option_map (String c) (str_format r args)
      | EmptyString => Some (String c "")
      end
  end.

(** [format_html(fmt, *args)] with string arguments. *)
Definition format_html (fmt : string) (args : list string) : option string :=
  str_format fmt (map escape args).

(** The double quote, for the HTML templates. *)
Definition dq : string := String (ascii_of_nat 34) "".

Definition color_map : gmap string string :=
  list_to_map [ ("非常に高い", "#48bb78"); ("高い", "#4299e1");
                ("中程度", "#ed8936"); ("低い", "#e53e3e") ].

Definition badge_template : string :=
  "<span style=" ++ dq ++ "background: {}; color: white; padding: 4px 12px; "
    ++ "border-radius: 12px; font-size: 0.85em; font-weight: bold;" ++ dq
    ++ ">{}</span>".

Definition confidence_level_display (obj : AnalysisResult) : option string :=
  let level := get_confidence_level obj in
  let color := default "#718096" (color_map !! level) in
  format_html badge_template [color; level].

(** [processing_time_display] on the nullable [processing_time] column:
    [None] and zero are falsy. *)
Definition float_truthy (x : spec_float) : bool :=
  match x with
  | S754_zero _ => false
  | _ => true
  end.

Definition processing_time_display (time : option spec_float) : string :=
  match time with
  | Some t => if float_truthy t then PyFloat.format_2f t ++ "秒" else "-"
  | None => "-"
  end.

(** The loop of [delete_selected_with_images]: [obj.delete()] for every
    object of the query set, in order; an exception ends the loop. *)
Fixpoint delete_each (queryset : list AnalysisResult) : M unit :=
  match queryset with
  | [] => ret tt
  | obj :: rest => AnalysisResult_delete obj ;;; delete_each rest
  end.

(** [delete_selected_with_images]; the result is the text handed to
    [message_user]. *)
Definition delete_selected_with_images (queryset : list AnalysisResult) : M string :=
  let count := length queryset in
  delete_each queryset ;;;
  ret (PyStr.of_N (N.of_nat count) ++ "件の解析結果と画像ファイルを削除しました。").

(** ** The application configuration ([apps.py]) *)

Module Apps.

Inductive level := Debug | Info | Warning | Error.

Inductive boot_exn := ImportError | OtherError | RuntimeError.

Inductive result (A : Type) :=
  | Ok (a : A)
  | Err (e : boot_exn).
Arguments Ok {A} a.
Arguments Err {A} e.

(** What [from keras... import EfficientNetB0] and
    [EfficientNetB0(weights='imagenet')] do. *)
Inductive keras_outcome (T : Type) :=
  | ImportFails                        (* the import raises ImportError *)
  | ConstructorFails (e : boot_exn)    (* the constructor raises *)
  | Loaded (m : T).
Arguments ImportFails {T}.
Arguments ConstructorFails {T} e.
Arguments Loaded {T} m.

(** What the process finds when it starts.  The three texts are the model's
    [count_params()], [input_shape] and [output_shape] as the debug messages
    print them; [None] when reading one raises. *)
Record boot (T : Type) := {
  RUN_MAIN : option string;            (* [os.environ.get('RUN_MAIN')] *)
  DEBUG : bool;                        (* [settings.DEBUG] *)
  keras : keras_outcome T;
  count_params : T -> option string;
  input_shape : T -> option string;
  output_shape : T -> option string
}.
Arguments RUN_MAIN {T}.
Arguments DEBUG {T}.
Arguments keras {T}.
Arguments count_params {T}.
Arguments input_shape {T}.
Arguments output_shape {T}.

(** [PredictConfig]: the class attribute [model], and the records logged
    (level and the literal part of the message). *)
Record config (T : Type) := {
  model : option T;
  records : list (level * string)
}.
Arguments model {T}.
Arguments records {T}.

Definition model_name : string := "EfficientNetB0".
Definition model_version : string := "v1.0".
Definition verbose_name : string := "画像解析アプリケーション".

Definition emit {T} (l : level) (text : string) (c : config T) : config T :=
  {| model := model c; records := records c ++ [(l, text)] |}.

Definition set_model {T} (m : T) (c : config T) : config T :=
  {| model := Some m; records := records c |}.

Definition _log_model_info {T} (b : boot T) (c : config T) : config T :=
  match model c with
  | None => c
  | Some m =>
      match count_params b m with
      | None => emit Warning "モデル情報の取得に失敗: " c
      | Some total_params =>
          let c := emit Debug ("モデルパラメータ数: " ++ total_params) c in
          match input_shape b m with
          | None => emit Warning "モデル情報の取得に失敗: " c
          | Some shape =>
              let c := emit Debug ("入力サイズ: " ++ shape) c in
              match output_shape b m with
              | None => emit Warning "モデル情報の取得に失敗: " c
              | Some shape => emit Debug ("出力サイズ: " ++ shape) c
              end
          end
      end
  end.

(** The two [except] clauses of [_load_ai_model]: log and re-raise. *)
Definition load_failed {T} (e : boot_exn) (c : config T) : result unit * config T :=
  match e with
  | ImportError =>
      (Err e, emit Error "pip install tensorflow keras を実行してください"
                (emit Error "Kerasのインポートエラー: " c))
  | _ => (Err e, emit Error "モデルロードエラー: " c)
  end.

Definition _load_ai_model {T} (b : boot T) (c : config T) : result unit * config T :=
  match keras b with
  | ImportFails => load_failed ImportError c
  | ConstructorFails e =>
      load_failed e (emit Info (model_name ++ " モデルをロード中...") c)
  | Loaded m =>
      let c := emit Info (model_name ++ " モデルをロード中...") c in
      let c := set_model m c in
      let c := emit Info (model_name ++ " モデルのロードが完了しました") c in
      let c := emit Info ("モデルバージョン: " ++ model_version) c in
      (Ok tt, if DEBUG b then _log_model_info b c else c)
  end.

Definition ready {T} (b : boot T) (c : config T) : result unit * config T :=
  if negb (bool_decide (RUN_MAIN b = Some "true")) then (Ok tt, c)
  else
    match _load_ai_model b c with
    | (Ok _, c) =>
        (* [_register_signals()] does nothing *)
        (Ok tt, emit Info (verbose_name ++ " の初期化が完了しました") c)
    | (Err e, c) => (Err e, emit Error "アプリケーション初期化エラー: " c)
    end.

Definition get_model {T} (c : config T) : result T * config T :=
  match model c with
  | None =>
      (Err RuntimeError,
       emit Error "モデルがロードされていません。アプリケーションの初期化を確認してください。" c)
  | Some m => (Ok m, c)
  end.

(** The configuration of a fresh process. *)
Definition fresh {T} : config T := {| model := None; records := [] |}.

End Apps.

(** ** Vocabulary of the further statements *)

(** Every row sits under its own id, below the auto-increment counter. *)
Definition consistent (w : world) : Prop :=
  forall pk r, table w !! pk = Some r -> id r = pk /\ pk < next_pk w.

(** The name under which the storage keeps a new upload. *)
Definition stored_name (E : env) (file : upload) (w : world) : string :=
  available_name E (media w) (file_name file).

Definition msg_analysed (E : env) : string :=
  "画像解析が完了しました（処理時間: " ++ PyFloat.format_2f (elapsed E) ++ "秒）".

(** Newest first. *)
Definition newer_or_equal (a b : AnalysisResult) : Prop :=
  created_at b <= created_at a.

(** The page numbers of a paginator, [1 .. num_pages]. *)
Definition page_numbers (p : Paginator) : list Z :=
  map (fun i => Z.of_nat i + 1) (List.seq 0 (Z.to_nat (num_pages p))).

Definition get_request (p : option page_param) (q : option string) : request :=
  {| method := GET; imageFile := None; page_arg := p; search_arg := q |}.

Definition with_method (m : http_method) : request :=
  {| method := m; imageFile := Some golden; page_arg := None; search_arg := None |}.

(** A world whose storage accepts files while its database refuses writes. *)
Definition failing_database (w : world) : Prop :=
  media_writable w = true /\ db_writable w = false.

(** A text of white-space code points only. *)
Inductive blank : string -> Prop :=
  | blank_empty : blank ""
  | blank_more (c s : string) : PyStr.is_space c = true -> blank s -> blank (c ++ s).

(** The rows a request for the history is answered with. *)
Definition listed (req : request) (w : world) : list AnalysisResult :=
  match fst (view_data req w) with
  | Ret (RenderViewData pg _) => object_list pg
  | _ => []
  end.

(** A world with one row whose image file can be removed. *)
Definition tidy_world : world :=
  {| reference := sample_reference;
     table := {[ 7 := history_row 7 ]};
     next_pk := 8;
     media := {[ image (history_row 7) := Removable ]};
     media_writable := true; db_writable := true; clock := 1700000100;
     log := []; flash := [] |}.

(** U+3000, U+00A0 and a tab, in UTF-8. *)
Definition ideographic_space : string :=
  String (ascii_of_nat 227) (String (ascii_of_nat 128) (String (ascii_of_nat 128) "")).
Definition no_break_space : string :=
  String (ascii_of_nat 194) (String (ascii_of_nat 160) "").
Definition tab : string := String (ascii_of_nat 9) "".

(** A search of white space alone. *)
Definition blank_query : string :=
  " " ++ ideographic_space ++ no_break_space ++ tab.

Definition search_request (q : string) : request :=
  {| method := GET; imageFile := None; page_arg := None; search_arg := Some q |}.

(** The badge for a level and its colour. *)
Definition badge (color level : string) : string :=
  "<span style=" ++ dq ++ "background: " ++ color
    ++ "; color: white; padding: 4px 12px; "
    ++ "border-radius: 12px; font-size: 0.85em; font-weight: bold;" ++ dq
    ++ ">" ++ level ++ "</span>".

Definition with_score (x : spec_float) : AnalysisResult :=
  {| id := 1; image := "uploads/2024/01/01/cat.png"; original_filename := "cat.png";
     prediction_label := "tabby cat"; prediction_score := x;
     processing_time := S754_finite false 5 (-2);
     model_version := "EfficientNetB0-v1.0"; created_at := 1700000000 |}.

Definition ends_with_slash (d : string) : Prop := exists d', d = d' ++ "/".

(** The ids and the image files of a selection. *)
Definition selected_ids (queryset : list AnalysisResult) : list Z := map id queryset.
Definition selected_files (queryset : list AnalysisResult) : list string :=
  List.filter (fun p => negb (String.eqb p "")) (map image queryset).

Definition msg_selected_deleted (n : nat) : string :=
  PyStr.of_N (N.of_nat n) ++ "件の解析結果と画像ファイルを削除しました。".

(** A world with the rows 1 to 3; the image of row 2 cannot be removed. *)
Definition three_rows : world :=
  {| reference := sample_reference;
     table := list_to_map (map (fun k => (k, history_row k)) [1; 2; 3]);
     next_pk := 4;
     media := {[ image (history_row 1) := Removable;
                 image (history_row 2) := Protected;
                 image (history_row 3) := Removable ]};
     media_writable := true; db_writable := true; clock := 1700000100;
     log := []; flash := [] |}.

Definition is_error (entry : Apps.level * string) : bool :=
  match fst entry with
  | Apps.Error => true
  | _ => false
  end.

Definition msg_ready : string := Apps.verbose_name ++ " の初期化が完了しました".

Definition msg_inference_failed : string :=
  "画像解析に失敗しました。もう一度お試しください。".

(** A start under the auto-reloader ([RUN_MAIN=true]) with Keras at hand,
    in debug mode, with a model whose [input_shape] cannot be read. *)
Definition reloader_boot : Apps.boot nat :=
  {| Apps.RUN_MAIN := Some "true"; Apps.DEBUG := true; Apps.keras := Apps.Loaded 7%nat;
     Apps.count_params := fun _ => Some "5,330,571";
     Apps.input_shape := fun _ => None;
     Apps.output_shape := fun _ => Some "(None, 1000)" |}.

(** A start without Keras installed. *)
Definition no_keras_boot : Apps.boot nat :=
  {| Apps.RUN_MAIN := Some "true"; Apps.DEBUG := false; Apps.keras := Apps.ImportFails;
     Apps.count_params := fun _ => None;
     Apps.input_shape := fun _ => None;
     Apps.output_shape := fun _ => None |}.

(** A start outside the auto-reloader: [RUN_MAIN] is not set. *)
Definition plain_boot (T : Type) (m : T) : Apps.boot T :=
  {| Apps.RUN_MAIN := None; Apps.DEBUG := false; Apps.keras := Apps.Loaded m;
     Apps.count_params := fun _ => None;
     Apps.input_shape := fun _ => None;
     Apps.output_shape := fun _ => None |}.

(** The environment of the views of a process: [sample_env] with the model
    the application configuration holds. *)
Definition env_of (c : Apps.config (unit -> option (list raw_prediction))) : env :=
  {| ndarray := unit;
     cv_pipeline := fun bytes => if String.eqb bytes "" then CvNone else CvArray tt;
     app_model := Apps.model c;
     elapsed := S754_finite false 5 (-2);
     available_name := fun _ n => "uploads/2024/01/01/" ++ n;
     storage_url := fun n => "/media/" ++ n;
     extension_order := sample_order |}.

Definition poisoned_reference : ref_file :=
  RefList [ ItemDict (Some "n02099601") (Some "ゴールデンレトリバー");
            ItemOther;
            ItemDict (Some "n02123045") (Some "トラ猫");
            ItemDict (Some "n02099601") (Some "犬") ].

(** [tidy_world] with a database that refuses writes. *)
Definition tidy_read_only : world :=
  {| reference := sample_reference;
     table := {[ 7 := history_row 7 ]};
     next_pk := 8;
     media := {[ image (history_row 7) := Removable ]};
     media_writable := true; db_writable := false; clock := 1700000100;
     log := []; flash := [] |}.

(** * Properties *)

(** ** Strings *)

Lemma split_no_sep (sep : ascii) (s : string) :
  PyStr.has_char sep s = false -> PyStr.split sep s = [s].
Proof.
  induction s as [|c r IH]; simpl; [reflexivity|].
  intros H. apply orb_false_iff in H as [Hc Hr].
  rewrite Hc, (IH Hr). reflexivity.
Qed.

Lemma extension_of_empty_name (f : upload) :
  file_name f = "" -> extension f = "".
Proof. unfold extension. intros ->. reflexivity. Qed.

Lemma empty_not_allowed : "" ∉ ALLOWED_EXTENSIONS.
Proof. apply (bool_decide_unpack _). vm_compute. exact I. Qed.

Lemma allowed_extension_truthy (f : upload) :
  extension f ∈ ALLOWED_EXTENSIONS -> file_truthy f = true.
Proof.
  intros Hin. unfold file_truthy.
  destruct (String.eqb_spec (file_name f) "") as [Heq|Hne]; [|reflexivity].
  rewrite (extension_of_empty_name f Heq) in Hin.
  destruct (empty_not_allowed Hin).
Qed.

(** A rejection always carries a reason. *)
Lemma validate_rejects_with_reason (order : list string) (file : option upload) :
  fst (validate_image_file order file) = false ->
  exists reason, validate_image_file order file = (false, Some reason).
Proof.
  unfold validate_image_file. destruct file as [f|]; [|eauto].
  destruct (negb (file_truthy f)); [eauto|].
  destruct (file_size f >? MAX_FILE_SIZE); [eauto|].
  destruct (bool_decide _); [discriminate|eauto].
Qed.

(** The code of a lowered character. *)
Lemma lower_ascii_code (c : ascii) :
  nat_of_ascii (PyStr.lower_ascii c)
    = if PyStr.in_range 65 90 (nat_of_ascii c)
      then (nat_of_ascii c + 32)%nat else nat_of_ascii c.
Proof.
  unfold PyStr.lower_ascii, PyStr.in_range.
  destruct (Nat.leb_spec 65 (nat_of_ascii c)); cbn [andb]; [|reflexivity].
  destruct (Nat.leb_spec (nat_of_ascii c) 90); [|reflexivity].
  apply nat_ascii_embedding. lia.
Qed.

Lemma same_letter_spec (a b : ascii) :
  same_letter a b = true <-> PyStr.lower_ascii a = PyStr.lower_ascii b.
Proof.
  assert (Hcode : PyStr.lower_ascii a = PyStr.lower_ascii b <->
                  nat_of_ascii (PyStr.lower_ascii a) = nat_of_ascii (PyStr.lower_ascii b)).
  { split; [intros ->; reflexivity|]. intros H.
    rewrite <- (ascii_nat_embedding (PyStr.lower_ascii a)), H.
    apply ascii_nat_embedding. }
  rewrite Hcode, !lower_ascii_code. unfold same_letter, PyStr.in_range.
  rewrite !orb_true_iff, !andb_true_iff, !Nat.eqb_eq, !Nat.leb_le.
  destruct (Nat.leb_spec 65 (nat_of_ascii a)), (Nat.leb_spec (nat_of_ascii a) 90),
           (Nat.leb_spec 65 (nat_of_ascii b)), (Nat.leb_spec (nat_of_ascii b) 90);
    cbn [andb]; lia.
Qed.

(** Two texts are the same, case apart, when lowering makes them equal. *)
Lemma caseless_spec (s t : string) :
  caseless s t = true <-> PyStr.lower s = PyStr.lower t.
Proof.
  revert t. induction s as [|a s IH]; intros [|b t]; cbn [caseless PyStr.lower];
    try (split; [reflexivity|reflexivity]); try (split; discriminate).
  rewrite andb_true_iff, same_letter_spec, IH. split.
  - intros (-> & ->). reflexivity.
  - intros [= -> ->]. split; reflexivity.
Qed.

Lemma allowed_words (word : string) :
  word ∈ ALLOWED_EXTENSIONS <->
  word = "jpg" \/ word = "jpeg" \/ word = "png" \/ word = "bmp" \/ word = "gif".
Proof.
  unfold ALLOWED_EXTENSIONS. rewrite !elem_of_union, !elem_of_singleton. tauto.
Qed.

(** The allowed words are in lower case. *)
Lemma allowed_words_lower (word : string) :
  word ∈ ALLOWED_EXTENSIONS -> PyStr.lower word = word.
Proof.
  intros H. apply allowed_words in H.
  destruct H as [->|[->|[->|[->| ->]]]]; reflexivity.
Qed.

(** ** Validation *)

Lemma validate_accepts (order : list string) (f : upload) :
  extension f ∈ ALLOWED_EXTENSIONS -> file_size f <= MAX_FILE_SIZE ->
  validate_image_file order (Some f) = (true, None).
Proof.
  intros Hext Hsz. unfold validate_image_file.
  rewrite (allowed_extension_truthy f Hext). simpl.
  destruct (Z.gtb_spec (file_size f) MAX_FILE_SIZE) as [Hgt|_]; [lia|].
  rewrite bool_decide_eq_true_2 by exact Hext. reflexivity.
Qed.

Lemma validate_rejects_oversize (order : list string) (f : upload) :
  MAX_FILE_SIZE < file_size f ->
  exists reason, validate_image_file order (Some f) = (false, Some reason).
Proof.
  intros Hsz. apply validate_rejects_with_reason. unfold validate_image_file.
  destruct (negb (file_truthy f)); [reflexivity|].
  destruct (Z.gtb_spec (file_size f) MAX_FILE_SIZE) as [_|Hle]; [reflexivity|lia].
Qed.

Lemma validate_rejects_extension (order : list string) (f : upload) :
  extension f ∉ ALLOWED_EXTENSIONS ->
  exists reason, validate_image_file order (Some f) = (false, Some reason).
Proof.
  intros Hext. apply validate_rejects_with_reason. unfold validate_image_file.
  destruct (negb (file_truthy f)); [reflexivity|].
  destruct (file_size f >? MAX_FILE_SIZE); [reflexivity|].
  rewrite bool_decide_eq_false_2 by exact Hext. reflexivity.
Qed.

(** C4: a file with an allowed extension is accepted up to and including
    10 MiB and rejected above it; a file with any other extension is rejected
    whatever its size and content; every rejection carries a reason. *)
Theorem validate_image_file_extension_and_size (order : list string) (f : upload) :
  (extension f ∈ ALLOWED_EXTENSIONS -> file_size f <= 10 * 1024 * 1024 ->
     validate_image_file order (Some f) = (true, None)) /\
  (extension f ∈ ALLOWED_EXTENSIONS -> 10 * 1024 * 1024 < file_size f ->
     exists reason, validate_image_file order (Some f) = (false, Some reason)) /\
  (extension f ∉ ALLOWED_EXTENSIONS ->
     exists reason, validate_image_file order (Some f) = (false, Some reason)).
Proof.
  change (10 * 1024 * 1024) with MAX_FILE_SIZE.
  split; [exact (validate_accepts order f)|]. split.
  - intros _. exact (validate_rejects_oversize order f).
  - exact (validate_rejects_extension order f).
Qed.

Lemma photo_extension_allowed (n : Z) : extension (photo n) ∈ ALLOWED_EXTENSIONS.
Proof. apply (bool_decide_unpack _). vm_compute. exact I. Qed.

Lemma notes_extension_refused : extension notes ∉ ALLOWED_EXTENSIONS.
Proof. apply (bool_decide_unpack _). vm_compute. exact I. Qed.

Lemma validate_image_file_extension_and_size_witness :
  validate_image_file sample_order (Some (photo (10 * 1024 * 1024))) = (true, None) /\
  (exists reason,
     validate_image_file sample_order (Some (photo (10 * 1024 * 1024 + 1)))
       = (false, Some reason)) /\
  (exists reason, validate_image_file sample_order (Some notes) = (false, Some reason)).
Proof.
  split; [|split].
  - apply (proj1 (validate_image_file_extension_and_size sample_order
                    (photo (10 * 1024 * 1024)))).
    + apply photo_extension_allowed.
    + simpl. lia.
  - apply (proj1 (proj2 (validate_image_file_extension_and_size sample_order
                           (photo (10 * 1024 * 1024 + 1))))).
    + apply photo_extension_allowed.
    + simpl. lia.
  - apply (proj2 (proj2 (validate_image_file_extension_and_size sample_order notes))).
    apply notes_extension_refused.
Defined.

(** C10: for a name without a dot the whole lowercased name is the
    extension.  Such a file passes validation (within the size limit)
    exactly when its name is, the case of its letters apart, one of the
    allowed words -- [png], and [PNG] or [Png] as well -- and is rejected
    otherwise. *)
Theorem dotless_name_is_its_own_extension (order : list string) (f : upload) :
  PyStr.has_char "." (file_name f) = false ->
  extension f = PyStr.lower (file_name f) /\
  (forall word, word ∈ ALLOWED_EXTENSIONS -> caseless (file_name f) word = true ->
     file_size f <= MAX_FILE_SIZE ->
     validate_image_file order (Some f) = (true, None)) /\
  ((forall word, word ∈ ALLOWED_EXTENSIONS -> caseless (file_name f) word = false) ->
     exists reason, validate_image_file order (Some f) = (false, Some reason)) /\
  (PyStr.lower (file_name f) ∈ ALLOWED_EXTENSIONS -> file_size f <= MAX_FILE_SIZE ->
     validate_image_file order (Some f) = (true, None)) /\
  (PyStr.lower (file_name f) ∉ ALLOWED_EXTENSIONS ->
     exists reason, validate_image_file order (Some f) = (false, Some reason)).
Proof.
  intros Hdot.
  assert (Hext : extension f = PyStr.lower (file_name f)).
  { unfold extension. rewrite (split_no_sep _ _ Hdot). reflexivity. }
  split; [exact Hext|]. rewrite <- Hext. split; [|split; [|split]].
  - intros word Hword Hsame. apply validate_accepts.
    apply caseless_spec in Hsame.
    rewrite Hext, Hsame, (allowed_words_lower word Hword). exact Hword.
  - intros Hnone. apply validate_rejects_extension. intros Hin.
    specialize (Hnone (extension f) Hin).
    assert (Hsame : caseless (file_name f) (extension f) = true).
    { apply caseless_spec. rewrite (allowed_words_lower _ Hin). symmetry. exact Hext. }
    congruence.
  - exact (validate_accepts order f).
  - exact (validate_rejects_extension order f).
Qed.

Lemma dotless_name_is_its_own_extension_witness :
  extension bare_png = "png" /\
  validate_image_file sample_order (Some bare_png) = (true, None) /\
  extension shouting_png = "png" /\
  validate_image_file sample_order (Some shouting_png) = (true, None) /\
  (exists reason, validate_image_file sample_order (Some bare_readme) = (false, Some reason)).
Proof.
  assert (Hp : PyStr.has_char "." (file_name bare_png) = false) by reflexivity.
  assert (Hs : PyStr.has_char "." (file_name shouting_png) = false) by reflexivity.
  assert (Hr : PyStr.has_char "." (file_name bare_readme) = false) by reflexivity.
  assert (Hpng : "png" ∈ ALLOWED_EXTENSIONS)
    by (apply (bool_decide_unpack _); vm_compute; exact I).
  destruct (dotless_name_is_its_own_extension sample_order bare_png Hp)
    as (He & Hin & _).
  destruct (dotless_name_is_its_own_extension sample_order shouting_png Hs)
    as (He' & Hin' & _).
  destruct (dotless_name_is_its_own_extension sample_order bare_readme Hr)
    as (_ & _ & Hout & _).
  split; [exact He|]. split.
  - apply (Hin "png" Hpng); [reflexivity|vm_compute; discriminate].
  - split; [exact He'|]. split.
    + apply (Hin' "png" Hpng); [reflexivity|vm_compute; discriminate].
    + apply Hout. intros word Hword. apply allowed_words in Hword.
      destruct Hword as [->|[->|[->|[->| ->]]]]; reflexivity.
Defined.

(** ** The monad and the frames *)

Lemma same_store_refl (w : world) : same_store w w.
Proof. unfold same_store. tauto. Qed.

Lemma same_store_trans (a b c : world) :
  same_store a b -> same_store b c -> same_store a c.
Proof. unfold same_store. intros H1 H2. intuition congruence. Qed.

Lemma only_logged_refl (w : world) : only_logged w w.
Proof.
  split; [apply same_store_refl|]. split; [reflexivity|].
  exists []. symmetry. apply app_nil_r.
Qed.

Lemma only_logged_trans (a b c : world) :
  only_logged a b -> only_logged b c -> only_logged a c.
Proof.
  intros (S1 & F1 & es1 & L1) (S2 & F2 & es2 & L2).
  split; [eapply same_store_trans; eassumption|].
  split; [congruence|].
  exists (es1 ++ es2)%list. rewrite L2, L1. symmetry. apply app_assoc.
Qed.

Lemma only_logged_set_log (w : world) (e : log_entry) :
  only_logged w (set_log (log w ++ [e]) w).
Proof.
  split; [unfold same_store; simpl; tauto|].
  split; [reflexivity|]. exists [e]. reflexivity.
Qed.

Create HintDb frames.
#[local] Hint Resolve only_logged_refl only_logged_set_log same_store_refl : frames.

(** ** Label localisation *)

(** The scan either finishes (returning the label or [None]) or raises
    [AttributeError] on an item without [get]; it touches nothing. *)
Lemma scan_labels_outcome (c : string) (items : list ref_item) (w : world) :
  (exists o, scan_labels c items w = (Ret o, w)) \/
  scan_labels c items w = (Raise AttributeError, w).
Proof.
  induction items as [|it rest IH]; simpl.
  - left. eexists. reflexivity.
  - destruct it as [num ja|].
    + destruct (bool_decide (num = Some c)); [|exact IH].
      left. eexists. reflexivity.
    + right. reflexivity.
Qed.

Lemma scan_labels_absent (c : string) (items : list ref_item) (w : world) :
  (forall ja, ItemDict (Some c) ja ∉ items) ->
  scan_labels c items w = (Ret None, w) \/
  scan_labels c items w = (Raise AttributeError, w).
Proof.
  induction items as [|it rest IH]; simpl; intros Habs.
  - left. reflexivity.
  - destruct it as [num ja|]; [|right; reflexivity].
    destruct (bool_decide_reflect (num = Some c)) as [->|_].
    + exfalso. apply (Habs ja). left.
    + apply IH. intros ja' Hin. apply (Habs ja'). right. exact Hin.
Qed.

Lemma scan_labels_world_independent (c : string) (items : list ref_item) (w1 w2 : world) :
  fst (scan_labels c items w1) = fst (scan_labels c items w2).
Proof.
  induction items as [|it rest IH]; simpl; [reflexivity|].
  destruct it as [num ja|]; [|reflexivity].
  destruct (bool_decide (num = Some c)); [reflexivity|exact IH].
Qed.

Ltac run_monad :=
  cbv [get_japanese_label try_except dispatch bind load_reference get_world
       logger_error logger_info messages_add modify raise ret
       is_exn any_exception].

(** The lookup always returns; all it can leave behind is one error record. *)
Lemma get_japanese_label_returns (c : string) (w : world) :
  exists label w', get_japanese_label c w = (Ret label, w') /\
    (w' = w \/ exists e, lg_level e = LogError /\ w' = set_log (log w ++ [e]) w).
Proof.
  run_monad. destruct (reference w) as [| | | |items] eqn:Href;
    try (do 2 eexists; split; [reflexivity|right; eexists; split; [|reflexivity]; reflexivity]).
  destruct (scan_labels_outcome c items w) as [[o Ho]|Ho]; rewrite Ho.
  - do 2 eexists. split; [reflexivity|left; reflexivity].
  - do 2 eexists. split; [reflexivity|].
    right. eexists. split; [|reflexivity]. reflexivity.
Qed.

Lemma get_japanese_label_only_logged (c : string) (w : world) :
  exists label w', get_japanese_label c w = (Ret label, w') /\ only_logged w w'.
Proof.
  destruct (get_japanese_label_returns c w) as (label & w' & Heq & [->|(e & _ & ->)]);
    exists label; eexists; (split; [exact Heq|]); auto with frames.
Qed.

(** The label depends on the reference file alone. *)
Lemma get_japanese_label_reference (c : string) (w1 w2 : world) :
  reference w1 = reference w2 ->
  fst (get_japanese_label c w1) = fst (get_japanese_label c w2).
Proof.
  intros Href. run_monad. rewrite <- Href.
  destruct (reference w1) as [| | | |items]; try reflexivity.
  pose proof (scan_labels_world_independent c items w1 w2) as Hs.
  destruct (scan_labels c items w1) as [[o1|e1] u1], (scan_labels c items w2) as [[o2|e2] u2];
    simpl in Hs; try discriminate.
  - simpl. exact Hs.
  - injection Hs as ->. destruct e2; reflexivity.
Qed.

Lemma label_in_spec (c : string) (w : world) :
  fst (get_japanese_label c w) = Ret (label_in w c).
Proof.
  unfold label_in.
  destruct (get_japanese_label_returns c w) as (label & w' & Heq & _).
  rewrite Heq. reflexivity.
Qed.

Lemma label_in_reference (c : string) (w1 w2 : world) :
  reference w1 = reference w2 -> label_in w1 c = label_in w2 c.
Proof.
  intros H. unfold label_in. rewrite (get_japanese_label_reference c w1 w2 H).
  reflexivity.
Qed.

Lemma get_japanese_label_run (c : string) (w : world) :
  exists w', get_japanese_label c w = (Ret (label_in w c), w') /\ only_logged w w'.
Proof.
  destruct (get_japanese_label_only_logged c w) as (label & w' & Heq & Hframe).
  exists w'. split; [|exact Hframe].
  pose proof (label_in_spec c w) as Hl. rewrite Heq in Hl. simpl in Hl.
  injection Hl as ->. exact Heq.
Qed.

(** The first item carrying the class id decides, also when its label is
    the empty string. *)
Lemma first_entry_decides (c : string) (ja : option string)
    (before after : list ref_item) (w : world) :
  reference w = RefList (before ++ ItemDict (Some c) ja :: after) ->
  Forall (fun it => exists num ja', it = ItemDict num ja' /\ num <> Some c) before ->
  label_in w c = ja.
Proof.
  intros Href Hbefore. unfold label_in. run_monad. rewrite Href.
  assert (Hscan : scan_labels c (before ++ ItemDict (Some c) ja :: after) w = (Ret ja, w)).
  { clear Href. induction Hbefore as [|it rest (num & ja' & -> & Hne) _ IH]; simpl.
    - rewrite bool_decide_eq_true_2 by reflexivity. reflexivity.
    - rewrite bool_decide_eq_false_2 by exact Hne. exact IH. }
  rewrite Hscan. reflexivity.
Qed.

(** C2 (as amended): the lookup never raises.  A class id that no item
    of the table carries gives [None]; a reference file that is missing or
    is not JSON is handled inside the lookup itself, on every call: the
    error is logged and [None] is returned. *)
Theorem get_japanese_label_never_raises (c : string) (w : world) :
  exists label w',
    get_japanese_label c w = (Ret label, w') /\ only_logged w w' /\
    (forall items, reference w = RefList items ->
       (forall ja, ItemDict (Some c) ja ∉ items) -> label = None) /\
    (reference w = RefMissing \/ reference w = RefInvalidJson ->
       label = None /\
       exists e, lg_level e = LogError /\ w' = set_log (log w ++ [e]) w).
Proof.
  destruct (get_japanese_label_run c w) as (w' & Heq & Hframe).
  exists (label_in w c), w'. split; [exact Heq|]. split; [exact Hframe|]. split.
  - intros items Href Habs. unfold label_in. run_monad. rewrite Href.
    destruct (scan_labels_absent c items w Habs) as [Hs|Hs]; rewrite Hs; reflexivity.
  - intros Hbad. revert Heq. unfold label_in. run_monad.
    destruct Hbad as [Hbad|Hbad]; rewrite Hbad; intros [= <-];
      (split; [reflexivity|]); eexists; (split; [|reflexivity]); reflexivity.
Qed.

Lemma get_japanese_label_never_raises_witness :
  get_japanese_label "n09999999" (empty_world sample_reference)
    = (Ret None, empty_world sample_reference) /\
  exists e, lg_level e = LogError /\
    get_japanese_label "n02099601" (empty_world RefMissing)
      = (Ret None, set_log [e] (empty_world RefMissing)).
Proof.
  destruct (get_japanese_label_never_raises "n09999999" (empty_world sample_reference))
    as (l1 & w1 & Heq1 & _ & Habs & _).
  destruct (get_japanese_label_never_raises "n02099601" (empty_world RefMissing))
    as (l2 & w2 & Heq2 & _ & _ & Hbad).
  split.
  - rewrite Heq1. pose proof Heq1 as Hc. vm_compute in Hc. injection Hc as <- <-.
    reflexivity.
  - destruct (Hbad (or_introl eq_refl)) as (-> & e & He & ->).
    exists e. split; [exact He|]. exact Heq2.
Defined.

(** C2, the claim as stated: with the reference file missing (or not
    JSON) nothing is raised, at start-up or at lookup; the lookup handles
    the failure on the request and answers [None]. *)
Lemma missing_reference_is_handled_per_lookup :
  get_japanese_label "n02099601" (empty_world RefMissing)
    = (Ret None,
       set_log [ {| lg_level := LogError;
                    lg_text := "日本語ラベルファイルが見つかりません: ";
                    lg_arg := ArgNone |} ] (empty_world RefMissing)) /\
  get_japanese_label "n02099601" (empty_world RefInvalidJson)
    = (Ret None,
       set_log [ {| lg_level := LogError;
                    lg_text := "JSONファイルの読み込みエラー: ";
                    lg_arg := ArgExn JSONDecodeError |} ] (empty_world RefInvalidJson)) /\
  ~ (exists e w', get_japanese_label "n02099601" (empty_world RefMissing) = (Raise e, w')).
Proof.
  split; [reflexivity|]. split; [reflexivity|].
  intros (e & w' & H). discriminate H.
Qed.

(** ** Formatting *)

Lemma only_logged_reference (w w' : world) :
  only_logged w w' -> reference w' = reference w.
Proof. intros ((H & _) & _). exact H. Qed.

Lemma format_one_reference (w1 w2 : world) (x : raw_prediction) :
  reference w1 = reference w2 -> format_one w1 x = format_one w2 x.
Proof.
  intros H. unfold format_one, display_name.
  rewrite (label_in_reference (class_of x) w1 w2 H). reflexivity.
Qed.

(** The loop is a [map] of its body; only log records are left behind. *)
Lemma format_predictions_run (results : list raw_prediction) (w : world) :
  exists w', format_predictions results w = (Ret (map (format_one w) results), w') /\
             only_logged w w'.
Proof.
  revert w. induction results as [|[[c n] p] rest IH]; intros w.
  - exists w. split; [reflexivity|apply only_logged_refl].
  - cbn [format_predictions]. unfold bind at 1.
    destruct (get_japanese_label_run c w) as (w1 & Heq1 & Hf1). rewrite Heq1.
    unfold bind at 1.
    destruct (IH w1) as (w2 & Heq2 & Hf2). rewrite Heq2.
    exists w2. split; [|eapply only_logged_trans; eassumption].
    unfold ret. cbn [map]. f_equal. f_equal. f_equal.
    apply map_ext. intros x. apply format_one_reference.
    apply (only_logged_reference _ _ Hf1).
Qed.

(** ** Saving *)

Ltac wsimpl :=
  cbn [reference table next_pk media media_writable db_writable clock log flash
       set_table set_next_pk set_media set_log set_flash] in *.

Lemma only_logged_writable (w w' : world) :
  only_logged w w' ->
  media_writable w' = media_writable w /\ db_writable w' = db_writable w.
Proof. intros ((_ & _ & _ & _ & H1 & H2 & _) & _). split; assumption. Qed.

(** [save_analysis_result] always returns.  With a healthy storage and
    database it returns the new row, which is then in the table; when either
    fails it returns [None] and the table is as before. *)
Lemma save_analysis_result_run (E : env) (file : upload) (results : list raw_prediction)
    (time : spec_float) (w : world) :
  exists o w',
    save_analysis_result E file results time w = (Ret o, w') /\
    flash w' = flash w /\ reference w' = reference w /\
    match results with
    | [] => o = None /\ table w' = table w /\ media w' = media w
    | (c, name, prob) :: _ =>
        if media_writable w && db_writable w
        then o = Some (saved_row E file c name prob time w) /\
             table w' = <[next_pk w := saved_row E file c name prob time w]> (table w)
        else o = None /\ table w' = table w /\ next_pk w' = next_pk w
    end.
Proof.
  unfold save_analysis_result. destruct results as [|[[c name] prob] rest].
  - do 2 eexists. split; [reflexivity|]. wsimpl. tauto.
  - unfold try_except, bind at 1.
    destruct (get_japanese_label_run c w) as (w1 & Heq1 & Hf1). rewrite Heq1.
    pose proof Hf1 as ((Href & Htab & Hpk & Hmed & Hmw & Hdw & Hclk) & Hfl & _).
    unfold bind at 1. unfold model_save.
    cbv [bind get_world modify raise ret dispatch any_exception logger_error logger_info].
    rewrite Hmw, Hdw.
    destruct (media_writable w); [destruct (db_writable w)|]; wsimpl.
    + do 2 eexists. split; [reflexivity|]. wsimpl.
      unfold saved_row. fold (display_name w c name).
      rewrite Hpk, Hmed, Hclk, Htab. cbn [andb id]. auto.
    + do 2 eexists. split; [reflexivity|]. wsimpl. cbn [andb]. auto.
    + do 2 eexists. split; [reflexivity|]. wsimpl. cbn [andb]. auto.
Qed.

(** ** Decimal texts *)

Lemma string_of_uint_all_digits (u : Decimal.uint) :
  PyStr.all_digits (NilEmpty.string_of_uint u) = true.
Proof. induction u; simpl; auto. Qed.

Lemma of_N_all_digits (n : N) : PyStr.all_digits (PyStr.of_N n) = true.
Proof.
  unfold PyStr.of_N, NilZero.string_of_uint.
  destruct (N.to_uint n) eqn:Hu; try reflexivity;
    rewrite <- Hu; apply string_of_uint_all_digits.
Qed.

Lemma N_to_uint_nonnil (n : N) : N.to_uint n <> Decimal.Nil.
Proof.
  destruct n as [|p]; simpl; [discriminate|].
  apply DecimalPos.Unsigned.to_uint_nonnil.
Qed.

Lemma read_N_of_N (n : N) : read_N (PyStr.of_N n) = Some n.
Proof.
  unfold read_N, PyStr.of_N.
  rewrite (NilZero.usu _ (N_to_uint_nonnil n)). simpl.
  rewrite DecimalN.Unsigned.of_to. reflexivity.
Qed.

Lemma digit_text (d : Z) :
  0 <= d < 10 ->
  exists c, PyStr.of_N (Z.to_N d) = String c "" /\
            PyStr.is_digit c = true /\ digit_value c = d.
Proof.
  intros Hd.
  assert (Hcases : d = 0 \/ d = 1 \/ d = 2 \/ d = 3 \/ d = 4 \/
                   d = 5 \/ d = 6 \/ d = 7 \/ d = 8 \/ d = 9) by lia.
  repeat (destruct Hcases as [->|Hcases]); try subst d;
    eexists; (split; [reflexivity|split; reflexivity]).
Qed.

Lemma fixed2_text (s : bool) (n : Z) :
  0 <= n -> two_decimal_text (PyFloat.sign_str s ++ PyFloat.fixed2 n) s n.
Proof.
  intros Hn. unfold PyFloat.fixed2, PyFloat.two_digits.
  assert (Hk : 0 <= n mod 100 < 100) by (apply Z.mod_pos_bound; lia).
  destruct (digit_text (n mod 100 / 10)) as (a & Ha & Hda & Hva).
  { split; [apply Z.div_pos; lia|apply Z.div_lt_upper_bound; lia]. }
  destruct (digit_text ((n mod 100) mod 10)) as (b & Hb & Hdb & Hvb).
  { apply Z.mod_pos_bound. lia. }
  exists (PyStr.of_N (Z.to_N (n / 100))), a, b.
  rewrite Ha, Hb. split; [reflexivity|].
  split; [apply of_N_all_digits|]. split; [apply read_N_of_N|].
  split; [exact Hda|]. split; [exact Hdb|].
  rewrite Hva, Hvb. pose proof (Z.div_mod (n mod 100) 10). lia.
Qed.

Lemma div_half_even_nearest (a b : Z) :
  0 < b -> 2 * Z.abs (a - PyFloat.div_half_even a b * b) <= b.
Proof.
  intros Hb. unfold PyFloat.div_half_even.
  pose proof (Z.div_mod a b ltac:(lia)) as Hdm.
  pose proof (Z.mod_pos_bound a b Hb) as Hr.
  destruct (Z.compare_spec (2 * (a mod b)) b) as [Heq|Hlt|Hgt];
    [destruct (Z.even (a / b))| |]; nia.
Qed.

Lemma div_half_even_nonneg (a b : Z) :
  0 <= a -> 0 < b -> 0 <= PyFloat.div_half_even a b.
Proof.
  intros Ha Hb. unfold PyFloat.div_half_even.
  pose proof (Z.div_pos a b Ha Hb).
  destruct (2 * (a mod b) ?= b); [destruct (Z.even (a / b))| |]; lia.
Qed.

(** Rounding never passes an integer bound the exact quotient respects. *)
Lemma div_half_even_le (a b B : Z) :
  0 < b -> a <= B * b -> PyFloat.div_half_even a b <= B.
Proof.
  intros Hb Hle. unfold PyFloat.div_half_even.
  pose proof (Z.div_mod a b ltac:(lia)) as Hdm.
  pose proof (Z.mod_pos_bound a b Hb) as Hr.
  assert (Hq : a / b <= B) by (apply Z.div_le_upper_bound; lia).
  assert (Hup : 0 < a mod b -> a / b + 1 <= B) by nia.
  destruct (Z.compare_spec (2 * (a mod b)) b) as [Heq|Hlt|Hgt];
    [destruct (Z.even (a / b))| |]; lia.
Qed.

Lemma pow2_pos (k : Z) : 0 < 2 ^ Z.max k 0.
Proof. apply Z.pow_pos_nonneg; lia. Qed.

Lemma hundredths_nonneg (m : positive) (e : Z) : 0 <= PyFloat.hundredths m e.
Proof.
  unfold PyFloat.hundredths. destruct (Z.leb_spec 0 e) as [He|He].
  - pose proof (Z.pow_pos_nonneg 2 e). nia.
  - apply div_half_even_nonneg; [lia|]. apply Z.pow_pos_nonneg; lia.
Qed.

Lemma hundredths_nearest (m : positive) (e : Z) :
  nearest_hundredths m e (PyFloat.hundredths m e).
Proof.
  unfold nearest_hundredths, PyFloat.hundredths.
  destruct (Z.leb_spec 0 e) as [He|He].
  - rewrite (Z.max_l e 0), (Z.max_r (- e) 0) by lia.
    rewrite Z.pow_0_r. replace (_ - _) with 0 by ring. simpl. lia.
  - rewrite (Z.max_r e 0), (Z.max_l (- e) 0) by lia.
    rewrite Z.pow_0_r, Z.mul_1_r.
    apply div_half_even_nearest. apply Z.pow_pos_nonneg; lia.
Qed.

(** [format(x, '.2f')] of a finite value: sign, digits, a point and two
    digits, reading the nearest hundredth. *)
Lemma format_2f_text (x : spec_float) :
  is_finite x = true ->
  two_decimal_text (PyFloat.format_2f x) (sign_of x) (hundredths_of x).
Proof.
  destruct x as [s|s| |s m e]; try discriminate; intros _; simpl.
  - apply (fixed2_text s 0). lia.
  - apply fixed2_text. apply hundredths_nonneg.
Qed.

(** C9: whenever the lookup answers a falsy value -- [None], or the empty
    string of a table entry -- the label shown by [format_predictions] and
    the label stored by [save_analysis_result] is the native label with its
    underscores replaced by spaces. *)
Theorem falsy_label_falls_back_to_native_name (E : env) (w : world) (file : upload)
    (class_id name : string) (prob time : spec_float) (rest : list raw_prediction) :
  label_in w class_id = None \/ label_in w class_id = Some "" ->
  (exists d ps w',
     format_predictions ((class_id, name, prob) :: rest) w = (Ret (d :: ps), w') /\
     p_name d = PyStr.replace "_" " " name) /\
  (media_writable w && db_writable w = true ->
   exists r w',
     save_analysis_result E file ((class_id, name, prob) :: rest) time w = (Ret (Some r), w') /\
     prediction_label r = PyStr.replace "_" " " name /\
     table w' !! id r = Some r).
Proof.
  intros Hfalsy.
  assert (Hname : display_name w class_id name = PyStr.replace "_" " " name).
  { unfold display_name. destruct Hfalsy as [->| ->]; reflexivity. }
  split.
  - destruct (format_predictions_run ((class_id, name, prob) :: rest) w) as (w' & Heq & _).
    do 3 eexists. split; [exact Heq|]. exact Hname.
  - intros Hok.
    destruct (save_analysis_result_run E file ((class_id, name, prob) :: rest) time w)
      as (o & w' & Heq & _ & _ & Hcase).
    rewrite Hok in Hcase. destruct Hcase as (-> & Htab).
    do 2 eexists. split; [exact Heq|]. split; [exact Hname|].
    rewrite Htab. apply lookup_insert_eq.
Qed.

Lemma falsy_label_falls_back_to_native_name_witness :
  label_in (empty_world sample_reference) "n02123045" = Some "" /\
  (exists d ps w',
     format_predictions [("n02123045", "tabby_cat", score_0_0234375)]
       (empty_world sample_reference) = (Ret (d :: ps), w') /\
     p_name d = "tabby cat") /\
  (exists r w',
     save_analysis_result (sample_env sample_ranking) golden
       [("n02123045", "tabby_cat", score_0_0234375)] (S754_finite false 5 (-2))
       (empty_world sample_reference) = (Ret (Some r), w') /\
     prediction_label r = "tabby cat" /\ table w' !! id r = Some r).
Proof.
  assert (Hfalsy : label_in (empty_world sample_reference) "n02123045" = None \/
                   label_in (empty_world sample_reference) "n02123045" = Some "")
    by (right; reflexivity).
  destruct (falsy_label_falls_back_to_native_name (sample_env sample_ranking)
              (empty_world sample_reference) golden "n02123045" "tabby_cat"
              score_0_0234375 (S754_finite false 5 (-2)) [] Hfalsy) as (Hfmt & Hsave).
  split; [reflexivity|]. split; [exact Hfmt|].
  apply Hsave. reflexivity.
Defined.

(** ** The upload view *)

Lemma index_post (E : env) (req : request) :
  method req = POST -> index E req = index_view E req.
Proof. intros H. unfold index, require_http_methods. rewrite H. reflexivity. Qed.

Lemma same_store_set_flash (w : world) (f : list (msg_level * string)) :
  same_store w (set_flash f w).
Proof. unfold same_store. simpl. tauto. Qed.

Lemma same_store_set_log (w : world) (l : list log_entry) :
  same_store w (set_log l w).
Proof. unfold same_store. simpl. tauto. Qed.

Ltac run_view :=
  cbv [preprocess_image perform_prediction try_except dispatch bind get_world
       logger_error logger_info messages_add modify raise ret any_exception].

(** C7: an upload that fails at validation, at decoding or during
    inference is answered with an error message and no predictions, and
    leaves the table and the media directory as they were: a record is
    written only after inference has succeeded. *)
Theorem failed_upload_creates_no_record (E : env) (req : request) (w : world) :
  method req = POST ->
  fails_before_saving E req ->
  exists w' msg,
    index E req w = (Ret (RenderIndex None None), w') /\
    flash w' = (flash w ++ [(MsgError, msg)])%list /\
    same_store w w'.
Proof.
  intros Hpost Hfail. rewrite (index_post E req Hpost).
  unfold index_view. rewrite Hpost.
  destruct Hfail as [Hval|(file & Hfile & Hval & Hfail)].
  - destruct (validate_image_file (extension_order E) (imageFile req)) as [ok reason]. simpl in Hval. subst ok.
    run_view. do 2 eexists. split; [reflexivity|].
    split; [reflexivity|apply same_store_set_flash].
  - rewrite Hfile.
    destruct (validate_image_file (extension_order E) (Some file)) as [ok reason]. simpl in Hval. subst ok.
    destruct Hfail as [Hcv|[Hcv|(x & Hcv & Hmodel)]]; run_view; rewrite Hcv.
    + do 2 eexists. split; [reflexivity|]. split; [reflexivity|].
      unfold same_store. simpl. tauto.
    + do 2 eexists. split; [reflexivity|]. split; [reflexivity|].
      unfold same_store. simpl. tauto.
    + destruct Hmodel as [Hm|(model & Hm & Hx)]; rewrite Hm; [|rewrite Hx];
        (do 2 eexists; split; [reflexivity|]; split; [reflexivity|];
         unfold same_store; simpl; tauto).
Qed.

Lemma failed_upload_creates_no_record_witness :
  validate_image_file sample_order (Some zero_bytes) = (true, None) /\
  exists w' msg,
    index undecodable_env (upload_request (Some zero_bytes)) (empty_world sample_reference)
      = (Ret (RenderIndex None None), w') /\
    flash w' = [(MsgError, msg)] /\
    table w' = table (empty_world sample_reference) /\
    media w' = media (empty_world sample_reference).
Proof.
  split; [reflexivity|].
  assert (Hfail : fails_before_saving undecodable_env (upload_request (Some zero_bytes))).
  { right. exists zero_bytes. split; [reflexivity|]. split; [reflexivity|].
    left. reflexivity. }
  destruct (failed_upload_creates_no_record undecodable_env
              (upload_request (Some zero_bytes)) (empty_world sample_reference)
              eq_refl Hfail) as (w' & msg & Heq & Hflash & (_ & Htab & _ & Hmed & _)).
  exists w', msg. split; [exact Heq|]. split; [exact Hflash|].
  split; [exact Htab|exact Hmed].
Defined.

(** C6: when the storage or the database refuses the write,
    [save_analysis_result] returns [None] instead of raising, and the upload
    request still answers with every formatted prediction, in order,
    together with the warning that the result was not saved. *)
Theorem unsaved_result_still_shows_predictions (E : env) (req : request) (w : world)
    (file : upload) (x : ndarray E) (model : ndarray E -> option (list raw_prediction))
    (results : list raw_prediction) :
  method req = POST ->
  imageFile req = Some file ->
  fst (validate_image_file (extension_order E) (Some file)) = true ->
  cv_pipeline E (file_content file) = CvArray x ->
  app_model E = Some model ->
  model x = Some results ->
  media_writable w = false \/ db_writable w = false ->
  (exists w1, save_analysis_result E file results (elapsed E) w = (Ret None, w1) /\
              table w1 = table w) /\
  exists w',
    index E req w = (Ret (RenderIndex (Some (map (format_one w) results)) None), w') /\
    flash w' = (flash w ++ [(MsgWarning, msg_not_saved)])%list /\
    table w' = table w.
Proof.
  intros Hpost Hfile Hval Hcv Hm Hx Hdown.
  assert (Hflags : forall u, media_writable u = media_writable w ->
                             db_writable u = db_writable w ->
                             media_writable u && db_writable u = false).
  { intros u -> ->. destruct Hdown as [-> | ->]; [reflexivity|apply andb_false_r]. }
  assert (Hsave : forall u, media_writable u = media_writable w ->
            db_writable u = db_writable w ->
            exists u', save_analysis_result E file results (elapsed E) u = (Ret None, u') /\
                       table u' = table u /\ flash u' = flash u).
  { intros u H1 H2.
    destruct (save_analysis_result_run E file results (elapsed E) u)
      as (o & u' & Heq & Hfl & _ & Hcase).
    destruct results as [|[[c n] p] rest].
    - destruct Hcase as (-> & Htab & _). eauto.
    - rewrite (Hflags u H1 H2) in Hcase. destruct Hcase as (-> & Htab & _). eauto. }
  split.
  - destruct (Hsave w eq_refl eq_refl) as (w1 & Heq & Htab & _). eauto.
  - rewrite (index_post E req Hpost). unfold index_view. rewrite Hpost, Hfile.
    destruct (validate_image_file (extension_order E) (Some file)) as [ok reason]. simpl in Hval. subst ok.
    run_view. rewrite Hcv, Hm, Hx.
    destruct (format_predictions_run results w) as (w1 & Hfmt & Hframe). rewrite Hfmt.
    destruct (only_logged_writable _ _ Hframe) as (H1 & H2).
    destruct (Hsave w1 H1 H2) as (w2 & Heq & Htab & Hfl). rewrite Heq.
    eexists. split; [reflexivity|]. wsimpl.
    destruct Hframe as ((_ & Htab1 & _) & Hfl1 & _).
    split; [rewrite Hfl, Hfl1; reflexivity|congruence].
Qed.

Lemma unsaved_result_still_shows_predictions_witness :
  exists ps w',
    index (sample_env sample_ranking) (upload_request (Some golden)) read_only_world
      = (Ret (RenderIndex (Some ps) None), w') /\
    map p_prob ps = ["95.50%"; "2.34%"] /\
    flash w' = [(MsgWarning, msg_not_saved)] /\
    table w' = ∅.
Proof.
  destruct (unsaved_result_still_shows_predictions (sample_env sample_ranking)
              (upload_request (Some golden)) read_only_world golden tt
              (fun _ => Some sample_ranking) sample_ranking
              eq_refl eq_refl eq_refl eq_refl eq_refl eq_refl (or_intror eq_refl))
    as (_ & w' & Heq & Hflash & Htab).
  exists (map (format_one read_only_world) sample_ranking), w'.
  split; [exact Heq|]. split; [reflexivity|]. split; [exact Hflash|exact Htab].
Defined.

(** ** Deleting *)

Lemma delete_data_post (pk : Z) (req : request) :
  method req = POST -> delete_data pk req = delete_data_view pk req.
Proof. intros H. unfold delete_data, require_http_methods. rewrite H. reflexivity. Qed.

Ltac run_delete :=
  cbv [handle delete_data_view get_object_or_404 AnalysisResult_delete
       try_except dispatch bind get_world logger_error logger_info messages_add
       modify raise ret any_exception].

(** C3 (as amended): deleting an id that has no row is answered 404 and
    changes nothing.  For an existing row the image file is removed first
    and the row after it; when the file cannot be removed the failure is
    logged, an error notice is shown and the row and the file both stay. *)
Theorem delete_data_outcomes (pk : Z) (req : request) (w : world) :
  method req = POST ->
  (table w !! pk = None -> handle (delete_data pk req) w = (NotFound, w)) /\
  (forall r, table w !! pk = Some r -> id r = pk ->
     exists w',
       handle (delete_data pk req) w = (Redirect "predict:view_data", w') /\
       (owned_file w r = Some Protected ->
          table w' = table w /\ media w' = media w /\
          flash w' = (flash w ++ [(MsgError, msg_delete_failed)])%list /\
          log w' = (log w ++ [{| lg_level := LogError; lg_text := "削除エラー: ";
                                 lg_arg := ArgExn PermissionError |}])%list) /\
       (owned_file w r = Some Removable -> db_writable w = true ->
          table w' = delete pk (table w) /\ media w' = delete (image r) (media w) /\
          flash w' = (flash w ++ [(MsgSuccess, msg_deleted pk)])%list) /\
       (owned_file w r = None -> db_writable w = true ->
          table w' = delete pk (table w) /\ media w' = media w /\
          flash w' = (flash w ++ [(MsgSuccess, msg_deleted pk)])%list)).
Proof.
  intros Hpost. rewrite (delete_data_post pk req Hpost). split.
  - intros Hnone. run_delete. rewrite Hnone. reflexivity.
  - intros r Hsome Hid. unfold owned_file. run_delete. rewrite Hsome, Hid.
    destruct (String.eqb (image r) ""); cbn [negb].
    + destruct (db_writable w); eexists; (split; [reflexivity|]); wsimpl;
        (split; [discriminate|]); (split; [discriminate|]);
        intros _ Hdb; try discriminate Hdb; auto.
    + destruct (media w !! image r) as [[|]|];
        destruct (db_writable w); eexists; (split; [reflexivity|]); wsimpl;
        repeat split; try discriminate; intros; try discriminate; auto.
Qed.

Lemma delete_data_outcomes_witness :
  handle (delete_data 3 post_request) locked_world = (NotFound, locked_world) /\
  exists w',
    handle (delete_data 7 post_request) locked_world = (Redirect "predict:view_data", w') /\
    table w' = table locked_world /\ media w' = media locked_world /\
    flash w' = [(MsgError, msg_delete_failed)].
Proof.
  destruct (delete_data_outcomes 3 post_request locked_world eq_refl) as (Hnone & _).
  destruct (delete_data_outcomes 7 post_request locked_world eq_refl) as (_ & Hsome).
  split; [apply Hnone; reflexivity|].
  destruct (Hsome (history_row 7) eq_refl eq_refl) as (w' & Heq & Hlocked & _).
  destruct (Hlocked eq_refl) as (Htab & Hmed & Hflash & _).
  exists w'. split; [exact Heq|]. split; [exact Htab|]. split; [exact Hmed|exact Hflash].
Defined.

(** C3, the claim as stated: a failure to remove the image file does
    prevent the removal of the row. *)
Lemma blob_failure_keeps_the_row :
  table (snd (handle (delete_data 7 post_request) locked_world)) !! 7
    = Some (history_row 7) /\
  flash (snd (handle (delete_data 7 post_request) locked_world))
    = [(MsgError, msg_delete_failed)].
Proof. split; reflexivity. Qed.

(** ** The history listing *)

Lemma num_pages_ge_1 (p : Paginator) : per_page p = 10 -> 1 <= num_pages p.
Proof.
  intros Hpp. unfold num_pages. rewrite Hpp.
  apply Z.div_le_lower_bound; lia.
Qed.

Lemma slice_is_tenth (l : list AnalysisResult) (n : Z) :
  let bottom := (n - 1) * 10 in
  let top := bottom + 10 in
  slice l bottom (if top >=? Z.of_nat (length l) then Z.of_nat (length l) else top)
    = tenth n l.
Proof.
  cbv zeta. unfold slice, tenth. set (b := (n - 1) * 10).
  destruct (Z.geb_spec (b + 10) (Z.of_nat (length l))) as [Hlast|Hmore].
  - (* the last page: everything from [bottom] on, at most ten rows *)
    rewrite (firstn_all2 (n := Z.to_nat (Z.of_nat (length l) - b)))
      by (rewrite length_skipn; lia).
    symmetry. apply firstn_all2. rewrite length_skipn. lia.
  - f_equal. lia.
Qed.

(** A valid page number selects ten rows, fewer on the last page. *)
Lemma page_valid (p : Paginator) (n : Z) (w : world) :
  per_page p = 10 -> 1 <= n <= num_pages p ->
  page p (PageInt n) w
    = (Ret {| number := n; object_list := tenth n (pg_object_list p) |}, w).
Proof.
  intros Hpp Hn. unfold page, validate_number.
  cbv [bind raise ret].
  destruct (Z.ltb_spec n 1) as [?|_]; [lia|].
  destruct (Z.gtb_spec n (num_pages p)) as [?|_]; [lia|].
  rewrite Hpp. unfold count. rewrite (slice_is_tenth (pg_object_list p) n).
  reflexivity.
Qed.

Lemma tenth_length (n : Z) (l : list AnalysisResult) : (length (tenth n l) <= 10)%nat.
Proof. unfold tenth. rewrite length_firstn. lia. Qed.

(** C1 (as amended): the listing never fails.  A [page] that is not an
    integer gives page 1; a page number beyond the last page gives the last
    page; a page number below 1 (0, -1, ...) also gives the LAST page, since
    the view answers every [EmptyPage] with [paginator.num_pages]; a number
    in range gives that page.  A page holds ten rows at most, whatever the
    number of records. *)
Theorem view_data_page_selection (req : request) (w : world) :
  exists pg,
    view_data req w
      = (Ret (RenderViewData pg (PyStr.strip (default "" (search_arg req)))), w) /\
    (page_arg req = None \/ page_arg req = Some PageNotInt -> number pg = 1) /\
    (forall n, page_arg req = Some (PageInt n) -> n < 1 ->
       number pg = num_pages (history_paginator req w)) /\
    (forall n, page_arg req = Some (PageInt n) -> num_pages (history_paginator req w) < n ->
       number pg = num_pages (history_paginator req w)) /\
    (forall n, page_arg req = Some (PageInt n) ->
       1 <= n <= num_pages (history_paginator req w) -> number pg = n) /\
    1 <= number pg <= num_pages (history_paginator req w) /\
    object_list pg = tenth (number pg) (pg_object_list (history_paginator req w)) /\
    (length (object_list pg) <= 10)%nat.
Proof.
  set (P := history_paginator req w).
  assert (Hpp : per_page P = 10) by reflexivity.
  pose proof (num_pages_ge_1 P Hpp) as Hge.
  assert (Hrun : forall n, 1 <= n <= num_pages P ->
            page P (PageInt n) w
              = (Ret {| number := n; object_list := tenth n (pg_object_list P) |}, w))
    by (intros n Hn; apply page_valid; assumption).
  assert (Hgoal : forall n, 1 <= n <= num_pages P ->
            view_data req w
              = (Ret (RenderViewData {| number := n; object_list := tenth n (pg_object_list P) |}
                        (PyStr.strip (default "" (search_arg req)))), w) ->
            (page_arg req = None \/ page_arg req = Some PageNotInt -> n = 1) ->
            (forall k, page_arg req = Some (PageInt k) ->
               n = if k <? 1 then num_pages P
                   else if k >? num_pages P then num_pages P else k) ->
            exists pg,
              view_data req w
                = (Ret (RenderViewData pg (PyStr.strip (default "" (search_arg req)))), w) /\
              (page_arg req = None \/ page_arg req = Some PageNotInt -> number pg = 1) /\
              (forall n, page_arg req = Some (PageInt n) -> n < 1 -> number pg = num_pages P) /\
              (forall n, page_arg req = Some (PageInt n) -> num_pages P < n ->
                 number pg = num_pages P) /\
              (forall n, page_arg req = Some (PageInt n) -> 1 <= n <= num_pages P ->
                 number pg = n) /\
              1 <= number pg <= num_pages P /\
              object_list pg = tenth (number pg) (pg_object_list P) /\
              (length (object_list pg) <= 10)%nat).
  { intros n Hn Heq Hnone Hint. eexists. split; [exact Heq|]. cbn [number object_list].
    split; [exact Hnone|]. split.
    { intros k Hk Hlt. rewrite (Hint k Hk).
      destruct (Z.ltb_spec k 1); [reflexivity|lia]. }
    split.
    { intros k Hk Hgt. rewrite (Hint k Hk).
      destruct (Z.ltb_spec k 1); [reflexivity|].
      destruct (Z.gtb_spec k (num_pages P)); [reflexivity|lia]. }
    split.
    { intros k Hk Hin. rewrite (Hint k Hk).
      destruct (Z.ltb_spec k 1); [lia|].
      destruct (Z.gtb_spec k (num_pages P)); [lia|reflexivity]. }
    split; [exact Hn|]. split; [reflexivity|apply tenth_length]. }
  assert (Hview : forall pp, default (PageInt 1) (page_arg req) = pp ->
     view_data req w =
       (let (o, w') := match page P pp w with
                       | (Ret a, w') => (Ret a, w')
                       | (Raise e, w') =>
                           (if is_exn PageNotAnInteger e then page P (PageInt 1)
                            else if is_exn EmptyPage e then page P (PageInt (num_pages P))
                            else raise e) w'
                       end in
        match o with
        | Ret a => (Ret (RenderViewData a (PyStr.strip (default "" (search_arg req)))), w')
        | Raise e => (Raise e, w')
        end)).
  { intros pp <-. reflexivity. }
  destruct (page_arg req) as [[k|]|] eqn:Harg.
  - (* an integer *)
    specialize (Hview (PageInt k) eq_refl).
    destruct (Z.ltb_spec k 1) as [Hlow|Hok].
    + apply (Hgoal (num_pages P)); [lia| |intros [?|?]; discriminate|].
      * rewrite Hview. unfold page at 1, validate_number. cbv [bind raise].
        destruct (Z.ltb_spec k 1); [|lia]. cbn [is_exn].
        rewrite (Hrun (num_pages P)) by lia. reflexivity.
      * intros k' [= <-]. destruct (Z.ltb_spec k 1); [reflexivity|lia].
    + destruct (Z.gtb_spec k (num_pages P)) as [Hhigh|Hin].
      * apply (Hgoal (num_pages P)); [lia| |intros [?|?]; discriminate|].
        -- rewrite Hview. unfold page at 1, validate_number. cbv [bind raise].
           destruct (Z.ltb_spec k 1); [lia|].
           destruct (Z.gtb_spec k (num_pages P)); [|lia]. cbn [is_exn].
           rewrite (Hrun (num_pages P)) by lia. reflexivity.
        -- intros k' [= <-]. destruct (Z.ltb_spec k 1); [lia|].
           destruct (Z.gtb_spec k (num_pages P)); [reflexivity|lia].
      * apply (Hgoal k); [lia| |intros [?|?]; discriminate|].
        -- rewrite Hview. rewrite (Hrun k) by lia. reflexivity.
        -- intros k' [= <-]. destruct (Z.ltb_spec k 1); [lia|].
           destruct (Z.gtb_spec k (num_pages P)); [lia|reflexivity].
  - (* not an integer *)
    specialize (Hview PageNotInt eq_refl).
    apply (Hgoal 1); [lia| |reflexivity|intros k' ?; discriminate].
    rewrite Hview. unfold page at 1, validate_number. cbv [bind raise]. cbn [is_exn].
    rewrite (Hrun 1) by lia. reflexivity.
  - (* no page parameter: the default, 1 *)
    specialize (Hview (PageInt 1) eq_refl).
    apply (Hgoal 1); [lia| |reflexivity|intros k' ?; discriminate].
    rewrite Hview. rewrite (Hrun 1) by lia. reflexivity.
Qed.

Lemma view_data_page_selection_witness :
  num_pages (history_paginator (page_request (PageInt 0)) eleven_rows) = 2 /\
  (exists pg, view_data (page_request PageNotInt) eleven_rows
                = (Ret (RenderViewData pg ""), eleven_rows) /\ number pg = 1) /\
  (exists pg, view_data (page_request (PageInt 0)) eleven_rows
                = (Ret (RenderViewData pg ""), eleven_rows) /\ number pg = 2) /\
  (exists pg, view_data (page_request (PageInt 99)) eleven_rows
                = (Ret (RenderViewData pg ""), eleven_rows) /\ number pg = 2) /\
  (exists pg, view_data (page_request (PageInt 2)) eleven_rows
                = (Ret (RenderViewData pg ""), eleven_rows) /\ number pg = 2).
Proof.
  assert (Hnp : forall p, num_pages (history_paginator (page_request p) eleven_rows) = 2)
    by (intros p; vm_compute; reflexivity).
  split; [apply Hnp|]. repeat split.
  - destruct (view_data_page_selection (page_request PageNotInt) eleven_rows)
      as (pg & Heq & Hnot & _).
    exists pg. split; [exact Heq|]. apply Hnot. right. reflexivity.
  - destruct (view_data_page_selection (page_request (PageInt 0)) eleven_rows)
      as (pg & Heq & _ & Hlow & _).
    exists pg. split; [exact Heq|]. rewrite (Hlow 0 eq_refl) by lia. apply Hnp.
  - destruct (view_data_page_selection (page_request (PageInt 99)) eleven_rows)
      as (pg & Heq & _ & _ & Hhigh & _).
    exists pg. split; [exact Heq|]. rewrite (Hhigh 99 eq_refl) by (rewrite Hnp; lia).
    apply Hnp.
  - destruct (view_data_page_selection (page_request (PageInt 2)) eleven_rows)
      as (pg & Heq & _ & _ & _ & Hin & _).
    exists pg. split; [exact Heq|]. apply (Hin 2 eq_refl). rewrite Hnp. lia.
Defined.

(** C1, the claim as stated: with eleven records, page 0 and page -1 are
    answered with page 2, the last page, which holds the oldest record; the
    first page holds the ten newest. *)
Lemma page_below_one_gives_the_last_page :
  fst (view_data (page_request (PageInt 0)) eleven_rows)
    = Ret (RenderViewData {| number := 2; object_list := [history_row 1] |} "") /\
  fst (view_data (page_request (PageInt (-1))) eleven_rows)
    = Ret (RenderViewData {| number := 2; object_list := [history_row 1] |} "") /\
  fst (view_data (page_request (PageInt 1)) eleven_rows)
    = Ret (RenderViewData
             {| number := 1;
                object_list := map history_row [11; 10; 9; 8; 7; 6; 5; 4; 3; 2] |} "").
Proof. repeat split; vm_compute; reflexivity. Qed.

(** ** Rounding of binary floating-point numbers *)

Section Rounding.

Variables prec emax : Z.

Lemma iter_pos_nat {A : Type} (f : A -> A) (p : positive) (x : A) :
  SpecFloat.iter_pos f p x = Nat.iter (Pos.to_nat p) f x.
Proof.
  revert x. induction p as [p IH|p IH|]; intros x; cbn [SpecFloat.iter_pos].
  - rewrite !IH, Pos2Nat.inj_xI, <- Nat.iter_add, <- Nat.iter_succ_r.
    f_equal. lia.
  - rewrite !IH, Pos2Nat.inj_xO, <- Nat.iter_add. f_equal. lia.
  - reflexivity.
Qed.

Lemma shr_1_spec (mrs : shr_record) :
  0 <= shr_m mrs ->
  shr_m (shr_1 mrs) = shr_m mrs / 2 /\
  shr_r (shr_1 mrs) = Z.odd (shr_m mrs) /\
  shr_s (shr_1 mrs) = (shr_r mrs || shr_s mrs)%bool.
Proof.
  destruct mrs as [m r s]. cbn [shr_m shr_r shr_s]. intros Hm.
  destruct m as [|[p|p|]|p]; try lia; cbn [shr_1 shr_m shr_r shr_s];
    (split; [|split; reflexivity]).
  - reflexivity.
  - apply (Z.div_unique _ 2 _ 1); lia.
  - apply (Z.div_unique _ 2 _ 0); lia.
  - reflexivity.
Qed.

(** After [k] shifts the mantissa is the quotient by [2^k], and both the
    round and the sticky bit are clear when the division is exact. *)
Lemma shr_iter (M : Z) (k : nat) :
  0 <= M ->
  shr_m (Nat.iter k shr_1 (Build_shr_record M false false)) = M / 2 ^ Z.of_nat k /\
  (M mod 2 ^ Z.of_nat k = 0 ->
   shr_r (Nat.iter k shr_1 (Build_shr_record M false false)) = false /\
   shr_s (Nat.iter k shr_1 (Build_shr_record M false false)) = false).
Proof.
  intros HM. induction k as [|k (IHm & IHrs)].
  - change (Nat.iter 0 shr_1 (Build_shr_record M false false))
      with (Build_shr_record M false false).
    cbn [shr_m shr_r shr_s]. rewrite Z.div_1_r. auto.
  - rewrite Nat.iter_succ.
    set (mrs := Nat.iter k shr_1 (Build_shr_record M false false)) in *.
    assert (Hpow : 0 < 2 ^ Z.of_nat k) by (apply Z.pow_pos_nonneg; lia).
    assert (Hnn : 0 <= shr_m mrs) by (rewrite IHm; apply Z.div_pos; lia).
    destruct (shr_1_spec mrs Hnn) as (Hm & Hr & Hs).
    rewrite Nat2Z.inj_succ, Z.pow_succ_r by lia.
    split.
    + rewrite Hm, IHm, Z.div_div by lia. f_equal. lia.
    + intros Hex. rewrite Hr, Hs, IHm.
      pose proof (Z.div_mod M (2 * 2 ^ Z.of_nat k) ltac:(lia)) as Hdm.
      rewrite Hex, Z.add_0_r in Hdm.
      set (c := M / (2 * 2 ^ Z.of_nat k)) in *.
      assert (Hq : M / 2 ^ Z.of_nat k = 2 * c).
      { symmetry. apply (Z.div_unique _ _ _ 0); lia. }
      assert (Hmod : M mod 2 ^ Z.of_nat k = 0).
      { symmetry. apply (Z.mod_unique _ _ (2 * c)); lia. }
      destruct (IHrs Hmod) as (-> & ->).
      rewrite Hq, Z.odd_mul. auto.
Qed.

Lemma round_nearest_even_bounds (m : Z) (l : location) :
  m <= round_nearest_even m l <= m + 1.
Proof.
  destruct l as [|[| |]]; cbn [round_nearest_even]; try lia.
  destruct (Z.even m); lia.
Qed.

(** A right shift of an exact mantissa followed by rounding: the quotient
    or one more, and the quotient itself when nothing was shifted out. *)
Lemma shift_and_round (M : Z) (p : positive) :
  0 <= M ->
  let mrs := SpecFloat.iter_pos shr_1 p (shr_record_of_loc M loc_Exact) in
  let m1 := round_nearest_even (shr_m mrs) (loc_of_shr_record mrs) in
  M / 2 ^ Z.pos p <= m1 <= M / 2 ^ Z.pos p + 1 /\
  (M mod 2 ^ Z.pos p = 0 -> m1 = M / 2 ^ Z.pos p).
Proof.
  intros HM. cbv zeta. cbn [shr_record_of_loc]. rewrite iter_pos_nat.
  destruct (shr_iter M (Pos.to_nat p) HM) as (Hm & Hrs).
  rewrite positive_nat_Z in Hm, Hrs.
  set (mrs := Nat.iter (Pos.to_nat p) shr_1 (Build_shr_record M false false)) in *.
  split.
  - rewrite <- Hm. apply round_nearest_even_bounds.
  - intros Hex. destruct (Hrs Hex) as (Hr & Hs). rewrite <- Hm.
    destruct mrs as [m r s]. cbn [shr_m shr_r shr_s] in *. subst r s. reflexivity.
Qed.

(** A shift alone never increases the value. *)
Lemma shr_exact_floor (M e n : Z) (mrs : shr_record) (e' : Z) :
  0 <= M ->
  shr (shr_record_of_loc M loc_Exact) e n = (mrs, e') ->
  (n <= 0 /\ shr_m mrs = M /\ e' = e) \/
  (0 < n /\ shr_m mrs = M / 2 ^ n /\ e' = e + n).
Proof.
  intros HM. unfold shr. destruct n as [|p|p]; intros [= <- <-].
  - left. cbn. lia.
  - right. rewrite iter_pos_nat. cbn [shr_record_of_loc].
    destruct (shr_iter M (Pos.to_nat p) HM) as (Hm & _).
    rewrite positive_nat_Z in Hm. split; [lia|]. split; [exact Hm|reflexivity].
  - left. cbn. lia.
Qed.


Lemma digits2_bounds (m : positive) :
  2 ^ (Z.pos (digits2_pos m) - 1) <= Z.pos m < 2 ^ Z.pos (digits2_pos m).
Proof.
  induction m as [m IH|m IH|]; cbn [digits2_pos].
  - rewrite Pos2Z.inj_succ. replace (Z.succ (Z.pos (digits2_pos m)) - 1)
      with (Z.succ (Z.pos (digits2_pos m) - 1)) by lia.
    rewrite !Z.pow_succ_r by lia. lia.
  - rewrite Pos2Z.inj_succ. replace (Z.succ (Z.pos (digits2_pos m)) - 1)
      with (Z.succ (Z.pos (digits2_pos m) - 1)) by lia.
    rewrite !Z.pow_succ_r by lia. lia.
  - cbn. lia.
Qed.

(** A positive value below [B] has its exponent in range. *)
Lemma mag_le_exponent (m e B : Z) :
  0 < m -> 0 <= emax - prec -> B < 2 ^ (emax - prec + 1) ->
  PyFloat.mag_le m e B -> e <= emax - prec.
Proof.
  intros Hm Hfmt HB Hle. unfold PyFloat.mag_le in Hle.
  destruct (Z.le_gt_cases e (emax - prec)) as [?|Hgt]; [assumption|exfalso].
  rewrite (Z.max_l e 0), (Z.max_r (- e) 0), Z.pow_0_r in Hle by lia.
  assert (Hpow : 2 ^ (emax - prec + 1) <= 2 ^ e)
    by (apply Z.pow_le_mono_r; lia).
  nia.
Qed.

(** Rounding to nearest never passes an integer bound that the exact value
    respects, when the rounded mantissa counts units of at most one. *)
Lemma binary_round_aux_within (M : positive) (E B : Z) :
  0 <= emax - prec -> 0 < B < 2 ^ (emax - prec + 1) ->
  fexp prec emax (Z.pos (digits2_pos M) + E) <= 0 ->
  PyFloat.mag_le (Z.pos M) E B ->
  PyFloat.within B (binary_round_aux prec emax false (Z.pos M) E loc_Exact).
Proof.
  intros Hfmt HB He1 Hle.
  unfold binary_round_aux, shr_fexp. cbn [Zdigits2].
  set (e1 := fexp prec emax (Z.pos (digits2_pos M) + E)) in *.
  assert (Hstage2 : forall m1 e1',
    0 <= m1 -> PyFloat.mag_le m1 e1' B ->
    PyFloat.within B
      (let '(mrs'', e'') :=
         shr (shr_record_of_loc m1 loc_Exact) e1'
             (fexp prec emax (Zdigits2 m1 + e1') - e1') in
       match shr_m mrs'' with
       | 0 => S754_zero false
       | Z.pos m => if e'' <=? emax - prec then S754_finite false m e''
                    else S754_infinity false
       | Z.neg _ => S754_nan
       end)).
  { intros m1 e1' Hm1 Hmag.
    destruct (shr _ e1' _) as [mrs e2] eqn:Hshr.
    assert (Hfinal : 0 <= shr_m mrs /\ PyFloat.mag_le (shr_m mrs) e2 B).
    { destruct (shr_exact_floor _ _ _ _ _ Hm1 Hshr) as [(_ & -> & ->)|(Hn & -> & ->)];
        [split; assumption|].
      set (n := fexp prec emax (Zdigits2 m1 + e1') - e1') in *.
      assert (Hpn : 0 < 2 ^ n) by (apply Z.pow_pos_nonneg; lia).
      split; [apply Z.div_pos; lia|].
      pose proof (Z.mul_div_le m1 (2 ^ n) Hpn) as Hfloor.
      unfold PyFloat.mag_le in *.
      destruct (Z.le_gt_cases e1' 0) as [Hneg|Hpos].
      - rewrite (Z.max_r e1' 0), (Z.max_l (- e1') 0), Z.pow_0_r in Hmag by lia.
        destruct (Z.le_gt_cases (e1' + n) 0) as [Hneg2|Hpos2].
        + rewrite (Z.max_r (e1' + n) 0), (Z.max_l (- (e1' + n)) 0), Z.pow_0_r by lia.
          rewrite Z.mul_1_r. apply Z.div_le_upper_bound; [lia|].
          replace (- e1') with (n + - (e1' + n)) in Hmag by lia.
          rewrite Z.pow_add_r in Hmag by lia. lia.
        + rewrite (Z.max_l (e1' + n) 0), (Z.max_r (- (e1' + n)) 0), Z.pow_0_r by lia.
          assert (Hp1 : 0 < 2 ^ (- e1')) by (apply Z.pow_pos_nonneg; lia).
          replace n with ((e1' + n) + - e1') in Hfloor at 1 by lia.
          rewrite Z.pow_add_r in Hfloor by lia.
          apply (Z.mul_le_mono_pos_r _ _ (2 ^ (- e1'))); [exact Hp1|].
          rewrite Z.mul_1_r in Hmag. lia.
      - rewrite (Z.max_l e1' 0), (Z.max_r (- e1') 0), Z.pow_0_r in Hmag by lia.
        rewrite (Z.max_l (e1' + n) 0), (Z.max_r (- (e1' + n)) 0), Z.pow_0_r by lia.
        rewrite Z.pow_add_r by lia.
        assert (Hp1 : 0 < 2 ^ e1') by (apply Z.pow_pos_nonneg; lia).
        nia. }
    destruct Hfinal as (Hnn & Hmag2).
    destruct (shr_m mrs) as [|m|m] eqn:Hm; [exact I| |lia].
    pose proof (mag_le_exponent (Z.pos m) e2 B ltac:(lia) Hfmt (proj2 HB) Hmag2) as He2.
    destruct (Z.leb_spec e2 (emax - prec)); [|lia]. exact Hmag2. }
  destruct (e1 - E) as [|p|p] eqn:Hn; cbn [shr shr_record_of_loc loc_of_shr_record
                                             round_nearest_even shr_m].
  - apply Hstage2; [lia|exact Hle].
  - (* the mantissa is shifted right by [p] and rounded *)
    destruct (shift_and_round (Z.pos M) p ltac:(lia)) as (Hbounds & Hexact).
    cbn [shr_record_of_loc] in Hbounds, Hexact.
    set (m1 := round_nearest_even _ _) in *.
    assert (HE : E = e1 - Z.pos p) by lia.
    assert (Hpp : 0 < 2 ^ Z.pos p) by (apply Z.pow_pos_nonneg; lia).
    assert (Hp1 : 0 < 2 ^ (- e1)) by (apply Z.pow_pos_nonneg; lia).
    pose proof (Z.div_pos (Z.pos M) (2 ^ Z.pos p) ltac:(lia) Hpp) as Hq0.
    assert (Hm1 : m1 <= B * 2 ^ (- e1)).
    { unfold PyFloat.mag_le in Hle.
      rewrite (Z.max_r E 0), (Z.max_l (- E) 0), Z.pow_0_r, Z.mul_1_r in Hle by lia.
      replace (- E) with (- e1 + Z.pos p) in Hle by lia.
      rewrite Z.pow_add_r, Z.mul_assoc in Hle by lia.
      set (K := B * 2 ^ (- e1)) in *.
      pose proof (Z.div_mod (Z.pos M) (2 ^ Z.pos p) ltac:(lia)) as Hdm.
      pose proof (Z.mod_pos_bound (Z.pos M) (2 ^ Z.pos p) Hpp) as Hr.
      assert (Hq : Z.pos M / 2 ^ Z.pos p <= K)
        by (apply Z.div_le_upper_bound; lia).
      destruct (Z.eq_dec (Z.pos M mod 2 ^ Z.pos p) 0) as [Hz|Hnz].
      - rewrite (Hexact Hz). exact Hq.
      - assert (Z.pos M / 2 ^ Z.pos p < K) by nia. lia. }
    replace (E + Z.pos p) with e1 by lia.
    apply Hstage2; [lia|].
    unfold PyFloat.mag_le.
    rewrite (Z.max_r e1 0), (Z.max_l (- e1) 0), Z.pow_0_r by lia. lia.
  - apply Hstage2; [lia|exact Hle].
Qed.

End Rounding.

(** ** Scores *)

Lemma binary32_le_one (m : positive) (e : Z) :
  Z.pos m < 2 ^ 24 ->
  PyFloat.leb32 (S754_finite false m e) (S754_finite false 8388608 (-23)) = true ->
  Z.pos m <= 2 ^ (- e) /\ e < 0.
Proof.
  intros Hm H1.
  unfold PyFloat.leb32, SFleb, SFcompare in H1.
  destruct (Z.compare_spec e (-23)) as [->|Hlt|Hgt]; [|split; [|lia]|discriminate].
  - rewrite Pos.compare_cont_spec in H1. cbn [Pos.switch_Eq] in H1.
    change (2 ^ (- (-23))) with 8388608.
    destruct (Pos.compare_spec m 8388608) as [Hc|Hc|Hc].
    + subst m. split; reflexivity.
    + apply Pos2Z.pos_lt_pos in Hc. clear H1 Hm.
      split; [apply Z.lt_le_incl; exact Hc|reflexivity].
    + discriminate.
  - eapply Z.le_trans; [apply Z.lt_le_incl; exact Hm|].
    apply Z.pow_le_mono_r; lia.
Qed.

(** A binary32 probability in [[0, 1]] times 100 is in [[0, 100]]. *)
Lemma mul32_percent_within (p : spec_float) :
  PyFloat.valid32 p = true ->
  PyFloat.leb32 (PyFloat.f32_of_Z 0) p = true ->
  PyFloat.leb32 p (PyFloat.f32_of_Z 1) = true ->
  PyFloat.within 100 (PyFloat.mul32 p c100).
Proof.
  intros Hvalid H0 H1.
  change c100 with (S754_finite false 13107200 (-17)).
  change (PyFloat.f32_of_Z 0) with (S754_zero false) in H0.
  change (PyFloat.f32_of_Z 1) with (S754_finite false 8388608 (-23)) in H1.
  destruct p as [s|s| |s m e]; try discriminate.
  - exact I.
  - destruct s; discriminate.
  - destruct s; [discriminate|]. clear H0.
    unfold PyFloat.mul32, SFmul. cbn [xorb].
    (* the mantissa has at most 24 bits *)
    unfold PyFloat.valid32, valid_binary, bounded, canonical_mantissa in Hvalid.
    apply andb_true_iff in Hvalid as (Hcanon & _).
    apply Z.eqb_eq in Hcanon. unfold fexp, emin in Hcanon.
    change PyFloat.prec32 with 24 in *. change PyFloat.emax32 with 128 in *.
    pose proof (digits2_bounds m) as (_ & Hm24).
    assert (Hdig : Z.pos (digits2_pos m) <= 24) by lia.
    assert (Hm : Z.pos m < 2 ^ 24).
    { eapply Z.lt_le_trans; [exact Hm24|]. apply Z.pow_le_mono_r; lia. }
    (* the value is at most one *)
    pose proof (binary32_le_one m e Hm H1) as Hone.
    destruct Hone as (Hone & Hneg).
    assert (Hmag : PyFloat.mag_le (Z.pos (m * 13107200)) (e + -17) 100).
    { unfold PyFloat.mag_le.
      rewrite (Z.max_r (e + -17) 0), (Z.max_l (- (e + -17)) 0), Z.pow_0_r by lia.
      replace (- (e + -17)) with (17 + - e) by lia.
      rewrite Z.pow_add_r, Pos2Z.inj_mul by lia.
      change (2 ^ 17) with 131072. lia. }
    apply binary_round_aux_within; [lia|cbn; lia| |exact Hmag].
    (* the product is below 2^7, so its last place is at most 2^-17 *)
    pose proof (digits2_bounds (m * 13107200)) as (Hlow & _).
    unfold PyFloat.mag_le in Hmag.
    rewrite (Z.max_r (e + -17) 0), (Z.max_l (- (e + -17)) 0), Z.pow_0_r in Hmag by lia.
    set (d := Z.pos (digits2_pos (m * 13107200))) in *.
    assert (Hd : d - 1 < 7 + - (e + -17)).
    { apply (Z.pow_lt_mono_r_iff 2); [lia|lia|].
      rewrite Z.pow_add_r by lia. change (2 ^ 7) with 128.
      assert (0 < 2 ^ (- (e + -17))) by (apply Z.pow_pos_nonneg; lia). lia. }
    unfold fexp, emin. lia.
Qed.

Lemma forallb_seq_true (f : nat -> bool) (n : nat) :
  forallb f (List.seq 1 n) = true ->
  forall k, (1 <= k <= n)%nat -> f k = true.
Proof.
  intros Hall k Hk. rewrite forallb_forall in Hall.
  apply Hall. apply in_seq. lia.
Qed.

Lemma hundredths_table :
  forallb (fun k => in_percent_range (float_of_hundredths (Pos.of_nat k)))
          (List.seq 1 (Z.to_nat 10000)) = true.
Proof. vm_compute. reflexivity. Qed.

Lemma float_of_hundredths_in_range (k : positive) :
  Z.pos k <= 10000 -> in_percent_range (float_of_hundredths k) = true.
Proof.
  intros Hk. rewrite <- (Pos2Nat.id k).
  apply (forallb_seq_true _ _ hundredths_table). lia.
Qed.

Lemma hundredths_within (m : positive) (e : Z) :
  PyFloat.mag_le (Z.pos m) e 100 -> PyFloat.hundredths m e <= 10000.
Proof.
  unfold PyFloat.mag_le, PyFloat.hundredths. intros Hle.
  destruct (Z.leb_spec 0 e) as [He|He].
  - rewrite (Z.max_l e 0), (Z.max_r (- e) 0), Z.pow_0_r in Hle by lia. lia.
  - rewrite (Z.max_r e 0), (Z.max_l (- e) 0), Z.pow_0_r in Hle by lia.
    apply div_half_even_le; [apply Z.pow_pos_nonneg; lia|lia].
Qed.

(** [round(x, 2)] of a value in [[0, 100]] is a [float] in [[0.0, 100.0]]. *)
Lemma round2_in_range (x : spec_float) :
  PyFloat.within 100 x -> in_percent_range (PyFloat.round2 x) = true.
Proof.
  destruct x as [s|s| |s m e]; cbn [PyFloat.within]; try contradiction.
  - intros _. destruct s; reflexivity.
  - destruct s; [contradiction|]. intros Hle. cbn [PyFloat.round2].
    pose proof (hundredths_within m e Hle) as Hn.
    destruct (PyFloat.hundredths m e) as [|k|k]; try reflexivity.
    apply (float_of_hundredths_in_range k Hn).
Qed.

(** C8 (as amended): a saved record carries, as its score, the binary32
    product [top_prob * 100] rounded to two decimals (the [float] nearest to
    the nearest hundredth), and for a probability in [[0, 1]] that score is
    in [[0.0, 100.0]].  The range follows from the probability alone:
    nothing checks it when the record is written. *)
Theorem saved_score_is_rounded_percentage (E : env) (file : upload)
    (results : list raw_prediction) (time : spec_float) (w w' : world)
    (r : AnalysisResult) :
  save_analysis_result E file results time w = (Ret (Some r), w') ->
  exists c name prob rest,
    results = (c, name, prob) :: rest /\
    table w' !! id r = Some r /\
    prediction_score r = PyFloat.round2 (PyFloat.mul32 prob c100) /\
    (forall s m e, PyFloat.mul32 prob c100 = S754_finite s m e ->
       nearest_hundredths m e (PyFloat.hundredths m e) /\
       prediction_score r = float_of_decimal s (PyFloat.hundredths m e)) /\
    (PyFloat.valid32 prob = true ->
     PyFloat.leb32 (PyFloat.f32_of_Z 0) prob = true ->
     PyFloat.leb32 prob (PyFloat.f32_of_Z 1) = true ->
     in_percent_range (prediction_score r) = true).
Proof.
  intros Hsave.
  destruct (save_analysis_result_run E file results time w)
    as (o & w1 & Heq & _ & _ & Hcase).
  rewrite Hsave in Heq. injection Heq as <- <-.
  destruct results as [|[[c name] prob] rest]; [destruct Hcase; discriminate|].
  destruct (media_writable w && db_writable w); [|destruct Hcase; discriminate].
  destruct Hcase as ([= ->] & Htab).
  exists c, name, prob, rest. split; [reflexivity|].
  split; [rewrite Htab; apply lookup_insert_eq|].
  cbn [saved_row prediction_score].
  split; [reflexivity|]. split.
  - intros s m e ->. split; [apply hundredths_nearest|reflexivity].
  - intros Hvalid H0 H1. apply round2_in_range.
    apply mul32_percent_within; assumption.
Qed.

Lemma saved_score_is_rounded_percentage_witness :
  exists r w',
    save_analysis_result (sample_env sample_ranking) golden sample_ranking
      (S754_finite false 5 (-2)) (empty_world sample_reference) = (Ret (Some r), w') /\
    table w' !! 1 = Some r /\
    prediction_score r = S754_finite false 6720215068966912 (-46) /\
    in_percent_range (prediction_score r) = true.
Proof.
  destruct (save_analysis_result (sample_env sample_ranking) golden sample_ranking
              (S754_finite false 5 (-2)) (empty_world sample_reference))
    as [[[r|]|ex] w'] eqn:Hsave; try (vm_compute in Hsave; discriminate Hsave).
  exists r, w'. split; [reflexivity|].
  destruct (saved_score_is_rounded_percentage _ _ _ _ _ _ _ Hsave)
    as (c & name & prob & rest & Hres & Htab & Hscore & _ & Hrange).
  injection Hres as <- <- <- <-.
  assert (Hid : id r = 1) by (vm_compute in Hsave; injection Hsave as <- _; reflexivity).
  rewrite Hid in Htab. split; [exact Htab|]. split.
  - rewrite Hscore. vm_compute. reflexivity.
  - apply Hrange; reflexivity.
Defined.

(** C8, the claim as stated: the range is not enforced when the record is
    written.  A top probability of 1.5 is stored as the score 150.0. *)
Lemma out_of_range_score_is_stored :
  exists r w',
    save_analysis_result (sample_env overconfident) golden overconfident
      (S754_finite false 5 (-2)) (empty_world sample_reference) = (Ret (Some r), w') /\
    table w' !! 1 = Some r /\
    prediction_score r = PyFloat.f64_of_Z 150 /\
    in_percent_range (prediction_score r) = false.
Proof.
  do 2 eexists. split; [vm_compute; reflexivity|].
  split; [vm_compute; reflexivity|]. split; vm_compute; reflexivity.
Qed.

(** ** Formatting, in full *)

(** One lookup returns the label and leaves behind what it logs. *)
Lemma get_japanese_label_log (c : string) (w : world) :
  exists w',
    get_japanese_label c w = (Ret (label_in w c), w') /\ only_logged w w' /\
    log w' = (log w ++ logged_by_lookup w c)%list.
Proof.
  destruct (get_japanese_label_run c w) as (w' & Heq & Hframe).
  exists w'. split; [exact Heq|]. split; [exact Hframe|].
  unfold logged_by_lookup. rewrite Heq. cbn [snd].
  destruct (get_japanese_label_returns c w) as (l & u & Heq' & Hcase).
  rewrite Heq in Heq'. injection Heq' as _ <-.
  destruct Hcase as [->|(e & _ & ->)]; cbn [log set_log].
  - rewrite drop_all. symmetry. apply app_nil_r.
  - rewrite drop_app_length. reflexivity.
Qed.

(** A lookup logs at most one record, an error. *)
Lemma logged_by_lookup_small (c : string) (w : world) :
  (length (logged_by_lookup w c) <= 1)%nat /\
  Forall (fun e => lg_level e = LogError) (logged_by_lookup w c).
Proof.
  unfold logged_by_lookup.
  destruct (get_japanese_label_returns c w) as (l & u & Heq & Hcase).
  rewrite Heq. cbn [snd].
  destruct Hcase as [->|(e & He & ->)]; cbn [log set_log].
  - rewrite drop_all. split; [cbn; lia|constructor].
  - rewrite drop_app_length. split; [cbn; lia|]. constructor; [exact He|constructor].
Qed.

(** What a lookup logs depends on the reference file alone. *)
Lemma logged_by_lookup_reference (c : string) (w1 w2 : world) :
  reference w1 = reference w2 -> logged_by_lookup w1 c = logged_by_lookup w2 c.
Proof.
  intros Href. unfold logged_by_lookup. run_monad. rewrite <- Href.
  destruct (reference w1) as [| | | |items]; cbn [snd log set_log];
    rewrite ?drop_app_length; try reflexivity.
  pose proof (scan_labels_world_independent c items w1 w2) as Hs.
  destruct (scan_labels_outcome c items w1) as [[o1 H1]|H1],
           (scan_labels_outcome c items w2) as [[o2 H2]|H2];
    rewrite H1, H2 in Hs; cbn [fst] in Hs; try discriminate;
    rewrite H1, H2; cbn [snd log set_log];
    rewrite ?drop_all, ?drop_app_length; reflexivity.
Qed.

Lemma logged_by_lookup_missing (c : string) (w : world) :
  (reference w = RefMissing -> logged_by_lookup w c = [missing_file_record]) /\
  (reference w = RefInvalidJson -> logged_by_lookup w c = [invalid_json_record]).
Proof.
  split; intros Href; unfold logged_by_lookup; run_monad; rewrite Href;
    cbn [snd log set_log]; apply drop_app_length.
Qed.

Lemma scan_labels_of_objects (c : string) (items : list ref_item) (w : world) :
  Forall (fun it => it <> ItemOther) items ->
  exists o, scan_labels c items w = (Ret o, w).
Proof.
  induction 1 as [|it rest Hit _ IH]; cbn [scan_labels]; [eexists; reflexivity|].
  destruct it as [num ja|]; [|contradiction].
  destruct (bool_decide (num = Some c)); [eexists; reflexivity|exact IH].
Qed.

Lemma logged_by_lookup_objects (c : string) (items : list ref_item) (w : world) :
  reference w = RefList items -> Forall (fun it => it <> ItemOther) items ->
  logged_by_lookup w c = [].
Proof.
  intros Href Hall. unfold logged_by_lookup. run_monad. rewrite Href.
  destruct (scan_labels_of_objects c items w Hall) as (o & ->).
  cbn [snd]. apply drop_all.
Qed.

(** The loop, with its log: one lookup per entry, in order. *)
Lemma format_predictions_log (results : list raw_prediction) (w : world) :
  exists w',
    format_predictions results w = (Ret (map (format_one w) results), w') /\
    only_logged w w' /\
    log w' = (log w ++ flat_map (fun x => logged_by_lookup w (class_of x)) results)%list.
Proof.
  revert w. induction results as [|[[c n] p] rest IH]; intros w.
  - exists w. split; [reflexivity|]. split; [apply only_logged_refl|].
    symmetry. apply app_nil_r.
  - cbn [format_predictions]. unfold bind at 1.
    destruct (get_japanese_label_log c w) as (w1 & Heq1 & Hf1 & Hl1). rewrite Heq1.
    unfold bind at 1.
    destruct (IH w1) as (w2 & Heq2 & Hf2 & Hl2). rewrite Heq2.
    pose proof (only_logged_reference _ _ Hf1) as Href.
    exists w2. split; [|split; [eapply only_logged_trans; eassumption|]].
    + unfold ret. cbn [map]. f_equal. f_equal. f_equal.
      apply map_ext. intros x. apply format_one_reference. exact Href.
    + rewrite Hl2, Hl1. cbn [flat_map class_of fst]. rewrite <- app_assoc.
      f_equal. f_equal. apply flat_map_ext. intros x.
      apply logged_by_lookup_reference. exact Href.
Qed.

Lemma flat_map_singleton {A B : Type} (f : A -> list B) (b : B) (l : list A) :
  (forall a, f a = [b]) -> flat_map f l = repeat b (length l).
Proof.
  intros Hf. induction l as [|a l IH]; [reflexivity|].
  cbn [flat_map length repeat]. rewrite Hf, IH. reflexivity.
Qed.

Lemma flat_map_nothing {A B : Type} (f : A -> list B) (l : list A) :
  (forall a, f a = []) -> flat_map f l = [].
Proof.
  intros Hf. induction l as [|a l IH]; [reflexivity|].
  cbn [flat_map]. rewrite Hf, IH. reflexivity.
Qed.

(** The text of one entry. *)
Lemma percent_text_of (x : spec_float) :
  (forall s, x = S754_zero s -> percent_text (PyFloat.format_2f x ++ "%") s 0) /\
  (forall s m e, x = S754_finite s m e ->
     exists n, nearest_hundredths m e n /\ percent_text (PyFloat.format_2f x ++ "%") s n) /\
  (forall s, x = S754_infinity s ->
     PyFloat.format_2f x ++ "%" = PyFloat.sign_str s ++ "inf%") /\
  (x = S754_nan -> PyFloat.format_2f x ++ "%" = "nan%").
Proof.
  split; [|split; [|split]].
  - intros s ->. eexists. split; [reflexivity|].
    apply (format_2f_text (S754_zero s)). reflexivity.
  - intros s m e ->. exists (PyFloat.hundredths m e).
    split; [apply hundredths_nearest|]. eexists. split; [reflexivity|].
    apply (format_2f_text (S754_finite s m e)). reflexivity.
  - intros s ->. destruct s; reflexivity.
  - intros ->. reflexivity.
Qed.

Lemma percent_text_in_range (x : spec_float) :
  PyFloat.within 100 x ->
  exists s n, 0 <= n <= 10000 /\ percent_text (PyFloat.format_2f x ++ "%") s n.
Proof.
  destruct (percent_text_of x) as (Hzero & Hfin & _).
  destruct x as [s|s| |s m e]; cbn [PyFloat.within]; try contradiction.
  - intros _. exists s, 0. split; [lia|]. apply Hzero. reflexivity.
  - destruct s; [contradiction|]. intros Hle.
    exists false, (PyFloat.hundredths m e). split.
    + split; [apply hundredths_nonneg|apply hundredths_within; exact Hle].
    + eexists. split; [reflexivity|].
      apply (format_2f_text (S754_finite false m e)). reflexivity.
Qed.

(** C5 (as amended): formatting keeps the order of the ranked list and
    renders every probability as the binary32 product [prob * 100] in [.2f]
    with a per cent sign.  A finite product -- every probability in
    [[0, 1]] gives one -- reads with exactly two decimals, a hundredth
    nearest to the product; an infinite product reads [inf%] or [-inf%] and
    a NaN [nan%].  It is not free of I/O: every entry is looked up in the
    reference file, in order, and the log grows by what each of these
    lookups logs: nothing when it completes, one error record when it fails
    (with the file missing or not JSON, one record per entry). *)
Theorem format_predictions_order_and_percent (results : list raw_prediction) (w : world) :
  exists ps w',
    format_predictions results w = (Ret ps, w') /\ only_logged w w' /\
    map p_class_id ps = map class_of results /\
    Forall2 (fun x d =>
      p_class_id d = class_of x /\
      p_name d = display_name w (class_of x) (native_of x) /\
      p_raw_prob d = PyFloat.mul32 (prob_of x) c100 /\
      p_prob d = PyFloat.format_2f (p_raw_prob d) ++ "%" /\
      (forall s, p_raw_prob d = S754_zero s -> percent_text (p_prob d) s 0) /\
      (forall s m e, p_raw_prob d = S754_finite s m e ->
         exists n, nearest_hundredths m e n /\ percent_text (p_prob d) s n) /\
      (forall s, p_raw_prob d = S754_infinity s ->
         p_prob d = PyFloat.sign_str s ++ "inf%") /\
      (p_raw_prob d = S754_nan -> p_prob d = "nan%") /\
      (PyFloat.valid32 (prob_of x) = true ->
       PyFloat.leb32 (PyFloat.f32_of_Z 0) (prob_of x) = true ->
       PyFloat.leb32 (prob_of x) (PyFloat.f32_of_Z 1) = true ->
       exists s n, 0 <= n <= 10000 /\ percent_text (p_prob d) s n))
      results ps /\
    log w' = (log w ++ flat_map (fun x => logged_by_lookup w (class_of x)) results)%list /\
    (forall c, (length (logged_by_lookup w c) <= 1)%nat /\
               Forall (fun e => lg_level e = LogError) (logged_by_lookup w c)) /\
    (reference w = RefMissing ->
       log w' = (log w ++ repeat missing_file_record (length results))%list) /\
    (reference w = RefInvalidJson ->
       log w' = (log w ++ repeat invalid_json_record (length results))%list) /\
    (forall items, reference w = RefList items ->
       Forall (fun it => it <> ItemOther) items -> log w' = log w).
Proof.
  destruct (format_predictions_log results w) as (w' & Heq & Hframe & Hlog).
  exists (map (format_one w) results), w'.
  split; [exact Heq|]. split; [exact Hframe|].
  split; [rewrite map_map; reflexivity|]. split.
  - clear. induction results as [|x rest IH]; constructor; [|exact IH].
    cbn [format_one p_raw_prob p_prob p_class_id p_name].
    destruct (percent_text_of (PyFloat.mul32 (prob_of x) c100))
      as (Hzero & Hfin & Hinf & Hnan).
    repeat (split; [solve [reflexivity|assumption]|]).
    intros Hvalid H0 H1. apply percent_text_in_range.
    apply mul32_percent_within; assumption.
  - split; [exact Hlog|]. split; [intros c; apply logged_by_lookup_small|].
    rewrite Hlog. split; [|split].
    + intros Href. f_equal. apply flat_map_singleton.
      intros x. apply (proj1 (logged_by_lookup_missing (class_of x) w) Href).
    + intros Href. f_equal. apply flat_map_singleton.
      intros x. apply (proj2 (logged_by_lookup_missing (class_of x) w) Href).
    + intros items Href Hall. rewrite flat_map_nothing; [apply app_nil_r|].
      intros x. apply (logged_by_lookup_objects (class_of x) items w Href Hall).
Qed.

Lemma format_predictions_order_and_percent_witness :
  exists ps w',
    format_predictions sample_ranking (empty_world sample_reference) = (Ret ps, w') /\
    map p_class_id ps = ["n02099601"; "n02123045"] /\
    map p_prob ps = ["95.50%"; "2.34%"] /\
    log w' = [] /\
    exists u,
      snd (format_predictions sample_ranking (empty_world RefMissing)) = u /\
      log u = [missing_file_record; missing_file_record].
Proof.
  destruct (format_predictions_order_and_percent sample_ranking (empty_world sample_reference))
    as (ps & w' & Heq & _ & Hids & _ & _ & _ & _ & _ & Hquiet).
  destruct (format_predictions_order_and_percent sample_ranking (empty_world RefMissing))
    as (ps' & u & Heq' & _ & _ & _ & _ & _ & Hmissing & _).
  exists ps, w'. split; [exact Heq|]. split; [exact Hids|].
  pose proof Heq as Hc. vm_compute in Hc. injection Hc as <- _.
  split; [reflexivity|]. split.
  - rewrite (Hquiet _ eq_refl); [reflexivity|].
    repeat constructor; discriminate.
  - exists u. rewrite Heq'. split; [reflexivity|]. rewrite (Hmissing eq_refl). reflexivity.
Defined.

(** C5, the claim as stated: formatting is not a pure transform.  With the
    reference file missing it writes to the log, and its labels change with
    the content of that file. *)
Lemma format_predictions_is_not_pure :
  log (snd (format_predictions sample_ranking (empty_world RefMissing)))
    <> log (empty_world RefMissing) /\
  fst (format_predictions sample_ranking (empty_world RefMissing))
    <> fst (format_predictions sample_ranking (empty_world sample_reference)).
Proof.
  split; vm_compute; discriminate.
Qed.

(** * Further properties *)

(** ** Saving, in full *)

Lemma only_logged_fields (w w' : world) :
  only_logged w w' ->
  reference w' = reference w /\ table w' = table w /\ next_pk w' = next_pk w /\
  media w' = media w /\ media_writable w' = media_writable w /\
  db_writable w' = db_writable w /\ clock w' = clock w /\ flash w' = flash w.
Proof. intros ((H1 & H2 & H3 & H4 & H5 & H6 & H7) & H8 & _). tauto. Qed.

(** Every way [save_analysis_result] can end, with all it leaves behind. *)
Lemma save_analysis_result_cases (E : env) (file : upload)
    (results : list raw_prediction) (time : spec_float) (w : world) :
  exists o w',
    save_analysis_result E file results time w = (Ret o, w') /\
    flash w' = flash w /\ reference w' = reference w /\ clock w' = clock w /\
    media_writable w' = media_writable w /\ db_writable w' = db_writable w /\
    match results with
    | [] => o = None /\ table w' = table w /\ next_pk w' = next_pk w /\ media w' = media w
    | (c, name, prob) :: _ =>
        if media_writable w then
          media w' = <[stored_name E file w := Removable]> (media w) /\
          if db_writable w then
            o = Some (saved_row E file c name prob time w) /\
            table w' = <[next_pk w := saved_row E file c name prob time w]> (table w) /\
            next_pk w' = next_pk w + 1
          else o = None /\ table w' = table w /\ next_pk w' = next_pk w
        else o = None /\ table w' = table w /\ next_pk w' = next_pk w /\ media w' = media w
    end.
Proof.
  unfold save_analysis_result. destruct results as [|[[c name] prob] rest].
  - do 2 eexists. split; [reflexivity|]. wsimpl. tauto.
  - unfold try_except, bind at 1.
    destruct (get_japanese_label_run c w) as (w1 & Heq1 & Hf1). rewrite Heq1.
    destruct (only_logged_fields _ _ Hf1)
      as (Href & Htab & Hpk & Hmed & Hmw & Hdw & Hclk & Hfl).
    unfold bind at 1. unfold model_save.
    cbv [bind get_world modify raise ret dispatch any_exception logger_error logger_info].
    rewrite Hmw, Hdw. unfold stored_name.
    destruct (media_writable w); [destruct (db_writable w)|]; wsimpl;
      do 2 eexists; (split; [reflexivity|]); wsimpl; cbn [id negb];
      unfold saved_row; fold (display_name w c name);
      rewrite ?Hpk, ?Hmed, ?Hclk, ?Htab; auto 10.
Qed.

(** The successful upload, step by step. *)
Lemma index_success (E : env) (req : request) (w : world)
    (file : upload) (x : ndarray E) (model : ndarray E -> option (list raw_prediction))
    (c name : string) (prob : spec_float) (rest : list raw_prediction) :
  method req = POST ->
  imageFile req = Some file ->
  fst (validate_image_file (extension_order E) (Some file)) = true ->
  cv_pipeline E (file_content file) = CvArray x ->
  app_model E = Some model ->
  model x = Some ((c, name, prob) :: rest) ->
  media_writable w = true -> db_writable w = true ->
  exists w',
    index E req w
      = (Ret (RenderIndex (Some (map (format_one w) ((c, name, prob) :: rest)))
                          (Some (storage_url E (stored_name E file w)))), w') /\
    table w' = <[next_pk w := saved_row E file c name prob (elapsed E) w]> (table w) /\
    next_pk w' = next_pk w + 1 /\
    media w' = <[stored_name E file w := Removable]> (media w) /\
    flash w' = (flash w ++ [(MsgSuccess, msg_analysed E)])%list.
Proof.
  intros Hpost Hfile Hval Hcv Hm Hx Hmw Hdw.
  rewrite (index_post E req Hpost). unfold index_view. rewrite Hpost, Hfile.
  destruct (validate_image_file (extension_order E) (Some file)) as [ok reason].
  simpl in Hval. subst ok.
  run_view. rewrite Hcv, Hm, Hx.
  destruct (format_predictions_run ((c, name, prob) :: rest) w) as (w1 & Hfmt & Hframe).
  rewrite Hfmt.
  destruct (only_logged_fields _ _ Hframe)
    as (Href & Htab & Hpk & Hmed & Hmw1 & Hdw1 & Hclk & Hfl).
  destruct (save_analysis_result_cases E file ((c, name, prob) :: rest) (elapsed E) w1)
    as (o & w2 & Hsave & Hfl2 & _ & _ & _ & _ & Hcase).
  rewrite Hmw1, Hdw1, Hmw, Hdw in Hcase. destruct Hcase as (Hmed2 & -> & Htab2 & Hpk2).
  rewrite Hsave.
  assert (Hrow : saved_row E file c name prob (elapsed E) w1
                 = saved_row E file c name prob (elapsed E) w).
  { unfold saved_row, display_name.
    rewrite (label_in_reference c w1 w Href), Hpk, Hmed, Hclk. reflexivity. }
  assert (Hname : stored_name E file w1 = stored_name E file w)
    by (unfold stored_name; rewrite Hmed; reflexivity).
  rewrite Hrow in *. rewrite Hname in *.
  eexists. split; [reflexivity|]. wsimpl.
  rewrite Htab2, Hpk2, Hmed2, Hfl2, Htab, Hpk, Hmed, Hfl. auto.
Qed.

(** The counter of a consistent table points at a free key. *)
Lemma consistent_next_pk_free (w : world) : consistent w -> table w !! next_pk w = None.
Proof.
  intros Hc. destruct (table w !! next_pk w) as [r|] eqn:Hrow; [|reflexivity].
  destruct (Hc _ _ Hrow). lia.
Qed.

(** X1: an upload that validates, decodes and is classified, on a healthy
    storage and database, is answered with every formatted prediction, the
    address of the stored image and the success notice.  With a table whose
    ids are below the counter and a storage that hands out a name not yet
    taken, exactly one row is added, under the next primary key, and exactly
    one file: every earlier row and file is still there. *)
Theorem upload_creates_one_record (E : env) (req : request) (w : world)
    (file : upload) (x : ndarray E) (model : ndarray E -> option (list raw_prediction))
    (c name : string) (prob : spec_float) (rest : list raw_prediction) :
  method req = POST ->
  imageFile req = Some file ->
  fst (validate_image_file (extension_order E) (Some file)) = true ->
  cv_pipeline E (file_content file) = CvArray x ->
  app_model E = Some model ->
  model x = Some ((c, name, prob) :: rest) ->
  media_writable w = true -> db_writable w = true ->
  consistent w ->
  media w !! stored_name E file w = None ->
  exists w',
    index E req w
      = (Ret (RenderIndex (Some (map (format_one w) ((c, name, prob) :: rest)))
                          (Some (storage_url E (stored_name E file w)))), w') /\
    table w' = <[next_pk w := saved_row E file c name prob (elapsed E) w]> (table w) /\
    next_pk w' = next_pk w + 1 /\
    media w' = <[stored_name E file w := Removable]> (media w) /\
    flash w' = (flash w ++ [(MsgSuccess, msg_analysed E)])%list /\
    size (table w') = S (size (table w)) /\
    (forall pk r, table w !! pk = Some r -> table w' !! pk = Some r) /\
    size (media w') = S (size (media w)) /\
    (forall p f, media w !! p = Some f -> media w' !! p = Some f).
Proof.
  intros Hpost Hfile Hval Hcv Hm Hx Hmw Hdw Hc Hfree.
  destruct (index_success E req w file x model c name prob rest
              Hpost Hfile Hval Hcv Hm Hx Hmw Hdw)
    as (w' & Heq & Htab & Hpk & Hmed & Hflash).
  pose proof (consistent_next_pk_free w Hc) as Hkey.
  exists w'. repeat (split; [assumption|]).
  rewrite Htab, Hmed. split; [apply map_size_insert_None; exact Hkey|].
  split; [|split; [apply map_size_insert_None; exact Hfree|]].
  - intros pk r Hrow. rewrite lookup_insert_ne; [exact Hrow|]. congruence.
  - intros p f Hp. rewrite lookup_insert_ne; [exact Hp|]. congruence.
Qed.

Lemma empty_world_consistent (r : ref_file) : consistent (empty_world r).
Proof.
  intros pk row Hrow. cbn [empty_world table] in Hrow.
  rewrite lookup_empty in Hrow. discriminate.
Qed.

Lemma upload_creates_one_record_witness :
  exists w',
    index (sample_env sample_ranking) (upload_request (Some golden))
      (empty_world sample_reference)
      = (Ret (RenderIndex
                (Some (map (format_one (empty_world sample_reference)) sample_ranking))
                (Some "/media/uploads/2024/01/01/golden.jpg")), w') /\
    next_pk w' = 2 /\
    flash w' = [(MsgSuccess, "画像解析が完了しました（処理時間: 1.25秒）")] /\
    size (table w') = 1%nat /\ size (media w') = 1%nat.
Proof.
  destruct (upload_creates_one_record (sample_env sample_ranking)
              (upload_request (Some golden)) (empty_world sample_reference) golden tt
              (fun _ => Some sample_ranking) "n02099601" "golden_retriever"
              score_0_9550234 [("n02123045", "tabby_cat", score_0_0234375)]
              eq_refl eq_refl eq_refl eq_refl eq_refl eq_refl eq_refl eq_refl
              (empty_world_consistent sample_reference) (lookup_empty _))
    as (w' & Heq & _ & Hpk & _ & Hflash & Hrows & _ & Hfiles & _).
  exists w'. split; [exact Heq|]. split; [exact Hpk|]. split; [exact Hflash|].
  split; [exact Hrows|exact Hfiles].
Defined.

(** ** What every request leaves behind *)

(** X2: [delete_data] answers 405 to every method but POST, and [index]
    to every method but GET and POST, without touching anything; a GET on
    [index] shows the empty form, without touching anything either. *)
Theorem views_refuse_other_methods (E : env) (req : request) (pk : Z) (w : world) :
  (method req <> POST -> delete_data pk req w = (Ret (NotAllowed [POST]), w)) /\
  (method req <> GET -> method req <> POST ->
     index E req w = (Ret (NotAllowed [GET; POST]), w)) /\
  (method req = GET -> index E req w = (Ret (RenderIndex None None), w)).
Proof.
  unfold delete_data, index, require_http_methods, index_view.
  destruct (method req); repeat split; intros; try congruence; reflexivity.
Qed.

Lemma views_refuse_other_methods_witness :
  delete_data 7 (with_method GET) locked_world = (Ret (NotAllowed [POST]), locked_world) /\
  index (sample_env sample_ranking) (with_method PUT) locked_world
    = (Ret (NotAllowed [GET; POST]), locked_world) /\
  index (sample_env sample_ranking) (with_method GET) locked_world
    = (Ret (RenderIndex None None), locked_world).
Proof.
  destruct (views_refuse_other_methods (sample_env sample_ranking) (with_method GET) 7
              locked_world) as (Hdel & _ & Hget).
  destruct (views_refuse_other_methods (sample_env sample_ranking) (with_method PUT) 7
              locked_world) as (_ & Hput & _).
  split; [apply Hdel; discriminate|]. split.
  - apply Hput; discriminate.
  - apply Hget. reflexivity.
Defined.

(** All the upload view can do to the table is add one row under the next
    primary key, stamped with the current time. *)
Lemma index_effect (E : env) (req : request) (w : world) :
  exists resp w',
    index E req w = (Ret resp, w') /\ resp <> ServerError /\ clock w' = clock w /\
    ((table w' = table w /\ next_pk w' = next_pk w) \/
     (exists row, id row = next_pk w /\ created_at row = clock w /\
        table w' = <[next_pk w := row]> (table w) /\ next_pk w' = next_pk w + 1)).
Proof.
  assert (Hquiet : forall resp u,
            resp <> ServerError -> clock u = clock w ->
            table u = table w -> next_pk u = next_pk w ->
            exists resp' w',
              (Ret resp, u) = (Ret resp', w') /\ resp' <> ServerError /\
              clock w' = clock w /\
              ((table w' = table w /\ next_pk w' = next_pk w) \/
               (exists row, id row = next_pk w /\ created_at row = clock w /\
                  table w' = <[next_pk w := row]> (table w) /\
                  next_pk w' = next_pk w + 1))).
  { intros resp u H1 H2 H3 H4. exists resp, u. auto 6. }
  unfold index, require_http_methods.
  destruct (method req) eqn:Hmethod; cbn [existsb method_eqb orb];
    try (unfold index_view; rewrite Hmethod);
    try (apply Hquiet; [discriminate|reflexivity..]).
  destruct (validate_image_file (extension_order E) (imageFile req)) as [[|] reason];
    destruct (imageFile req) as [file|];
    try (run_view; apply Hquiet; [discriminate|reflexivity..]).
  run_view.
  destruct (cv_pipeline E (file_content file)) as [| |x];
    try (apply Hquiet; [discriminate|reflexivity..]).
  destruct (app_model E) as [model|];
    [destruct (model x) as [results|]|];
    try (apply Hquiet; [discriminate|reflexivity..]).
  destruct (format_predictions_run results w) as (w1 & Hfmt & Hframe). rewrite Hfmt.
  destruct (only_logged_fields _ _ Hframe)
    as (Href & Htab & Hpk & Hmed & Hmw1 & Hdw1 & Hclk & Hfl).
  destruct (save_analysis_result_cases E file results (elapsed E) w1)
    as (o & w2 & Hsave & _ & _ & Hclk2 & _ & _ & Hcase).
  rewrite Hsave.
  assert (Hcases :
    (o = None /\ table w2 = table w1 /\ next_pk w2 = next_pk w1) \/
    (exists row, o = Some row /\ id row = next_pk w1 /\ created_at row = clock w1 /\
       table w2 = <[next_pk w1 := row]> (table w1) /\ next_pk w2 = next_pk w1 + 1)).
  { destruct results as [|[[c name] prob] rest]; [left; tauto|].
    destruct (media_writable w1); [destruct Hcase as (_ & Hcase); destruct (db_writable w1)|];
      [|left; tauto..].
    right. exists (saved_row E file c name prob (elapsed E) w1).
    cbn [saved_row id created_at]. tauto. }
  clear Hcase.
  destruct Hcases as [(-> & Ht & Hp)|(row & -> & Hid & Hstamp & Ht & Hp)].
  - apply Hquiet; wsimpl; [discriminate|congruence..].
  - do 2 eexists. split; [reflexivity|]. wsimpl. split; [discriminate|].
    split; [congruence|]. right. exists row.
    rewrite Hid, Hstamp, Ht, Hp, Htab, Hpk, Hclk. auto.
Qed.

(** All deleting can do to the table is remove the requested key. *)
Lemma delete_data_effect (pk : Z) (req : request) (w : world) :
  exists resp w',
    handle (delete_data pk req) w = (resp, w') /\ resp <> ServerError /\
    next_pk w' = next_pk w /\ clock w' = clock w /\
    (table w' = table w \/
     exists r, table w !! pk = Some r /\ table w' = delete (id r) (table w)).
Proof.
  unfold delete_data, require_http_methods.
  destruct (method req); cbn [existsb method_eqb orb];
    try (do 2 eexists; split; [reflexivity|]; split; [discriminate|]; auto).
  run_delete.
  destruct (table w !! pk) as [r|] eqn:Hrow;
    [|do 2 eexists; split; [reflexivity|]; split; [discriminate|]; auto].
  destruct (negb (String.eqb (image r) ""));
    [destruct (media w !! image r) as [[|]|]|];
    destruct (db_writable w);
    do 2 eexists; (split; [reflexivity|]); wsimpl; (split; [discriminate|]); eauto 6.
Qed.

(** The listing always answers with a page in range and touches nothing. *)
Lemma view_data_run (req : request) (w : world) :
  exists n,
    1 <= n <= num_pages (history_paginator req w) /\
    view_data req w
      = (Ret (RenderViewData
                {| number := n;
                   object_list := tenth n (pg_object_list (history_paginator req w)) |}
                (PyStr.strip (default "" (search_arg req)))), w) /\
    (n = match default (PageInt 1) (page_arg req) with
         | PageNotInt => 1
         | PageInt k => if k <? 1 then num_pages (history_paginator req w)
                        else if k >? num_pages (history_paginator req w)
                             then num_pages (history_paginator req w) else k
         end).
Proof.
  set (P := history_paginator req w).
  assert (Hpp : per_page P = 10) by reflexivity.
  pose proof (num_pages_ge_1 P Hpp) as Hge.
  assert (Hrun : forall n, 1 <= n <= num_pages P ->
            page P (PageInt n) w
              = (Ret {| number := n; object_list := tenth n (pg_object_list P) |}, w))
    by (intros n Hn; apply page_valid; assumption).
  unfold view_data. cbv [bind get_world ret try_except dispatch].
  fold P.
  change ({| pg_object_list := history (PyStr.strip (default "" (search_arg req))) w;
             per_page := ITEMS_PER_PAGE |}) with P.
  assert (Hout : forall k, k < 1 \/ num_pages P < k ->
            page P (PageInt k) w = (Raise EmptyPage, w)).
  { intros k Hk. unfold page, validate_number. cbv [bind raise].
    destruct (Z.ltb_spec k 1); [reflexivity|].
    destruct (Z.gtb_spec k (num_pages P)); [reflexivity|lia]. }
  destruct (default (PageInt 1) (page_arg req)) as [k|].
  - destruct (Z.ltb_spec k 1) as [Hlow|Hok].
    + rewrite (Hout k) by lia. cbn [is_exn]. rewrite (Hrun (num_pages P)) by lia.
      exists (num_pages P). split; [lia|]. split; reflexivity.
    + destruct (Z.gtb_spec k (num_pages P)) as [Hhigh|Hin].
      * rewrite (Hout k) by lia. cbn [is_exn]. rewrite (Hrun (num_pages P)) by lia.
        exists (num_pages P). split; [lia|]. split; reflexivity.
      * rewrite (Hrun k) by lia. exists k. split; [lia|]. split; reflexivity.
  - unfold page at 1, validate_number. cbv [bind raise]. cbn [is_exn].
    rewrite (Hrun 1) by lia. exists 1. split; [lia|]. split; reflexivity.
Qed.

Lemma consistent_insert (w : world) (row : AnalysisResult) (t : gmap Z AnalysisResult) (n : Z) :
  consistent w -> id row = next_pk w ->
  t = <[next_pk w := row]> (table w) -> n = next_pk w + 1 ->
  forall pk r, t !! pk = Some r -> id r = pk /\ pk < n.
Proof.
  intros Hc Hid -> -> pk r Hlook.
  destruct (decide (next_pk w = pk)) as [<-|Hne].
  - rewrite lookup_insert_eq in Hlook. injection Hlook as <-. lia.
  - rewrite lookup_insert_ne in Hlook by exact Hne.
    destruct (Hc pk r Hlook). lia.
Qed.

(** X3: every view keeps the table consistent: each row stays under its
    own id, below the auto-increment counter, so the key the next save will
    use is free and no save overwrites a row. *)
Theorem views_keep_the_table_consistent (E : env) (req : request) (pk : Z) (w : world) :
  consistent w ->
  (consistent (snd (handle (index E req) w)) /\
   consistent (snd (handle (delete_data pk req) w)) /\
   consistent (snd (handle (view_data req) w))) /\
  (let w' := snd (handle (index E req) w) in table w' !! next_pk w' = None) /\
  (let w' := snd (handle (delete_data pk req) w) in table w' !! next_pk w' = None) /\
  (let w' := snd (handle (view_data req) w) in table w' !! next_pk w' = None).
Proof.
  intros Hc.
  assert (Hkeep : consistent (snd (handle (index E req) w)) /\
                  consistent (snd (handle (delete_data pk req) w)) /\
                  consistent (snd (handle (view_data req) w))).
  { destruct (index_effect E req w) as (r1 & w1 & H1 & _ & _ & Hcase1).
    destruct (delete_data_effect pk req w) as (r2 & w2 & H2 & _ & Hpk2 & _ & Hcase2).
    destruct (view_data_run req w) as (n & _ & H3 & _).
    unfold handle at 1 3. rewrite H1, H2, H3. cbn [fst snd].
    split; [|split; [|exact Hc]].
    - destruct Hcase1 as [(Ht & Hp)|(row & Hid & _ & Ht & Hp)].
      + intros k r Hk. rewrite Ht in Hk. rewrite Hp. apply Hc. exact Hk.
      + exact (consistent_insert w row (table w1) (next_pk w1) Hc Hid Ht Hp).
    - intros k r Hk. rewrite Hpk2.
      destruct Hcase2 as [Ht|(r0 & Hr0 & Ht)]; rewrite Ht in Hk.
      + apply Hc. exact Hk.
      + apply lookup_delete_Some in Hk as (_ & Hk). apply Hc. exact Hk. }
  split; [exact Hkeep|]. destruct Hkeep as (H1 & H2 & H3).
  split; [|split]; cbv zeta; apply consistent_next_pk_free; assumption.
Qed.

Lemma locked_world_consistent : consistent locked_world.
Proof.
  intros pk r Hlook. unfold locked_world in Hlook. cbn [table next_pk] in *.
  apply lookup_singleton_Some in Hlook as (<- & <-). split; reflexivity.
Qed.

Lemma views_keep_the_table_consistent_witness :
  consistent (snd (handle (index (sample_env sample_ranking)
                             (upload_request (Some golden))) locked_world)) /\
  consistent (snd (handle (delete_data 7 post_request) locked_world)) /\
  table (snd (handle (index (sample_env sample_ranking)
                        (upload_request (Some golden))) locked_world)) !! 9 = None.
Proof.
  destruct (views_keep_the_table_consistent (sample_env sample_ranking)
              (upload_request (Some golden)) 7 locked_world locked_world_consistent)
    as ((Hkeep & _) & Hfree & _).
  destruct (views_keep_the_table_consistent (sample_env sample_ranking)
              post_request 7 locked_world locked_world_consistent)
    as ((_ & Hkeep' & _) & _).
  split; [exact Hkeep|]. split; [exact Hkeep'|]. exact Hfree.
Defined.

(** X4: when the storage takes the file and the database then refuses
    the insert, [save_analysis_result] returns [None] and no row is
    written, but the uploaded file stays in the media directory: the image
    field writes it before the row is inserted and nothing removes it. *)
Theorem failed_insert_leaves_the_file (E : env) (file : upload) (c name : string)
    (prob time : spec_float) (rest : list raw_prediction) (w : world) :
  failing_database w ->
  exists w',
    save_analysis_result E file ((c, name, prob) :: rest) time w = (Ret None, w') /\
    table w' = table w /\ next_pk w' = next_pk w /\
    media w' = <[stored_name E file w := Removable]> (media w) /\
    media w' !! stored_name E file w = Some Removable.
Proof.
  intros (Hmw & Hdw).
  destruct (save_analysis_result_cases E file ((c, name, prob) :: rest) time w)
    as (o & w' & Hsave & _ & _ & _ & _ & _ & Hcase).
  rewrite Hmw, Hdw in Hcase. destruct Hcase as (Hmed & -> & Htab & Hpk).
  exists w'. split; [exact Hsave|]. split; [exact Htab|]. split; [exact Hpk|].
  split; [exact Hmed|]. rewrite Hmed. apply lookup_insert_eq.
Qed.

Lemma failed_insert_leaves_the_file_witness :
  exists w',
    save_analysis_result (sample_env sample_ranking) golden sample_ranking
      (S754_finite false 5 (-2)) read_only_world = (Ret None, w') /\
    table w' = ∅ /\
    media w' !! "uploads/2024/01/01/golden.jpg" = Some Removable.
Proof.
  destruct (failed_insert_leaves_the_file (sample_env sample_ranking) golden
              "n02099601" "golden_retriever" score_0_9550234 (S754_finite false 5 (-2))
              [("n02123045", "tabby_cat", score_0_0234375)] read_only_world
              (conj eq_refl eq_refl))
    as (w' & Hsave & Htab & _ & _ & Hfile).
  exists w'. split; [exact Hsave|]. split; [exact Htab|exact Hfile].
Defined.

(** ** The history *)

Lemma insert_newest_first_perm (r : AnalysisResult) (l : list AnalysisResult) :
  insert_newest_first r l ≡ₚ r :: l.
Proof.
  induction l as [|x t IH]; cbn [insert_newest_first]; [reflexivity|].
  destruct (created_at x <? created_at r); [reflexivity|].
  rewrite IH. apply Permutation_swap.
Qed.

Lemma insert_newest_first_sorted (r : AnalysisResult) (l : list AnalysisResult) :
  StronglySorted newer_or_equal l ->
  StronglySorted newer_or_equal (insert_newest_first r l).
Proof.
  induction 1 as [|x t Hsorted IH Hall]; cbn [insert_newest_first].
  - constructor; constructor.
  - destruct (Z.ltb_spec (created_at x) (created_at r)) as [Hlt|Hge].
    + constructor; [constructor; assumption|].
      constructor; [unfold newer_or_equal; lia|].
      eapply Forall_impl; [exact Hall|]. unfold newer_or_equal. intros y Hy. lia.
    + constructor; [exact IH|].
      rewrite insert_newest_first_perm. constructor; [exact Hge|exact Hall].
Qed.

Lemma all_newest_first_perm (w : world) :
  all_newest_first w ≡ₚ map snd (map_to_list (table w)).
Proof.
  unfold all_newest_first.
  induction (map snd (map_to_list (table w))) as [|x l IH]; [reflexivity|].
  cbn [foldr]. rewrite insert_newest_first_perm, IH. reflexivity.
Qed.

Lemma all_newest_first_sorted (w : world) :
  StronglySorted newer_or_equal (all_newest_first w).
Proof.
  unfold all_newest_first.
  induction (map snd (map_to_list (table w))) as [|x l IH]; [constructor|].
  cbn [foldr]. apply insert_newest_first_sorted. exact IH.
Qed.

Lemma elem_of_all_newest_first (w : world) (r : AnalysisResult) :
  r ∈ all_newest_first w <-> exists pk, table w !! pk = Some r.
Proof.
  rewrite all_newest_first_perm, list_elem_of_fmap. split.
  - intros ([pk r'] & -> & Hin). exists pk. apply elem_of_map_to_list. exact Hin.
  - intros (pk & Hlook). exists (pk, r). split; [reflexivity|].
    apply elem_of_map_to_list. exact Hlook.
Qed.

Lemma StronglySorted_filter {A : Type} (R : A -> A -> Prop) (f : A -> bool) (l : list A) :
  StronglySorted R l -> StronglySorted R (List.filter f l).
Proof.
  induction 1 as [|x t Hs IH Hall]; cbn [List.filter]; [constructor|].
  destruct (f x); [|exact IH].
  constructor; [exact IH|].
  rewrite Forall_forall in Hall |- *. intros y Hy.
  apply Hall. apply list_elem_of_In. apply list_elem_of_In in Hy.
  apply filter_In in Hy. tauto.
Qed.

Lemma history_lists_the_table_rows (q : string) (w : world) (r : AnalysisResult) :
  r ∈ history q w <->
  (exists pk, table w !! pk = Some r) /\ (q = "" \/ icontains q r = true).
Proof.
  unfold history. destruct (String.eqb_spec q "") as [->|Hq]; cbn [negb].
  - rewrite elem_of_all_newest_first. tauto.
  - rewrite list_elem_of_In, filter_In, <- list_elem_of_In,
      elem_of_all_newest_first.
    split; [tauto|]. intros (Hrow & [Hempty|Hmatch]); [contradiction|tauto].
Qed.

Lemma history_sorted (q : string) (w : world) :
  StronglySorted newer_or_equal (history q w).
Proof.
  unfold history. destruct (negb (String.eqb q "")).
  - apply StronglySorted_filter, all_newest_first_sorted.
  - apply all_newest_first_sorted.
Qed.

(** X5: the history that [view_data] paginates holds exactly the rows of
    the table whose label contains the search words (every row, when there
    are none), ordered newest first. *)
Theorem history_lists_the_table (q : string) (w : world) :
  (forall r, r ∈ history q w <->
     (exists pk, table w !! pk = Some r) /\ (q = "" \/ icontains q r = true)) /\
  StronglySorted newer_or_equal (history q w).
Proof.
  split; [intros r; apply history_lists_the_table_rows|apply history_sorted].
Qed.

Lemma history_lists_the_table_witness :
  history_row 3 ∈ history "" eleven_rows /\
  (history_row 3 ∈ history "dog" eleven_rows -> icontains "dog" (history_row 3) = true).
Proof.
  destruct (history_lists_the_table "" eleven_rows) as (Hall & _).
  destruct (history_lists_the_table "dog" eleven_rows) as (Hdog & _).
  split.
  - apply Hall. split; [exists 3; reflexivity|left; reflexivity].
  - intros Hin. apply Hdog in Hin as (_ & [Hq|Hm]); [discriminate Hq|exact Hm].
Defined.

(** ** The pages *)

Lemma chunks_of_ten (k : nat) (l : list AnalysisResult) :
  (length l <= 10 * k)%nat ->
  concat (map (fun i => firstn 10 (skipn (10 * i) l)) (List.seq 0 k)) = l.
Proof.
  revert l. induction k as [|k IH]; intros l Hlen.
  - destruct l; [reflexivity|simpl in Hlen; lia].
  - cbn [List.seq map concat]. rewrite <- seq_shift, map_map.
    rewrite (map_ext _ (fun i => firstn 10 (skipn (10 * i) (skipn 10 l)))).
    + rewrite IH by (rewrite length_skipn; lia).
      change (10 * 0)%nat with 0%nat. cbn [skipn]. apply firstn_skipn.
    + intros i. rewrite skipn_skipn. do 2 f_equal. lia.
Qed.

Lemma num_pages_covers (p : Paginator) :
  per_page p = 10 -> (length (pg_object_list p) <= 10 * Z.to_nat (num_pages p))%nat.
Proof.
  intros Hpp. unfold num_pages, count. rewrite Hpp.
  set (n := Z.of_nat (length (pg_object_list p))).
  assert (Hn : 0 <= n) by lia.
  pose proof (Z.div_mod (Z.max 1 n + 10 - 1) 10 ltac:(lia)) as Hdm.
  pose proof (Z.mod_pos_bound (Z.max 1 n + 10 - 1) 10 ltac:(lia)) as Hr.
  lia.
Qed.

Lemma elem_of_page_numbers (p : Paginator) (n : Z) :
  n ∈ page_numbers p <-> 1 <= n <= num_pages p.
Proof.
  unfold page_numbers. rewrite list_elem_of_fmap. split.
  - intros (i & -> & Hi). apply list_elem_of_In, in_seq in Hi. lia.
  - intros Hn. exists (Z.to_nat (n - 1)). split; [lia|].
    apply list_elem_of_In, in_seq. lia.
Qed.

(** X6: the pages [1 .. num_pages] of the history, one after the other,
    are the history itself: every record is on exactly one page, whatever
    their number, and the order is kept. *)
Theorem pages_partition_the_history (req : request) (w : world) :
  (forall n, n ∈ page_numbers (history_paginator req w) ->
     page (history_paginator req w) (PageInt n) w
       = (Ret {| number := n;
                 object_list := tenth n (pg_object_list (history_paginator req w)) |}, w)) /\
  concat (map (fun n => tenth n (pg_object_list (history_paginator req w)))
              (page_numbers (history_paginator req w)))
    = pg_object_list (history_paginator req w).
Proof.
  set (P := history_paginator req w).
  assert (Hpp : per_page P = 10) by reflexivity.
  split.
  - intros n Hn. apply page_valid; [exact Hpp|]. apply elem_of_page_numbers. exact Hn.
  - unfold page_numbers. rewrite map_map.
    rewrite (map_ext _ (fun i => firstn 10 (skipn (10 * i) (pg_object_list P)))).
    + apply chunks_of_ten. apply num_pages_covers. exact Hpp.
    + intros i. unfold tenth. do 2 f_equal. lia.
Qed.

Lemma pages_partition_the_history_witness :
  page_numbers (history_paginator (page_request (PageInt 1)) eleven_rows) = [1; 2] /\
  page (history_paginator (page_request (PageInt 1)) eleven_rows) (PageInt 2) eleven_rows
    = (Ret {| number := 2; object_list := [history_row 1] |}, eleven_rows).
Proof.
  destruct (pages_partition_the_history (page_request (PageInt 1)) eleven_rows)
    as (Hpage & _).
  split; [vm_compute; reflexivity|].
  rewrite (Hpage 2).
  - vm_compute. reflexivity.
  - apply (bool_decide_unpack _). vm_compute. exact I.
Defined.

(** ** Listing after deleting and after uploading *)

Lemma tenth_sublist (n : Z) (l : list AnalysisResult) : tenth n l `sublist_of` l.
Proof.
  unfold tenth. etransitivity; [apply sublist_take|apply sublist_drop].
Qed.

Lemma tenth_subset (n : Z) (l : list AnalysisResult) (r : AnalysisResult) :
  r ∈ tenth n l -> r ∈ l.
Proof. intros Hin. exact (elem_of_sublist _ _ _ Hin (tenth_sublist n l)). Qed.

(** Every listed row is a row of the history the request selects. *)
Lemma listed_in_history (req : request) (w : world) (r : AnalysisResult) :
  r ∈ listed req w -> r ∈ history (PyStr.strip (default "" (search_arg req))) w.
Proof.
  unfold listed. destruct (view_data_run req w) as (n & _ & Heq & _).
  rewrite Heq. cbn [fst object_list]. apply tenth_subset.
Qed.

(** A successful deletion, step by step. *)
Lemma delete_data_success (pk : Z) (req : request) (w : world) (r : AnalysisResult) :
  method req = POST -> table w !! pk = Some r ->
  owned_file w r <> Some Protected -> db_writable w = true ->
  exists w',
    handle (delete_data pk req) w = (Redirect "predict:view_data", w') /\
    table w' = delete (id r) (table w) /\
    flash w' = (flash w ++ [(MsgSuccess, msg_deleted pk)])%list.
Proof.
  intros Hpost Hrow Hfile Hdb. rewrite (delete_data_post pk req Hpost).
  revert Hfile. unfold owned_file. run_delete. rewrite Hrow, Hdb.
  destruct (String.eqb (image r) ""); cbn [negb].
  - intros _. eexists. split; [reflexivity|]. wsimpl. auto.
  - destruct (media w !! image r) as [[|]|]; intros Hfile;
      try (exfalso; apply Hfile; reflexivity);
      eexists; (split; [reflexivity|]); wsimpl; auto.
Qed.

(** X7: once a record is deleted it is on no page of the history, under
    any search and any page number, and deleting it takes no other record
    off the history. *)
Theorem deleted_record_leaves_the_history (pk : Z) (req : request) (w : world)
    (r : AnalysisResult) :
  method req = POST -> consistent w -> table w !! pk = Some r ->
  owned_file w r <> Some Protected -> db_writable w = true ->
  exists w',
    handle (delete_data pk req) w = (Redirect "predict:view_data", w') /\
    (forall listing r', r' ∈ listed listing w' -> id r' <> pk) /\
    (forall q r', id r' <> pk -> (r' ∈ history q w' <-> r' ∈ history q w)).
Proof.
  intros Hpost Hc Hrow Hfile Hdb.
  destruct (delete_data_success pk req w r Hpost Hrow Hfile Hdb) as (w' & Heq & Htab & _).
  destruct (Hc pk r Hrow) as (Hid & _). rewrite Hid in Htab.
  exists w'. split; [exact Heq|].
  assert (Hrows : forall r', (exists k, table w' !! k = Some r') <->
                             (exists k, table w !! k = Some r') /\ id r' <> pk).
  { intros r'. rewrite Htab. split.
    - intros (k & Hk). apply lookup_delete_Some in Hk as (Hne & Hk).
      split; [eauto|]. destruct (Hc k r' Hk) as (-> & _). congruence.
    - intros ((k & Hk) & Hne). exists k. apply lookup_delete_Some.
      split; [|exact Hk]. destruct (Hc k r' Hk) as (<- & _). congruence. }
  split.
  - intros listing r' Hin. apply listed_in_history in Hin.
    apply (proj1 (history_lists_the_table_rows _ w' r')) in Hin as (Hin & _).
    apply Hrows in Hin. tauto.
  - intros q r' Hne.
    rewrite !history_lists_the_table_rows, Hrows. tauto.
Qed.

Lemma tidy_world_consistent : consistent tidy_world.
Proof.
  intros pk r Hlook. unfold tidy_world in Hlook. cbn [table next_pk] in *.
  apply lookup_singleton_Some in Hlook as (<- & <-). split; reflexivity.
Qed.

Lemma deleted_record_leaves_the_history_witness :
  exists w',
    handle (delete_data 7 post_request) tidy_world = (Redirect "predict:view_data", w') /\
    forall listing r', r' ∈ listed listing w' -> id r' <> 7.
Proof.
  assert (Hfile : owned_file tidy_world (history_row 7) <> Some Protected)
    by (vm_compute; discriminate).
  destruct (deleted_record_leaves_the_history 7 post_request tidy_world (history_row 7)
              eq_refl tidy_world_consistent eq_refl Hfile eq_refl)
    as (w' & Heq & Hgone & _).
  exists w'. split; [exact Heq|exact Hgone].
Defined.

(** The newest row, when it is strictly newer than the rest, comes first. *)
Lemma newest_is_head (s : list AnalysisResult) (x : AnalysisResult) :
  StronglySorted newer_or_equal s -> x ∈ s ->
  (forall y, y ∈ s -> y = x \/ created_at y < created_at x) ->
  head s = Some x.
Proof.
  intros Hsorted Hin Hmax. destruct Hsorted as [|h t _ Hall]; [inversion Hin|].
  cbn [head]. f_equal.
  destruct (Hmax h ltac:(left)) as [->|Hlt]; [reflexivity|].
  apply elem_of_cons in Hin as [->|Hin]; [reflexivity|].
  rewrite Forall_forall in Hall. specialize (Hall x Hin).
  unfold newer_or_equal in Hall. lia.
Qed.

Lemma head_tenth_1 (l : list AnalysisResult) : head (tenth 1 l) = head l.
Proof. unfold tenth. cbn. destruct l; reflexivity. Qed.

(** X8: after a successful upload the new record heads the history: with
    every earlier record stamped before the current time, the first row of
    the first page of the unfiltered listing is the record just saved. *)
Theorem new_upload_heads_the_history (E : env) (req : request) (w : world)
    (file : upload) (x : ndarray E) (model : ndarray E -> option (list raw_prediction))
    (c name : string) (prob : spec_float) (rest : list raw_prediction) :
  method req = POST ->
  imageFile req = Some file ->
  fst (validate_image_file (extension_order E) (Some file)) = true ->
  cv_pipeline E (file_content file) = CvArray x ->
  app_model E = Some model ->
  model x = Some ((c, name, prob) :: rest) ->
  media_writable w = true -> db_writable w = true ->
  (forall pk r, table w !! pk = Some r -> created_at r < clock w) ->
  exists resp w',
    index E req w = (Ret resp, w') /\
    forall listing,
      search_arg listing = None ->
      page_arg listing = None \/ page_arg listing = Some (PageInt 1) ->
      head (listed listing w') = Some (saved_row E file c name prob (elapsed E) w).
Proof.
  intros Hpost Hfile Hval Hcv Hm Hx Hmw Hdw Hold.
  destruct (index_success E req w file x model c name prob rest
              Hpost Hfile Hval Hcv Hm Hx Hmw Hdw) as (w' & Heq & Htab & _).
  do 2 eexists. split; [exact Heq|].
  intros listing Hsearch Hpage.
  set (row := saved_row E file c name prob (elapsed E) w) in *.
  assert (Hhead : head (history "" w') = Some row).
  { apply newest_is_head; [apply history_sorted| |].
    - apply history_lists_the_table_rows. split; [|left; reflexivity].
      exists (next_pk w). rewrite Htab. apply lookup_insert_eq.
    - intros y Hy. apply history_lists_the_table_rows in Hy as ((k & Hk) & _).
      rewrite Htab in Hk. destruct (decide (next_pk w = k)) as [<-|Hne].
      + rewrite lookup_insert_eq in Hk. left. congruence.
      + rewrite lookup_insert_ne in Hk by exact Hne. right.
        specialize (Hold k y Hk). subst row. cbn [saved_row created_at]. exact Hold. }
  unfold listed. destruct (view_data_run listing w') as (n & _ & Hview & Hn).
  rewrite Hview. cbn [fst object_list].
  assert (n = 1) as ->.
  { pose proof (num_pages_ge_1 (history_paginator listing w') eq_refl) as Hge.
    rewrite Hn. clear Hn Hview.
    destruct Hpage as [-> | ->]; simpl;
      destruct (Z.gtb_spec 1 (num_pages (history_paginator listing w'))); lia. }
  rewrite head_tenth_1. unfold history_paginator. cbn [pg_object_list].
  rewrite Hsearch. exact Hhead.
Qed.

Lemma new_upload_heads_the_history_witness :
  exists resp w',
    index (sample_env sample_ranking) (upload_request (Some golden)) tidy_world
      = (Ret resp, w') /\
    head (listed (get_request None None) w')
      = Some (saved_row (sample_env sample_ranking) golden "n02099601" "golden_retriever"
                score_0_9550234 (S754_finite false 5 (-2)) tidy_world).
Proof.
  assert (Hold : forall pk r, table tidy_world !! pk = Some r ->
                              created_at r < clock tidy_world).
  { intros pk r Hlook. unfold tidy_world in Hlook. cbn [table] in Hlook.
    apply lookup_singleton_Some in Hlook as (_ & <-). reflexivity. }
  destruct (new_upload_heads_the_history (sample_env sample_ranking)
              (upload_request (Some golden)) tidy_world golden tt
              (fun _ => Some sample_ranking) "n02099601" "golden_retriever"
              score_0_9550234 [("n02123045", "tabby_cat", score_0_0234375)]
              eq_refl eq_refl eq_refl eq_refl eq_refl eq_refl eq_refl eq_refl Hold)
    as (resp & w' & Heq & Hhead).
  exists resp, w'. split; [exact Heq|].
  apply Hhead; [reflexivity|left; reflexivity].
Defined.

(** ** Searching *)

(** The first byte of a code point of two or three bytes is no white space
    by itself, nor are its first two bytes. *)
Lemma is_space_two (a b : ascii) :
  PyStr.is_space (String a (String b "")) = true ->
  PyStr.is_space (String a "") = false.
Proof.
  unfold PyStr.is_space. cbn [list_ascii_of_string map].
  remember (nat_of_ascii a) as n eqn:Hn. clear Hn.
  destruct (Nat.eqb_spec n 194) as [->|_]; [reflexivity|discriminate].
Qed.

Lemma is_space_three (a b c : ascii) :
  PyStr.is_space (String a (String b (String c ""))) = true ->
  PyStr.is_space (String a "") = false /\
  PyStr.is_space (String a (String b "")) = false.
Proof.
  unfold PyStr.is_space. cbn [list_ascii_of_string map].
  remember (nat_of_ascii a) as n eqn:Hn. clear Hn.
  destruct (Nat.eqb_spec n 225) as [->|_]; [split; reflexivity|].
  destruct (Nat.eqb_spec n 226) as [->|_]; [split; reflexivity|].
  destruct (Nat.eqb_spec n 227) as [->|_]; [split; reflexivity|].
  discriminate.
Qed.

(** A leading white-space code point is dropped. *)
Lemma lstrip_space (c s : string) :
  PyStr.is_space c = true -> PyStr.lstrip (c ++ s) = PyStr.lstrip s.
Proof.
  destruct c as [|a [|b [|c [|d r]]]]; intros H; try discriminate H.
  - change (String a "" ++ s) with (String a s).
    cbn [PyStr.lstrip]. rewrite H. reflexivity.
  - change (String a (String b "") ++ s) with (String a (String b s)).
    cbn [PyStr.lstrip]. rewrite (is_space_two a b H), H. reflexivity.
  - change (String a (String b (String c "")) ++ s) with (String a (String b (String c s))).
    cbn [PyStr.lstrip].
    destruct (is_space_three a b c H) as (-> & ->). rewrite H. reflexivity.
Qed.

Lemma lstrip_blank (s : string) : blank s -> PyStr.lstrip s = "".
Proof.
  induction 1 as [|c s Hc _ IH]; [reflexivity|].
  rewrite (lstrip_space c s Hc). exact IH.
Qed.

(** X9: the listing shows only records whose label contains the search
    words as [strip] leaves them, compared without regard to case; a search
    of white-space code points alone, ASCII or not (or no search at all),
    filters nothing. *)
Theorem search_filters_the_listing (req : request) (w : world) :
  (forall r, r ∈ listed req w ->
     PyStr.strip (default "" (search_arg req)) = "" \/
     PyStr.contains (PyStr.lower (PyStr.strip (default "" (search_arg req))))
                    (PyStr.lower (prediction_label r)) = true) /\
  (forall s, search_arg req = Some s -> blank s ->
     pg_object_list (history_paginator req w) = all_newest_first w) /\
  (search_arg req = None ->
     pg_object_list (history_paginator req w) = all_newest_first w).
Proof.
  split; [|split].
  - intros r Hin. apply listed_in_history in Hin.
    apply history_lists_the_table_rows in Hin as (_ & Hq). exact Hq.
  - intros s Hs Hspace. unfold history_paginator. cbn [pg_object_list].
    rewrite Hs. change (default "" (Some s)) with s. unfold PyStr.strip.
    rewrite (lstrip_blank s Hspace). reflexivity.
  - intros Hs. unfold history_paginator. cbn [pg_object_list].
    rewrite Hs. reflexivity.
Qed.

Lemma blank_query_is_blank : blank blank_query.
Proof.
  unfold blank_query.
  apply (blank_more " "); [reflexivity|].
  apply (blank_more ideographic_space); [reflexivity|].
  apply (blank_more no_break_space); [reflexivity|].
  apply (blank_more tab ""); [reflexivity|]. apply blank_empty.
Qed.

Lemma search_filters_the_listing_witness :
  pg_object_list (history_paginator (search_request blank_query) eleven_rows)
    = all_newest_first eleven_rows /\
  listed (search_request (ideographic_space ++ "TABBY " ++ ideographic_space)) tidy_world
    = [history_row 7] /\
  listed (search_request "dog") tidy_world = [].
Proof.
  destruct (search_filters_the_listing (search_request blank_query) eleven_rows)
    as (_ & Hspace & _).
  split; [apply (Hspace blank_query); [reflexivity|exact blank_query_is_blank]|].
  split; vm_compute; reflexivity.
Defined.

(** ** The stored score, read back *)

Lemma hundredths_text_table :
  forallb (fun k => String.eqb (PyFloat.format_2f (float_of_hundredths (Pos.of_nat k)))
                               (PyFloat.fixed2 (Z.of_nat k)))
          (List.seq 1 (Z.to_nat 10000)) = true.
Proof. vm_compute. reflexivity. Qed.

Lemma float_of_hundredths_text (k : positive) :
  Z.pos k <= 10000 ->
  PyFloat.format_2f (float_of_hundredths k) = PyFloat.fixed2 (Z.pos k).
Proof.
  intros Hk.
  pose proof (forallb_seq_true _ _ hundredths_text_table (Pos.to_nat k) ltac:(lia)) as H.
  cbv beta in H. rewrite Pos2Nat.id, positive_nat_Z in H.
  apply String.eqb_eq. exact H.
Qed.

(** Rounding to two decimals does not change the two-decimal text of a value
    in [[0, 100]]. *)
Lemma round2_keeps_the_text (x : spec_float) :
  PyFloat.within 100 x ->
  PyFloat.format_2f (PyFloat.round2 x) = PyFloat.format_2f x.
Proof.
  destruct x as [s|s| |s m e]; cbn [PyFloat.within]; try contradiction; [reflexivity|].
  destruct s; [contradiction|]. intros Hle.
  pose proof (hundredths_within m e Hle) as Hn.
  cbn [PyFloat.round2 PyFloat.format_2f].
  destruct (PyFloat.hundredths m e) as [|k|k] eqn:Hh.
  - reflexivity.
  - change (SFdiv PyFloat.prec64 PyFloat.emax64 (S754_finite false k 0)
              (S754_finite false 100 0)) with (float_of_hundredths k).
    rewrite (float_of_hundredths_text k Hn). reflexivity.
  - pose proof (hundredths_nonneg m e). lia.
Qed.

(** X10: the record stores what the upload page showed for the top
    prediction: its label is the displayed name, and for a probability in
    [[0, 1]] the percentage it shows when read back ([formatted_score]) is,
    character for character, the displayed percentage. *)
Theorem stored_record_shows_as_displayed (E : env) (file : upload) (c name : string)
    (prob time : spec_float) (rest : list raw_prediction) (w w' : world)
    (r : AnalysisResult) :
  save_analysis_result E file ((c, name, prob) :: rest) time w = (Ret (Some r), w') ->
  prediction_label r = p_name (format_one w (c, name, prob)) /\
  (PyFloat.valid32 prob = true ->
   PyFloat.leb32 (PyFloat.f32_of_Z 0) prob = true ->
   PyFloat.leb32 prob (PyFloat.f32_of_Z 1) = true ->
   formatted_score r = p_prob (format_one w (c, name, prob))).
Proof.
  intros Hsave.
  destruct (save_analysis_result_cases E file ((c, name, prob) :: rest) time w)
    as (o & w1 & Heq & _ & _ & _ & _ & _ & Hcase).
  rewrite Hsave in Heq. injection Heq as <- <-.
  assert (Hr : r = saved_row E file c name prob time w).
  { destruct (media_writable w); [destruct Hcase as (_ & Hcase); destruct (db_writable w)|];
      destruct Hcase as (Ho & _); congruence. }
  subst r. split; [reflexivity|]. intros Hvalid H0 H1.
  unfold formatted_score. cbn [saved_row prediction_score format_one p_prob prob_of snd].
  rewrite round2_keeps_the_text; [reflexivity|].
  apply mul32_percent_within; assumption.
Qed.

Lemma stored_record_shows_as_displayed_witness :
  exists r w',
    save_analysis_result (sample_env sample_ranking) golden sample_ranking
      (S754_finite false 5 (-2)) (empty_world sample_reference) = (Ret (Some r), w') /\
    prediction_label r = "ゴールデンレトリバー" /\
    formatted_score r = "95.50%".
Proof.
  destruct (save_analysis_result (sample_env sample_ranking) golden sample_ranking
              (S754_finite false 5 (-2)) (empty_world sample_reference))
    as [[[r|]|ex] w'] eqn:Hsave; try (vm_compute in Hsave; discriminate Hsave).
  exists r, w'. split; [reflexivity|].
  destruct (stored_record_shows_as_displayed _ _ _ _ _ _ _ _ _ _ Hsave) as (Hlabel & Hscore).
  split; [rewrite Hlabel; reflexivity|].
  rewrite Hscore; reflexivity.
Defined.

(** ** Confidence levels and the admin columns *)

(** X11: the badge of the admin list always carries one of the four
    colours of [color_map], with the level of the record; the grey default
    of [color_map.get] is never used.  A score that is not a number counts
    as the lowest level. *)
Theorem confidence_badge_has_a_mapped_color (obj : AnalysisResult) :
  (exists color,
     color_map !! get_confidence_level obj = Some color /\
     confidence_level_display obj = Some (badge color (get_confidence_level obj))) /\
  (prediction_score obj = S754_nan -> get_confidence_level obj = "低い").
Proof.
  split.
  - unfold confidence_level_display, get_confidence_level.
    destruct (float_ge (prediction_score obj) 90);
      [|destruct (float_ge (prediction_score obj) 70);
        [|destruct (float_ge (prediction_score obj) 50)]];
      eexists; split; vm_compute; reflexivity.
  - intros Hnan. unfold get_confidence_level, float_ge. rewrite Hnan. reflexivity.
Qed.

Lemma confidence_badge_has_a_mapped_color_witness :
  get_confidence_level (with_score S754_nan) = "低い" /\
  get_confidence_level (with_score (PyFloat.f64_of_Z 90)) = "非常に高い" /\
  confidence_level_display (with_score (PyFloat.f64_of_Z 70))
    = Some (badge "#4299e1" "高い").
Proof.
  destruct (confidence_badge_has_a_mapped_color (with_score S754_nan)) as (_ & Hnan).
  split; [apply Hnan; reflexivity|]. split; [reflexivity|].
  destruct (confidence_badge_has_a_mapped_color (with_score (PyFloat.f64_of_Z 70)))
    as ((color & Hcolor & Hbadge) & _).
  rewrite Hbadge. vm_compute in Hcolor. injection Hcolor as <-. reflexivity.
Defined.

Lemma split_nonempty (sep : ascii) (s : string) : PyStr.split sep s <> [].
Proof.
  destruct s as [|c r]; cbn [PyStr.split]; [discriminate|].
  destruct (Ascii.eqb c sep); [discriminate|].
  destruct (PyStr.split sep r); discriminate.
Qed.

(** A string is a directory part followed by its last item: the directory
    part is empty when there is one item, and ends in the separator
    otherwise. *)
Lemma split_last_shape (sep : ascii) (s : string) :
  exists dir,
    s = dir ++ PyStr.last_item (PyStr.split sep s) /\
    PyStr.has_char sep (PyStr.last_item (PyStr.split sep s)) = false /\
    match PyStr.split sep s with
    | [_] => dir = ""
    | _ => exists d, dir = d ++ String sep ""
    end.
Proof.
  unfold PyStr.last_item.
  induction s as [|c r (dir & Heq & Hno & Hshape)].
  - exists "". cbn. auto.
  - cbn [PyStr.split]. pose proof (split_nonempty sep r) as Hne.
    destruct (Ascii.eqb_spec c sep) as [->|Hc].
    + destruct (PyStr.split sep r) as [|h t]; [contradiction|].
      change (List.last ("" :: h :: t) "") with (List.last (h :: t) "").
      exists (String sep dir). split; [rewrite Heq; reflexivity|].
      split; [exact Hno|].
      destruct t as [|h' t']; [subst dir; exists ""; reflexivity|].
      destruct Hshape as (d & ->). exists (String sep d). reflexivity.
    + destruct (PyStr.split sep r) as [|h t]; [contradiction|].
      destruct t as [|h' t'].
      * subst dir. cbn [List.last String.append] in *. subst r.
        exists "". split; [reflexivity|]. split; [|reflexivity].
        cbn [PyStr.has_char]. destruct (Ascii.eqb_spec c sep); [contradiction|].
        exact Hno.
      * change (List.last (String c h :: h' :: t') "") with (List.last (h :: h' :: t') "").
        destruct Hshape as (d & ->).
        exists (String c (d ++ String sep "")). split; [rewrite Heq; reflexivity|].
        split; [exact Hno|]. exists (String c d). reflexivity.
Qed.

Lemma split_last_decomposes (sep : ascii) (s : string) :
  exists dir,
    s = dir ++ PyStr.last_item (PyStr.split sep s) /\
    PyStr.has_char sep (PyStr.last_item (PyStr.split sep s)) = false /\
    (dir = "" \/ exists d, dir = d ++ String sep "").
Proof.
  destruct (split_last_shape sep s) as (dir & Heq & Hno & Hshape).
  exists dir. split; [exact Heq|]. split; [exact Hno|].
  destruct (PyStr.split sep s) as [|h [|h' t]]; auto.
Qed.

(** X12: [get_image_filename] answers [None] for a record without image
    and otherwise the part of the stored name after its last slash: the
    answer has no slash, and the stored name is a directory part (empty, or
    ending in a slash) followed by it. *)
Theorem image_filename_is_the_last_component (self : AnalysisResult) :
  (image self = "" -> get_image_filename self = None) /\
  (image self <> "" ->
   exists dir name,
     get_image_filename self = Some name /\ image self = dir ++ name /\
     PyStr.has_char "/" name = false /\ (dir = "" \/ ends_with_slash dir)).
Proof.
  unfold get_image_filename. split.
  - intros ->. reflexivity.
  - intros Hne. destruct (String.eqb_spec (image self) ""); [contradiction|].
    destruct (split_last_decomposes "/" (image self)) as (dir & Heq & Hno & Hdir).
    exists dir, (basename (image self)). cbn [negb]. auto.
Qed.

Lemma image_filename_is_the_last_component_witness :
  get_image_filename (history_row 7) = Some "7.png" /\
  exists dir, image (history_row 7) = dir ++ "7.png" /\ (dir = "" \/ ends_with_slash dir).
Proof.
  assert (Hne : image (history_row 7) <> "") by (vm_compute; discriminate).
  destruct (image_filename_is_the_last_component (history_row 7)) as (_ & Hsome).
  destruct (Hsome Hne) as (dir & name & Hname & Heq & _ & Hdir).
  assert (name = "7.png") as -> by (vm_compute in Hname; congruence).
  split; [exact Hname|]. exists dir. split; [exact Heq|exact Hdir].
Defined.

(** X13: the processing-time column shows a dash for a missing time and
    for a time of zero, and otherwise the time with exactly two decimals
    followed by the unit. *)
Theorem processing_time_column (time : option spec_float) :
  (time = None \/ (exists s, time = Some (S754_zero s)) ->
     processing_time_display time = "-") /\
  (forall s m e, time = Some (S754_finite s m e) ->
     exists text, processing_time_display time = text ++ "秒" /\
       two_decimal_text text s (PyFloat.hundredths m e)).
Proof.
  split.
  - intros [->|(s & ->)]; reflexivity.
  - intros s m e ->. cbn [processing_time_display float_truthy].
    eexists. split; [reflexivity|].
    exact (format_2f_text (S754_finite s m e) eq_refl).
Qed.

Lemma processing_time_column_witness :
  processing_time_display (Some (S754_zero false)) = "-" /\
  processing_time_display (Some (S754_finite false 5 (-2))) = "1.25秒" /\
  processing_time_display (Some (S754_finite false 1 (-10))) = "0.00秒".
Proof.
  destruct (processing_time_column (Some (S754_zero false))) as (Hdash & _).
  destruct (processing_time_column (Some (S754_finite false 5 (-2)))) as (_ & Htext).
  split; [apply Hdash; right; exists false; reflexivity|].
  destruct (Htext false 5%positive (-2) eq_refl) as (text & Heq & _).
  split; reflexivity.
Defined.

(** ** Deleting a selection in the admin *)

(** One [obj.delete()] that goes through. *)
Lemma AnalysisResult_delete_ok (obj : AnalysisResult) (w : world) :
  owned_file w obj <> Some Protected -> db_writable w = true ->
  exists w',
    AnalysisResult_delete obj w = (Ret tt, w') /\
    table w' = delete (id obj) (table w) /\
    media w' = (if String.eqb (image obj) "" then media w
                else delete (image obj) (media w)) /\
    db_writable w' = true /\ flash w' = flash w /\ log w' = log w /\
    next_pk w' = next_pk w.
Proof.
  unfold owned_file, AnalysisResult_delete. intros Hfile Hdb.
  cbv [bind get_world modify raise ret]. rewrite Hdb.
  destruct (String.eqb (image obj) ""); cbn [negb].
  - eexists. split; [reflexivity|]. wsimpl. auto 10.
  - destruct (media w !! image obj) as [[|]|] eqn:Hlook.
    + eexists. split; [reflexivity|]. wsimpl. auto 10.
    + exfalso. apply Hfile. reflexivity.
    + eexists. split; [reflexivity|]. wsimpl.
      rewrite (delete_id _ _ Hlook). auto 10.
Qed.

(** One [obj.delete()] stopped by its image file. *)
Lemma AnalysisResult_delete_blocked (obj : AnalysisResult) (w : world) :
  owned_file w obj = Some Protected ->
  AnalysisResult_delete obj w = (Raise PermissionError, w).
Proof.
  unfold owned_file, AnalysisResult_delete. intros Hfile.
  cbv [bind get_world modify raise ret].
  destruct (String.eqb (image obj) ""); [discriminate|]. cbn [negb].
  rewrite Hfile. reflexivity.
Qed.

Lemma owned_file_after_delete (w w' : world) (obj other : AnalysisResult) :
  media w' = (if String.eqb (image obj) "" then media w
              else delete (image obj) (media w)) ->
  owned_file w' other = Some Protected -> owned_file w other = Some Protected.
Proof.
  unfold owned_file. intros Hmed.
  destruct (String.eqb (image other) ""); [discriminate|]. rewrite Hmed.
  destruct (String.eqb (image obj) ""); [tauto|].
  intros H. apply lookup_delete_Some in H. tauto.
Qed.

(** The loop over a selection none of whose files is protected. *)
Lemma delete_each_ok (queryset : list AnalysisResult) (w : world) :
  (forall obj, obj ∈ queryset -> owned_file w obj <> Some Protected) ->
  db_writable w = true ->
  exists w',
    delete_each queryset w = (Ret tt, w') /\
    (forall pk, table w' !! pk
                = if bool_decide (pk ∈ selected_ids queryset) then None else table w !! pk) /\
    (forall path, media w' !! path
                  = if bool_decide (path ∈ selected_files queryset) then None
                    else media w !! path) /\
    db_writable w' = true /\ flash w' = flash w /\ log w' = log w /\
    next_pk w' = next_pk w.
Proof.
  revert w. induction queryset as [|obj rest IH]; intros w Hfiles Hdb.
  - exists w. split; [reflexivity|]. auto 10.
  - cbn [delete_each]. unfold bind.
    destruct (AnalysisResult_delete_ok obj w (Hfiles obj (list_elem_of_here _ _)) Hdb)
      as (w1 & Heq1 & Htab1 & Hmed1 & Hdb1 & Hfl1 & Hlog1 & Hpk1).
    rewrite Heq1.
    destruct (IH w1) as (w' & Heq & Htab & Hmed & Hdb' & Hfl & Hlog & Hpk); [|exact Hdb1|].
    { intros other Hin Hprot.
      apply (Hfiles other (list_elem_of_further _ _ _ Hin)).
      exact (owned_file_after_delete w w1 obj other Hmed1 Hprot). }
    exists w'. split; [exact Heq|].
    split; [|split; [|repeat split; congruence]].
    + intros pk. rewrite Htab, Htab1. unfold selected_ids. cbn [map].
      destruct (decide (pk = id obj)) as [->|Hne].
      * rewrite lookup_delete_eq, (bool_decide_eq_true_2 _ (list_elem_of_here _ _)).
        destruct (bool_decide _); reflexivity.
      * rewrite lookup_delete_ne by congruence.
        destruct (bool_decide_reflect (pk ∈ map id rest)) as [Hin|Hout].
        -- rewrite bool_decide_eq_true_2 by (apply list_elem_of_further; exact Hin). reflexivity.
        -- rewrite bool_decide_eq_false_2; [reflexivity|].
           intros Hin. apply elem_of_cons in Hin as [?|?]; contradiction.
    + intros path. rewrite Hmed, Hmed1. unfold selected_files. cbn [map List.filter].
      destruct (String.eqb_spec (image obj) "") as [Hemp|Hnonemp]; cbn [negb].
      * reflexivity.
      * destruct (decide (path = image obj)) as [->|Hne].
        -- rewrite lookup_delete_eq, (bool_decide_eq_true_2 _ (list_elem_of_here _ _)).
           destruct (bool_decide _); reflexivity.
        -- rewrite lookup_delete_ne by congruence.
           set (files := List.filter _ (map image rest)).
           destruct (bool_decide_reflect (path ∈ files)) as [Hin|Hout].
           ++ rewrite bool_decide_eq_true_2 by (apply list_elem_of_further; exact Hin). reflexivity.
           ++ rewrite bool_decide_eq_false_2; [reflexivity|].
              intros Hin. apply elem_of_cons in Hin as [?|?]; contradiction.
Qed.

(** X14: the admin action deletes every selected record whose image can
    be removed (or is not on disk): afterwards no selected id is in the
    table and no selected image in the media directory, every other row and
    file is as before, and the notice counts the selection. *)
Theorem selection_is_deleted_with_its_images (queryset : list AnalysisResult) (w : world) :
  (forall obj, obj ∈ queryset -> owned_file w obj <> Some Protected) ->
  db_writable w = true ->
  exists w',
    delete_selected_with_images queryset w
      = (Ret (msg_selected_deleted (length queryset)), w') /\
    (forall pk, table w' !! pk
                = if bool_decide (pk ∈ selected_ids queryset) then None else table w !! pk) /\
    (forall path, media w' !! path
                  = if bool_decide (path ∈ selected_files queryset) then None
                    else media w !! path).
Proof.
  intros Hfiles Hdb. unfold delete_selected_with_images, bind.
  destruct (delete_each_ok queryset w Hfiles Hdb) as (w' & Heq & Htab & Hmed & _).
  rewrite Heq. exists w'. split; [reflexivity|]. split; assumption.
Qed.

Lemma selection_is_deleted_with_its_images_witness :
  exists w',
    delete_selected_with_images [history_row 3; history_row 1] three_rows
      = (Ret "2件の解析結果と画像ファイルを削除しました。", w') /\
    table w' !! 3 = None /\ table w' !! 1 = None /\
    table w' !! 2 = Some (history_row 2) /\
    media w' !! image (history_row 3) = None.
Proof.
  assert (Hfiles : forall obj, obj ∈ [history_row 3; history_row 1] ->
                     owned_file three_rows obj <> Some Protected).
  { intros obj Hin. apply elem_of_cons in Hin as [->|Hin];
      [vm_compute; discriminate|].
    apply list_elem_of_singleton in Hin as ->. vm_compute. discriminate. }
  destruct (selection_is_deleted_with_its_images [history_row 3; history_row 1]
              three_rows Hfiles eq_refl) as (w' & Heq & Htab & Hmed).
  exists w'. split; [exact Heq|].
  rewrite !Htab, Hmed. repeat split; vm_compute; reflexivity.
Defined.

(** X15: the admin action stops at the first record whose image cannot
    be removed.  The exception leaves the action, so no notice is given; the
    records before it are already gone (nothing is rolled back), and that
    record and its image stay. *)
Theorem selection_stops_at_a_protected_image (before after : list AnalysisResult)
    (bad : AnalysisResult) (w : world) :
  (forall obj, obj ∈ before -> owned_file w obj <> Some Protected) ->
  owned_file w bad = Some Protected ->
  db_writable w = true ->
  exists w',
    delete_selected_with_images (before ++ bad :: after) w
      = (Raise PermissionError, w') /\
    (forall pk, table w' !! pk
                = if bool_decide (pk ∈ selected_ids before) then None else table w !! pk) /\
    media w' !! image bad = Some Protected /\
    flash w' = flash w.
Proof.
  intros Hfiles Hbad Hdb.
  assert (Hloop : exists w',
    delete_each (before ++ bad :: after) w = (Raise PermissionError, w') /\
    (forall pk, table w' !! pk
                = if bool_decide (pk ∈ selected_ids before) then None else table w !! pk) /\
    media w' !! image bad = Some Protected /\ flash w' = flash w).
  { revert w Hfiles Hbad Hdb. induction before as [|obj rest IH]; intros w Hfiles Hbad Hdb.
    - cbn [app delete_each]. unfold bind.
      rewrite (AnalysisResult_delete_blocked bad w Hbad).
      exists w. split; [reflexivity|]. split; [intros pk; reflexivity|].
      split; [|reflexivity].
      revert Hbad. unfold owned_file. destruct (String.eqb (image bad) ""); [discriminate|tauto].
    - cbn [app delete_each]. unfold bind at 1.
      destruct (AnalysisResult_delete_ok obj w (Hfiles obj (list_elem_of_here _ _)) Hdb)
        as (w1 & Heq1 & Htab1 & Hmed1 & Hdb1 & Hfl1 & _).
      rewrite Heq1.
      assert (Hbad1 : owned_file w1 bad = Some Protected).
      { revert Hbad. unfold owned_file.
        destruct (String.eqb (image bad) ""); [discriminate|]. rewrite Hmed1.
        destruct (String.eqb_spec (image obj) "") as [_|Hnonemp]; [tauto|].
        intros Hprot. rewrite lookup_delete_ne; [exact Hprot|].
        intros Hsame. apply (Hfiles obj (list_elem_of_here _ _)).
        unfold owned_file. destruct (String.eqb_spec (image obj) ""); [contradiction|].
        rewrite Hsame. exact Hprot. }
      destruct (IH w1) as (w' & Heq & Htab & Hmed & Hfl); [|exact Hbad1|exact Hdb1|].
      { intros other Hin Hprot.
        apply (Hfiles other (list_elem_of_further _ _ _ Hin)).
        exact (owned_file_after_delete w w1 obj other Hmed1 Hprot). }
      exists w'. split; [exact Heq|]. split; [|split; [exact Hmed|congruence]].
      intros pk. rewrite Htab, Htab1. unfold selected_ids. cbn [map].
      destruct (decide (pk = id obj)) as [->|Hne].
      * rewrite lookup_delete_eq, (bool_decide_eq_true_2 _ (list_elem_of_here _ _)).
        destruct (bool_decide _); reflexivity.
      * rewrite lookup_delete_ne by congruence.
        destruct (bool_decide_reflect (pk ∈ map id rest)) as [Hin|Hout].
        -- rewrite bool_decide_eq_true_2 by (apply list_elem_of_further; exact Hin). reflexivity.
        -- rewrite bool_decide_eq_false_2; [reflexivity|].
           intros Hin. apply elem_of_cons in Hin as [?|?]; contradiction. }
  destruct Hloop as (w' & Heq & Hrest).
  unfold delete_selected_with_images, bind. rewrite Heq. exists w'. split; [reflexivity|exact Hrest].
Qed.

Lemma selection_stops_at_a_protected_image_witness :
  exists w',
    delete_selected_with_images [history_row 3; history_row 2; history_row 1] three_rows
      = (Raise PermissionError, w') /\
    table w' !! 3 = None /\
    table w' !! 2 = Some (history_row 2) /\
    table w' !! 1 = Some (history_row 1).
Proof.
  assert (Hfiles : forall obj, obj ∈ [history_row 3] ->
                     owned_file three_rows obj <> Some Protected).
  { intros obj Hin. apply list_elem_of_singleton in Hin as ->. vm_compute. discriminate. }
  destruct (selection_stops_at_a_protected_image [history_row 3] [history_row 1]
              (history_row 2) three_rows Hfiles eq_refl eq_refl)
    as (w' & Heq & Htab & _).
  exists w'. split; [exact Heq|].
  rewrite !Htab. repeat split; vm_compute; reflexivity.
Defined.

(** ** Starting the application *)

(** [_log_model_info] only adds debug and warning records. *)
Lemma log_model_info_effect {T : Type} (b : Apps.boot T) (c : Apps.config T) :
  Apps.model (Apps._log_model_info b c) = Apps.model c /\
  exists added,
    Apps.records (Apps._log_model_info b c) = (Apps.records c ++ added)%list /\
    existsb is_error added = false.
Proof.
  unfold Apps._log_model_info.
  destruct (Apps.model c) as [m|] eqn:Hm;
    [|split; [exact Hm|exists []; split; [symmetry; apply app_nil_r|reflexivity]]].
  destruct (Apps.count_params b m);
    [destruct (Apps.input_shape b m); [destruct (Apps.output_shape b m)|]|];
    cbn [Apps.model Apps.emit Apps.records]; (split; [exact Hm|]);
    eexists; rewrite <- ?app_assoc; (split; [reflexivity|reflexivity]).
Qed.

(** X16: started with [RUN_MAIN=true] and a model that loads, [ready]
    succeeds and [get_model] returns that model; nothing is logged as an
    error, whatever the debug setting, and also when reading the model's
    details fails. *)
Theorem ready_loads_the_model {T : Type} (b : Apps.boot T) (c : Apps.config T) (m : T) :
  Apps.RUN_MAIN b = Some "true" ->
  Apps.keras b = Apps.Loaded m ->
  exists c' added,
    Apps.ready b c = (Apps.Ok tt, c') /\
    Apps.model c' = Some m /\
    Apps.get_model c' = (Apps.Ok m, c') /\
    Apps.records c' = (Apps.records c ++ added)%list /\
    existsb is_error added = false /\
    List.last added (Apps.Debug, "")
      = (Apps.Info, msg_ready).
Proof.
  intros Hrun Hkeras. unfold Apps.ready, Apps._load_ai_model.
  rewrite Hrun, Hkeras. rewrite bool_decide_eq_true_2 by reflexivity. cbn [negb].
  set (c1 := Apps.emit Apps.Info _ (Apps.emit Apps.Info _ (Apps.set_model m _))).
  assert (Hc1 : Apps.model c1 = Some m) by reflexivity.
  assert (Hr1 : exists added1, Apps.records c1 = (Apps.records c ++ added1)%list /\
                               existsb is_error added1 = false).
  { eexists. subst c1. cbn [Apps.emit Apps.set_model Apps.records].
    rewrite <- !app_assoc. split; reflexivity. }
  destruct Hr1 as (added1 & Hr1 & Hok1).
  assert (Hc2 : exists c2 added2,
            (if Apps.DEBUG b then Apps._log_model_info b c1 else c1) = c2 /\
            Apps.model c2 = Some m /\
            Apps.records c2 = (Apps.records c ++ added2)%list /\
            existsb is_error added2 = false).
  { destruct (Apps.DEBUG b).
    - destruct (log_model_info_effect b c1) as (Hm & added & Hr & Hok).
      exists (Apps._log_model_info b c1), (added1 ++ added)%list.
      split; [reflexivity|]. split; [congruence|].
      split; [rewrite Hr, Hr1; symmetry; apply app_assoc|].
      rewrite existsb_app, Hok1, Hok. reflexivity.
    - exists c1, added1. auto. }
  destruct Hc2 as (c2 & added2 & -> & Hm2 & Hr2 & Hok2).
  exists (Apps.emit Apps.Info msg_ready c2), (added2 ++ [(Apps.Info, msg_ready)])%list.
  split; [reflexivity|]. split; [exact Hm2|].
  split; [unfold Apps.get_model; cbn [Apps.emit Apps.model]; rewrite Hm2; reflexivity|].
  split; [cbn [Apps.emit Apps.records]; rewrite Hr2; symmetry; apply app_assoc|].
  split; [rewrite existsb_app, Hok2; reflexivity|].
  apply last_last.
Qed.

Lemma ready_loads_the_model_witness :
  exists c',
    Apps.ready reloader_boot Apps.fresh = (Apps.Ok tt, c') /\
    Apps.get_model c' = (Apps.Ok 7%nat, c') /\
    Apps.records c'
      = [ (Apps.Info, "EfficientNetB0 モデルをロード中...");
          (Apps.Info, "EfficientNetB0 モデルのロードが完了しました");
          (Apps.Info, "モデルバージョン: v1.0");
          (Apps.Debug, "モデルパラメータ数: 5,330,571");
          (Apps.Warning, "モデル情報の取得に失敗: ");
          (Apps.Info, "画像解析アプリケーション の初期化が完了しました") ].
Proof.
  destruct (ready_loads_the_model reloader_boot Apps.fresh 7%nat eq_refl eq_refl)
    as (c' & added & Heq & _ & Hget & _).
  exists c'. split; [exact Heq|]. split; [exact Hget|].
  vm_compute in Heq. injection Heq as <-. reflexivity.
Defined.

(** X17: started with [RUN_MAIN=true], a failure to import Keras or to
    build the model is raised again by [ready], so the start-up fails; the
    [model] attribute is left as it was, and the failure is logged as an
    error both where it happened and by [ready]. *)
Theorem ready_reraises_load_failures {T : Type} (b : Apps.boot T) (c : Apps.config T) :
  Apps.RUN_MAIN b = Some "true" ->
  forall e,
    (Apps.keras b = Apps.ImportFails /\ e = Apps.ImportError) \/
    Apps.keras b = Apps.ConstructorFails e ->
    exists c' added,
      Apps.ready b c = (Apps.Err e, c') /\
      Apps.model c' = Apps.model c /\
      Apps.records c' = (Apps.records c ++ added)%list /\
      (2 <= length (List.filter is_error added))%nat /\
      List.last added (Apps.Debug, "") = (Apps.Error, "アプリケーション初期化エラー: ").
Proof.
  intros Hrun e Hfail. unfold Apps.ready, Apps._load_ai_model.
  rewrite Hrun. rewrite bool_decide_eq_true_2 by reflexivity. cbn [negb].
  destruct Hfail as [(Hk & ->)|Hk]; rewrite Hk.
  - cbn [Apps.load_failed]. do 2 eexists. split; [reflexivity|].
    cbn [Apps.emit Apps.model Apps.records]. rewrite <- !app_assoc.
    split; [reflexivity|]. split; [reflexivity|]. split; [cbn; lia|reflexivity].
  - destruct e; cbn [Apps.load_failed]; do 2 eexists; (split; [reflexivity|]);
      cbn [Apps.emit Apps.model Apps.records]; rewrite <- !app_assoc;
      (split; [reflexivity|]); (split; [reflexivity|]); (split; [cbn; lia|reflexivity]).
Qed.

Lemma ready_reraises_load_failures_witness :
  exists c',
    Apps.ready no_keras_boot Apps.fresh = (Apps.Err Apps.ImportError, c') /\
    Apps.model c' = None /\
    fst (Apps.get_model c') = Apps.Err Apps.RuntimeError.
Proof.
  destruct (ready_reraises_load_failures no_keras_boot Apps.fresh eq_refl
              Apps.ImportError (or_introl (conj eq_refl eq_refl)))
    as (c' & added & Heq & Hmodel & _).
  exists c'. split; [exact Heq|]. split; [exact Hmodel|].
  unfold Apps.get_model. rewrite Hmodel. reflexivity.
Defined.

(** X18: a process started without [RUN_MAIN=true] (any server but the
    development server's reloader child) loads nothing in [ready]:
    [get_model] raises, and the views, which read the model from the
    application configuration, answer every upload that validates and
    decodes with the inference-failure message, log the inference error and
    create no record. *)
Theorem without_run_main_every_upload_fails (E : env)
    (b : Apps.boot (ndarray E -> option (list raw_prediction)))
    (req : request) (w : world) (file : upload) (x : ndarray E) :
  Apps.RUN_MAIN b <> Some "true" ->
  app_model E = Apps.model (snd (Apps.ready b Apps.fresh)) ->
  method req = POST ->
  imageFile req = Some file ->
  fst (validate_image_file (extension_order E) (Some file)) = true ->
  cv_pipeline E (file_content file) = CvArray x ->
  Apps.ready b Apps.fresh = (Apps.Ok tt, Apps.fresh) /\
  fst (Apps.get_model (snd (Apps.ready b Apps.fresh))) = Apps.Err Apps.RuntimeError /\
  exists w',
    index E req w = (Ret (RenderIndex None None), w') /\
    flash w' = (flash w ++ [(MsgError, msg_inference_failed)])%list /\
    log w' = (log w ++ [{| lg_level := LogError; lg_text := "推論エラー: ";
                           lg_arg := ArgExn AttributeError |}])%list /\
    same_store w w'.
Proof.
  intros Hrun Hmodel Hpost Hfile Hval Hcv.
  assert (Hready : Apps.ready b Apps.fresh = (Apps.Ok tt, Apps.fresh)).
  { unfold Apps.ready. rewrite bool_decide_eq_false_2 by exact Hrun. reflexivity. }
  rewrite Hready in Hmodel |- *. cbn [snd Apps.fresh Apps.model] in Hmodel.
  split; [reflexivity|]. split; [reflexivity|].
  rewrite (index_post _ req Hpost). unfold index_view. rewrite Hpost, Hfile.
  destruct (validate_image_file (extension_order E) (Some file)) as [ok reason].
  simpl in Hval. subst ok.
  run_view. rewrite Hcv, Hmodel.
  eexists. split; [reflexivity|]. wsimpl.
  split; [reflexivity|]. split; [reflexivity|]. unfold same_store. wsimpl. tauto.
Qed.

Lemma without_run_main_every_upload_fails_witness :
  exists w',
    index (env_of (snd (Apps.ready (plain_boot _ (fun _ => Some sample_ranking)) Apps.fresh)))
      (upload_request (Some golden)) (empty_world sample_reference)
      = (Ret (RenderIndex None None), w') /\
    flash w' = [(MsgError, msg_inference_failed)] /\
    table w' = ∅.
Proof.
  assert (Hrun : Apps.RUN_MAIN (plain_boot _ (fun _ : unit => Some sample_ranking))
                 <> Some "true") by discriminate.
  destruct (without_run_main_every_upload_fails
              (env_of (snd (Apps.ready (plain_boot _ (fun _ => Some sample_ranking))
                              Apps.fresh)))
              (plain_boot _ (fun _ => Some sample_ranking))
              (upload_request (Some golden)) (empty_world sample_reference) golden tt
              Hrun eq_refl eq_refl eq_refl eq_refl eq_refl)
    as (_ & _ & w' & Heq & Hflash & _ & (_ & Htab & _)).
  exists w'. split; [exact Heq|]. split; [exact Hflash|exact Htab].
Defined.

(** ** Looking up a label, once more *)

Lemma scan_labels_app (c : string) (before rest : list ref_item) (w : world) :
  Forall (fun it => exists num ja, it = ItemDict num ja /\ num <> Some c) before ->
  scan_labels c (before ++ rest) w = scan_labels c rest w.
Proof.
  induction 1 as [|it l (num & ja & -> & Hne) _ IH]; [reflexivity|].
  cbn [app scan_labels]. rewrite bool_decide_eq_false_2 by exact Hne. exact IH.
Qed.

(** X19: the lookup goes through the array in order and stops at the first
    item that decides.  An entry for the class id answers with its label,
    and later entries for the same id are never read; an item that is not
    an object, met before any entry for the id, ends the lookup with [None]
    and an error record, whatever follows it. *)
Theorem lookup_stops_at_the_first_hit (c : string) (w : world)
    (before after : list ref_item) (it : ref_item) :
  reference w = RefList (before ++ it :: after) ->
  Forall (fun it => exists num ja, it = ItemDict num ja /\ num <> Some c) before ->
  (forall ja, it = ItemDict (Some c) ja -> get_japanese_label c w = (Ret ja, w)) /\
  (it = ItemOther ->
     get_japanese_label c w
       = (Ret None,
          set_log (log w ++ [{| lg_level := LogError; lg_text := "予期しないエラー: ";
                                lg_arg := ArgExn AttributeError |}]) w)).
Proof.
  intros Href Hbefore. split.
  - intros ja ->. run_monad. rewrite Href, (scan_labels_app c before _ w Hbefore).
    cbn [scan_labels]. rewrite bool_decide_eq_true_2 by reflexivity. reflexivity.
  - intros ->. run_monad. rewrite Href, (scan_labels_app c before _ w Hbefore).
    reflexivity.
Qed.

Lemma lookup_stops_at_the_first_hit_witness :
  get_japanese_label "n02099601" (empty_world poisoned_reference)
    = (Ret (Some "ゴールデンレトリバー"), empty_world poisoned_reference) /\
  fst (get_japanese_label "n02123045" (empty_world poisoned_reference)) = Ret None.
Proof.
  assert (H0 : Forall (fun it => exists num ja, it = ItemDict num ja /\ num <> Some "n02099601")
                 []) by constructor.
  assert (H1 : Forall (fun it => exists num ja, it = ItemDict num ja /\ num <> Some "n02123045")
                 [ItemDict (Some "n02099601") (Some "ゴールデンレトリバー")]).
  { constructor; [|constructor]. do 2 eexists. split; [reflexivity|discriminate]. }
  destruct (lookup_stops_at_the_first_hit "n02099601" (empty_world poisoned_reference)
              [] _ _ eq_refl H0) as (Hhit & _).
  destruct (lookup_stops_at_the_first_hit "n02123045" (empty_world poisoned_reference)
              [ItemDict (Some "n02099601") (Some "ゴールデンレトリバー")] _ _ eq_refl H1)
    as (_ & Hother).
  split; [apply Hhit; reflexivity|]. rewrite (Hother eq_refl). reflexivity.
Defined.

(** ** A deletion the database refuses *)

(** X21: when the image file is removed and the database then refuses to
    delete the row, the request is answered with the failure notice and
    the row stays, but its image file is gone: the file is removed before
    the row and is not put back. *)
Theorem refused_delete_loses_the_file (pk : Z) (req : request) (w : world)
    (r : AnalysisResult) :
  method req = POST -> table w !! pk = Some r ->
  owned_file w r = Some Removable -> db_writable w = false ->
  exists w',
    handle (delete_data pk req) w = (Redirect "predict:view_data", w') /\
    table w' = table w /\
    media w' = delete (image r) (media w) /\
    media w' !! image r = None /\
    flash w' = (flash w ++ [(MsgError, msg_delete_failed)])%list /\
    log w' = (log w ++ [{| lg_level := LogError; lg_text := "削除エラー: ";
                           lg_arg := ArgExn DatabaseError |}])%list.
Proof.
  intros Hpost Hrow Hfile Hdb. rewrite (delete_data_post pk req Hpost).
  revert Hfile. unfold owned_file. run_delete. rewrite Hrow, Hdb.
  destruct (String.eqb (image r) ""); [discriminate|]. cbn [negb].
  intros ->. eexists. split; [reflexivity|]. wsimpl.
  repeat split; try reflexivity. apply lookup_delete_eq.
Qed.

Lemma refused_delete_loses_the_file_witness :
  exists w',
    handle (delete_data 7 post_request) tidy_read_only
      = (Redirect "predict:view_data", w') /\
    table w' !! 7 = Some (history_row 7) /\
    media w' !! image (history_row 7) = None.
Proof.
  destruct (refused_delete_loses_the_file 7 post_request tidy_read_only (history_row 7)
              eq_refl eq_refl eq_refl eq_refl)
    as (w' & Heq & Htab & _ & Hgone & _).
  exists w'. split; [exact Heq|]. split; [rewrite Htab; reflexivity|exact Hgone].
Defined.
